(** * Incremental tabular ETL engine: a shallow embedding and its properties

    The development follows the Python sources of the repository:
    - [050 TAK_MESA/050_TAK_MESA.py]         (sheet selection, date window)
    - [051_Particle/051_Particle.py]          (serial numbers, CSV sink, resampler)
    - [052_Facet_THK/Facet_Common.py]         (CSV sink, enrichment)
    - [048 TAK_SPC/048_TAK_SPUT.py]           (cursor store)
    - [Backup/CVD_Crystal_Length_INI contorl V1.3.py] (cursor store, coercion)
    - [Backup/CVD_Grating.py]                 (date filter, enrichment, coercion,
                                               pipeline and cursor updates)

    Conventions of the embedding.
    - A Python [str] is a Rocq [string]; a character is a code point below 256.
    - A timestamp ([datetime], [pandas.Timestamp]) is an integer count of clock
      ticks, so that comparison of timestamps is comparison in [Z].  The range
      limits of the Python types are not modelled.
    - Library calls whose code is not part of the repository ([pd.to_datetime],
      [float], [strftime], [SQL.selectSQL], ...) are parameters of the sections
      that use them.
    - A function that can raise returns a [Res]; [try]/[except] is written out. *)

From Stdlib Require Import ZArith QArith List Ascii String Bool Lia.
From stdpp Require Import base option list strings gmap.

Close Scope Q_scope.

Open Scope string_scope.
Open Scope list_scope.
Open Scope Z_scope.

(** ** Python exceptions and results *)

Inductive Exn : Type :=
| ValueError
| TypeError
| OverflowError
| OSError
| KeyError
| OtherError.

Inductive Res (A : Type) : Type :=
| Done (a : A)
| Raise (e : Exn).
Arguments Done {A} a.
Arguments Raise {A} e.

#[global] Instance Res_ret : MRet Res := fun A a => Done a.

#[global] Instance Res_bind : MBind Res := fun A B k r =>
  match r with
  | Done a => k a
  | Raise e => Raise e
  end.

(** [except (ValueError, TypeError)] *)
Definition is_value_or_type_error (e : Exn) : bool :=
  match e with
  | ValueError | TypeError => true
  | _ => false
  end.

(** ** Python strings *)

Module PyStr.

(** [str.isspace] on one character, which is also the class [\s] of [re]
    for [str] patterns: TAB..CR, FS..US, SPACE, NEL and NBSP. *)
Definition isspace (c : ascii) : bool :=
  let n := N_of_ascii c in
  ((9 <=? n) && (n <=? 13) || (28 <=? n) && (n <=? 32)
   || (n =? 133) || (n =? 160))%N.

(** the class [[0-9]] *)
Definition is_ascii_digit (c : ascii) : bool :=
  let n := N_of_ascii c in ((48 <=? n) && (n <=? 57))%N.

Definition digit_value (c : ascii) : Z := Z.of_N (N_of_ascii c) - 48.

Fixpoint lstrip (s : string) : string :=
  match s with
  | String c s' => if isspace c then lstrip s' else s
  | EmptyString => EmptyString
  end.

Fixpoint rev_append (s acc : string) : string :=
  match s with
  | EmptyString => acc
  | String c s' => rev_append s' (String c acc)
  end.

Definition rev (s : string) : string := rev_append s EmptyString.

Definition rstrip (s : string) : string := rev (lstrip (rev s)).

(** [s.strip()] *)
Definition strip (s : string) : string := rstrip (lstrip s).

Fixpoint all_chars (p : ascii -> bool) (s : string) : bool :=
  match s with
  | EmptyString => true
  | String c s' => p c && all_chars p s'
  end.

(** [s.isdigit()] on text whose digits are ASCII: at least one character
    and every character a digit 0 to 9. *)
Definition isdigit (s : string) : bool :=
  match s with
  | EmptyString => false
  | _ => all_chars is_ascii_digit s
  end.

(** [int(s)] for a string of decimal digits, most significant first. *)
Fixpoint int_digits_from (acc : Z) (s : string) : Z :=
  match s with
  | EmptyString => acc
  | String c s' => int_digits_from (10 * acc + digit_value c) s'
  end.

Definition int_of_digits (s : string) : Z := int_digits_from 0 s.

(** [s.lower()] on the letters A..Z. *)
Definition lower_char (c : ascii) : ascii :=
  let n := N_of_ascii c in
  if ((65 <=? n) && (n <=? 90))%N then ascii_of_N (n + 32) else c.

Fixpoint lower (s : string) : string :=
  match s with
  | EmptyString => EmptyString
  | String c s' => String (lower_char c) (lower s')
  end.

(** If [p] is a prefix of [s], what follows it. *)
Fixpoint strip_prefix (p s : string) : option string :=
  match p, s with
  | EmptyString, _ => Some s
  | String a p', String b s' =>
      if Ascii.eqb a b then strip_prefix p' s' else None
  | String _ _, EmptyString => None
  end.

(** The longest run of digits at the head of [s], and the rest. *)
Fixpoint span_digits (s : string) : string * string :=
  match s with
  | String c s' =>
      if is_ascii_digit c
      then let '(d, r) := span_digits s' in (String c d, r)
      else (EmptyString, s)
  | EmptyString => (EmptyString, EmptyString)
  end.

End PyStr.

(** ** Latest versioned sheet ([050_TAK_MESA.py], [find_latest_sheet]) *)

Module Sheets.

(** The optional group [(?:\s*\(([0-9]+)\))?$] on what follows the escaped
    pattern: [Some None] when the group is absent and the string ends,
    [Some (Some digits)] when the group matches up to the end of the string,
    [None] when the regular expression does not match. *)
Definition match_suffix (rest : string) : option (option string) :=
  match rest with
  | EmptyString => Some None
  | _ =>
      match PyStr.lstrip rest with
      | String "("%char after =>
          let '(digits, tail) := PyStr.span_digits after in
          match digits, tail with
          | String _ _, String ")"%char EmptyString => Some (Some digits)
          | _, _ => None
          end
      | _ => None
      end
  end.

(** [regex.match(sheet.strip())] followed by
    [version = int(version_str) if version_str else 0]:
    the version of a sheet that matches, [None] for one that does not. *)
Definition sheet_version (pattern sheet : string) : option Z :=
  match PyStr.strip_prefix pattern (PyStr.strip sheet) with
  | None => None
  | Some rest =>
      match match_suffix rest with
      | None => None
      | Some None => Some 0
      | Some (Some digits) => Some (PyStr.int_of_digits digits)
      end
  end.

(** One iteration of the loop over [all_sheets]; the state is
    [(latest_sheet, latest_version)]. *)
Definition step (pattern : string) (st : option string * Z) (sheet : string)
  : option string * Z :=
  match sheet_version pattern sheet with
  | Some version =>
      if version >=? snd st then (Some sheet, version) else st
  | None => st
  end.

Definition scan (pattern : string) (st : option string * Z)
  (all_sheets : list string) : option string * Z :=
  fold_left (step pattern) all_sheets st.

Definition find_latest_sheet (all_sheets : list string) (pattern : string)
  : option string :=
  fst (scan pattern (None, -1) all_sheets).

End Sheets.


(** ** Cells, timestamps and the library interface *)

(** A Python [float]: not-a-number, an infinity, or a finite value, which
    is a rational.  Rounding to 53 bits is not modelled. *)
Inductive PyFloat : Type :=
| FNan
| FInf (negative : bool)
| FFin (q : Q).

(** The value of one spreadsheet or data-frame cell.  [CNone] stands for
    [None] and [NaT]; the float [FNan] is kept as a float. *)
Inductive Cell : Type :=
| CNone
| CStr (s : string)
| CInt (z : Z)
| CFloat (f : PyFloat)
| CBool (b : bool)
| CTime (t : Z).

(** [pd.isna(v)] / [pd.isnull(v)]; [pd.notna] is its negation. *)
Definition isna (v : Cell) : bool :=
  match v with
  | CNone | CFloat FNan => true
  | _ => false
  end.

(** Timestamps count nanoseconds. *)
Definition ticks_per_day : Z := 86400 * 1000000000.

(** [timedelta(days=n)] *)
Definition timedelta_days (n : Z) : Z := n * ticks_per_day.

(** Calendar date of a timestamp, as [strftime] sees it. *)
Record Date : Type := { year : Z; month : Z; day : Z }.

(** The library functions the scripts call, whose code is outside the
    repository. *)
Class PyLib : Type := {
  (** [pd.to_datetime(v)], which raises on what it cannot parse and may
      return [NaT] ([None] here) *)
  to_datetime : Cell -> Res (option Z);
  (** [pd.to_datetime(v, errors='coerce')]: [NaT] instead of an error *)
  to_datetime_coerce : Cell -> option Z;
  (** [t.strftime('%Y-%m-%d %H:%M:%S')], the format of the cursor file *)
  strftime_cursor : Z -> string;
  (** [t.strftime('%Y/%m/%d %H:%M:%S')], the canonical datetime cell *)
  strftime_slash : Z -> string;
  (** year, month and day of a timestamp *)
  civil : Z -> Date;
  (** [float(s)] on a string: [None] is [ValueError] *)
  float_of_string : string -> option PyFloat;
  (** [int(s)] on a string: [None] is [ValueError] *)
  int_of_string : string -> option Z;
  (** [pd.to_numeric(v, errors='coerce')]: [NaN] for what is no number *)
  to_numeric_coerce : Cell -> PyFloat;
  (** [str(v)] *)
  py_str : Cell -> string;
  (** [os.path.dirname] *)
  dirname : string -> string
}.

(** ** Serial numbers ([051_Particle.py], [build_serial_from_prefix]) *)

Module Serial.

(** What [date_source] can be: a string, a timestamp or [NaT]. *)
Inductive DateSource : Type :=
| DsStr (s : string)
| DsTimestamp (t : Z)
| DsNaT.

Definition digit_char (n : Z) : ascii := ascii_of_N (Z.to_N (48 + n mod 10)).

(** [%02d] for [0 <= n < 100] *)
Definition two_digits (n : Z) : string :=
  String (digit_char (n / 10)) (String (digit_char n) EmptyString).

(** [strftime("%y%m%d")] *)
Definition yymmdd (d : Date) : string :=
  two_digits (year d mod 100) +:+ two_digits (month d) +:+ two_digits (day d).

(** [if date_source:] *)
Definition truthy (date_source : option DateSource) : bool :=
  match date_source with
  | None => false
  | Some (DsStr s) => negb (String.eqb s "")
  | Some (DsTimestamp _) => true
  | Some DsNaT => true
  end.

Definition cell_of_source (ds : DateSource) : Cell :=
  match ds with
  | DsStr s => CStr s
  | DsTimestamp t => CTime t
  | DsNaT => CNone
  end.

(** [pd.to_datetime(date_source).strftime("%y%m%d")]; [NaT.strftime]
    raises [ValueError]. *)
Definition format_source `{PyLib} (ds : DateSource) : Res string :=
  r ← to_datetime (cell_of_source ds);
  match r with
  | Some t => Done (yymmdd (civil t))
  | None => Raise ValueError
  end.

(** [today] is the reading of [datetime.today()]. *)
Definition build_serial_from_prefix `{PyLib}
  (prefix : option string) (date_source : option DateSource) (today : Z)
  : Res string :=
  yymmdd0 ←
    match date_source with
    | Some ds =>
        if truthy date_source then
          match format_source ds with
          | Done s => Done s
          | Raise e => if is_value_or_type_error e then Done "" else Raise e
          end
        else Done ""
    | None => Done ""
    end;
  let yymmdd1 :=
    if String.eqb yymmdd0 "" then yymmdd (civil today) else yymmdd0 in
  let prefix' := PyStr.strip (default "" prefix) in
  Done (if String.eqb prefix' "" then yymmdd1 else prefix' +:+ yymmdd1).

End Serial.

(** ** The world outside the process: files, clock and log *)

Inductive Node : Type :=
| File (text : string)
| Dir.

Inductive Level : Type := Info | Warning | Error.

Record World : Type := {
  (** the file system, by path *)
  files : gmap string Node;
  (** paths that cannot be opened or created (permissions, sharing) *)
  locked : gset string;
  (** successive readings of the clock and how many were taken *)
  clock : nat -> Z;
  reads : nat;
  (** what [Log.Log_Info] and [Log.Log_Error] recorded, latest first *)
  log : list (Level * string)
}.

(** A computation reads and changes the world and returns or raises; the
    changes made before an exception are kept. *)
Definition IO (A : Type) : Type := World -> Res A * World.

Definition ret {A} (a : A) : IO A := fun w => (Done a, w).

Definition bind {A B} (c : IO A) (k : A -> IO B) : IO B := fun w =>
  match c w with
  | (Done a, w') => k a w'
  | (Raise e, w') => (Raise e, w')
  end.

Notation "x <-- c ;; k" := (bind c (fun x => k))
  (at level 100, c at next level, k at level 200, right associativity).

(** [try: c  except Exception as e: h e] *)
Definition try_except {A} (c : IO A) (h : Exn -> IO A) : IO A := fun w =>
  match c w with
  | (Done a, w') => (Done a, w')
  | (Raise e, w') => h e w'
  end.

Definition raise {A} (e : Exn) : IO A := fun w => (Raise e, w).

Definition with_files (f : gmap string Node) (w : World) : World :=
  {| files := f; locked := locked w; clock := clock w;
     reads := reads w; log := log w |}.

Definition Log_ (l : Level) (msg : string) : IO unit := fun w =>
  (Done tt, {| files := files w; locked := locked w; clock := clock w;
               reads := reads w; log := (l, msg) :: log w |}).

(** [datetime.now()] / [datetime.today()] *)
Definition now_ : IO Z := fun w =>
  (Done (clock w (reads w)),
   {| files := files w; locked := locked w; clock := clock w;
      reads := S (reads w); log := log w |}).

(** [os.path.exists(p)] *)
Definition path_exists (p : string) : IO bool := fun w =>
  (Done (bool_decide (is_Some (files w !! p))), w).

(** [os.path.isfile(p)] *)
Definition path_isfile (p : string) : IO bool := fun w =>
  (Done (match files w !! p with Some (File _) => true | _ => false end), w).

(** A file can be created or opened at [p] when [p] is not locked, is not
    a directory, and its directory exists (the empty directory name is the
    working directory). *)
Definition can_open `{PyLib} (w : World) (p : string) : bool :=
  bool_decide (p ∉ locked w)
  && match files w !! p with Some Dir => false | _ => true end
  && (String.eqb (dirname p) ""
      || match files w !! dirname p with Some Dir => true | _ => false end).

(** [with open(p, 'w') as f: f.write(text)] *)
Definition write_file `{PyLib} (p text : string) : IO unit := fun w =>
  if can_open w p
  then (Done tt, with_files (<[p := File text]> (files w)) w)
  else (Raise OSError, w).

(** [with open(p, 'a') as f: f.write(text)] *)
Definition append_file `{PyLib} (p text : string) : IO unit := fun w =>
  if can_open w p
  then
    let old := match files w !! p with Some (File t) => t | _ => "" end in
    (Done tt, with_files (<[p := File (old +:+ text)]> (files w)) w)
  else (Raise OSError, w).

(** [with open(p, 'r') as f: f.read()] *)
Definition read_file (p : string) : IO string := fun w =>
  match files w !! p with
  | Some (File t) =>
      if bool_decide (p ∈ locked w) then (Raise OSError, w) else (Done t, w)
  | _ => (Raise OSError, w)
  end.

(** [os.makedirs(d)] for a directory whose parent is there *)
Definition makedirs (d : string) : IO unit := fun w =>
  if bool_decide (d ∈ locked w) || bool_decide (is_Some (files w !! d))
  then (Raise OSError, w)
  else (Done tt, with_files (<[d := Dir]> (files w)) w).

(** [p.mkdir(parents=True, exist_ok=True)] *)
Definition mkdir_exist_ok (d : string) : IO unit := fun w =>
  match files w !! d with
  | Some Dir => (Done tt, w)
  | Some (File _) => (Raise OSError, w)
  | None =>
      if bool_decide (d ∈ locked w) then (Raise OSError, w)
      else (Done tt, with_files (<[d := Dir]> (files w)) w)
  end.

(** ** CSV sink ([Facet_Common.py] and [051_Particle.py], [write_to_csv]) *)

Module CsvSink.

(** A data frame as [to_csv] renders it: the header line and the data
    lines. *)
Record CsvFrame : Type := { header_text : string; rows_text : string }.

(** [df.to_csv(path, mode='a', header=h, index=False)] *)
Definition to_csv_append `{PyLib} (path : string) (df : CsvFrame) (h : bool)
  : IO unit :=
  append_file path ((if h then header_text df else "") +:+ rows_text df).

(** [Facet_Common.write_to_csv] *)
Definition write_to_csv_facet `{PyLib} (csv_filepath : string) (df : CsvFrame)
  : IO bool :=
  _ <-- Log_ Info "Executing function write_to_csv..." ;;
  try_except
    (file_exists <-- path_isfile csv_filepath ;;
     _ <-- to_csv_append csv_filepath df (negb file_exists) ;;
     _ <-- Log_ Info "Function write_to_csv executed successfully." ;;
     ret true)
    (fun _ =>
     _ <-- Log_ Error "Function write_to_csv failed" ;;
     ret false).

(** [csv_path.parent.mkdir(parents=True, exist_ok=True)] *)
Definition parent_mkdir `{PyLib} (p : string) : IO unit :=
  if String.eqb (dirname p) "" then ret tt else mkdir_exist_ok (dirname p).

(** [051_Particle.write_to_csv] *)
Definition write_to_csv_particle `{PyLib} (csv_path : string) (df : CsvFrame)
  : IO unit :=
  _ <-- parent_mkdir csv_path ;;
  existed <-- path_exists csv_path ;;
  to_csv_append csv_path df (negb existed).

End CsvSink.

(** ** Cursor store ([read_running_rec], [update_running_rec]) *)

Module CursorStore.

Definition DEFAULT_FALLBACK_DAYS : Z := 30.

(** [datetime.today() - timedelta(days=n)] raises [OverflowError] when
    [timedelta] cannot hold [n] days, or when the difference is outside the
    years 1 to 9999 of [datetime].  The scripts compute their look-back
    date before any [try]; the functions below follow them for a look-back
    within that range. *)
Definition look_back_in_range `{PyLib} (today days : Z) : bool :=
  (Z.abs days <=? 999999999)
  && (1 <=? year (civil (today - timedelta_days days)))
  && (year (civil (today - timedelta_days days)) <=? 9999).

(** [update_running_rec], the same in [CVD_Grating.py] and in
    [CVD_Crystal_Length_INI contorl V1.3.py] *)
Definition update_running_rec `{PyLib} (running_rec_path : string)
  (end_date : Z) : IO unit :=
  try_except
    (_ <-- write_file running_rec_path (strftime_cursor end_date) ;;
     Log_ Info "Running record file updated")
    (fun _ => Log_ Error "Error updating running record file").

(** [rec_dir = os.path.dirname(p)] followed by
    [if rec_dir and not os.path.exists(rec_dir): os.makedirs(rec_dir)] *)
Definition ensure_rec_dir `{PyLib} (running_rec_path : string) : IO unit :=
  let rec_dir := dirname running_rec_path in
  if String.eqb rec_dir "" then ret tt
  else
    present <-- path_exists rec_dir ;;
    if present then ret tt else makedirs rec_dir.

(** [read_running_rec] of [CVD_Crystal_Length_INI contorl V1.3.py] *)
Definition read_running_rec_v13 `{PyLib} (running_rec_path : string)
  (default_days_ago : Z) : IO Z :=
  today <-- now_ ;;
  let fallback_date := today - timedelta_days default_days_ago in
  present <-- path_exists running_rec_path ;;
  if negb present then
    _ <-- try_except
          (_ <-- ensure_rec_dir running_rec_path ;;
           _ <-- write_file running_rec_path "" ;;
           Log_ Info "Running record file not found, created empty file")
          (fun _ => Log_ Error "Failed to create running record file") ;;
    ret fallback_date
  else
    try_except
      (text <-- read_file running_rec_path ;;
       let content := PyStr.strip text in
       if negb (String.eqb content "") then
         match to_datetime_coerce (CStr content) with
         | None =>
             _ <-- Log_ Error "Running record file content format error" ;;
             ret fallback_date
         | Some last_run_date =>
             _ <-- Log_ Info "Read last run time" ;;
             ret last_run_date
         end
       else
         _ <-- Log_ Info "Running record file is empty" ;;
         ret fallback_date)
      (fun _ =>
       _ <-- Log_ Error "Error reading running_rec file" ;;
       ret fallback_date).

(** [datetime.today() - timedelta(days=30)] *)
Definition thirty_days_ago : IO Z :=
  today <-- now_ ;; ret (today - timedelta_days 30).

(** [read_running_rec] of [048_TAK_SPUT.py] *)
Definition read_running_rec_048 `{PyLib} (running_rec_path : string) : IO Z :=
  present <-- path_exists running_rec_path ;;
  if negb present then
    _ <-- write_file running_rec_path "" ;;
    thirty_days_ago
  else
    try_except
      (text <-- read_file running_rec_path ;;
       let content := PyStr.strip text in
       if negb (String.eqb content "") then
         match to_datetime_coerce (CStr content) with
         | None => thirty_days_ago
         | Some last_run_date => ret last_run_date
         end
       else thirty_days_ago)
      (fun _ =>
       _ <-- Log_ Error "Error reading running record file" ;;
       thirty_days_ago).

(** [read_running_rec] of [CVD_Grating.py]: the threshold is always the
    look-back date; the file is read for the log only. *)
Definition read_running_rec `{PyLib} (running_rec_path : string)
  (default_days_ago : Z) : IO Z :=
  today <-- now_ ;;
  let processing_start_date := today - timedelta_days default_days_ago in
  _ <-- Log_ Info "Calculating processing start threshold based on Data_date" ;;
  _ <-- Log_ Info "The content of the running_rec file will NOT be used" ;;
  present <-- path_exists running_rec_path ;;
  _ <-- (if present then
         try_except
           (text <-- read_file running_rec_path ;;
            if negb (String.eqb (PyStr.strip text) "")
            then Log_ Info "content of running_rec file"
            else Log_ Info "running_rec file is empty")
           (fun _ => Log_ Error "error reading running_rec file")
       else
         _ <-- Log_ Info "Running_rec file not found" ;;
         try_except
           (ensure_rec_dir running_rec_path)
           (fun _ => Log_ Error "Failed to ensure directory for running_rec")) ;;
  ret processing_start_date.

End CursorStore.

(** ** Data frames *)

Module Frame.

Definition Row : Type := list Cell.

(** A frame has [ncols] columns and rows that carry their index label.
    Columns are addressed by position; a column added by name
    ([df['part_number'] = None]) goes to the right end. *)
Record DataFrame : Type := { ncols : nat; rows : list (Z * Row) }.

(** [df.empty]: some axis has length zero. *)
Definition empty (df : DataFrame) : bool :=
  match rows df with
  | [] => true
  | _ :: _ => Nat.eqb (ncols df) 0
  end.

(** [row.iloc[c]] *)
Definition iloc (r : Row) (c : nat) : Cell := nth c r CNone.

(** [row.iat[c] = v] *)
Definition set_iat (r : Row) (c : nat) (v : Cell) : Row := <[c := v]> r.

Definition labels (df : DataFrame) : list Z := map fst (rows df).

Definition relabel_from (start : Z) (rs : list (Z * Row)) : list (Z * Row) :=
  imap (fun i lr => (start + Z.of_nat i, snd lr)) rs.

(** [df.reset_index(drop=True)] *)
Definition reset_index (df : DataFrame) : DataFrame :=
  {| ncols := ncols df; rows := relabel_from 0 (rows df) |}.

(** [0 <= i < df.shape[1]] for a configured integer [i] *)
Definition in_columns (i : Z) (df : DataFrame) : bool :=
  (0 <=? i) && (i <? Z.of_nat (ncols df)).

(** [df[name] = v] for a new column: one more cell in every row *)
Definition add_column (v : Cell) (df : DataFrame) : DataFrame :=
  {| ncols := S (ncols df);
     rows := map (fun lr => (fst lr, (snd lr ++ [v])%list)) (rows df) |}.

(** [df.dropna(subset=[c])] for the column at position [c] *)
Definition dropna_col (c : nat) (df : DataFrame) : DataFrame :=
  {| ncols := ncols df;
     rows := List.filter (fun lr => negb (isna (iloc (snd lr) c))) (rows df) |}.

(** [df.loc[label, c] = v]: every row that carries the label *)
Definition set_loc (label : Z) (c : nat) (v : Cell) (rs : list (Z * Row))
  : list (Z * Row) :=
  map (fun lr => if Z.eqb (fst lr) label
                 then (fst lr, set_iat (snd lr) c v) else lr) rs.

(** [df.drop(index=ls)]: by label; a label that is not in the index is a
    [KeyError]. *)
Definition drop_index (ls : list Z) (df : DataFrame) : Res DataFrame :=
  if forallb (fun l => existsb (Z.eqb l) (labels df)) ls
  then Done {| ncols := ncols df;
               rows := List.filter
                         (fun lr => negb (existsb (Z.eqb (fst lr)) ls))
                         (rows df) |}
  else Raise KeyError.

End Frame.

(** ** The stages of [CVD_Grating.py] *)

Module Grating.
Import Frame.

(** [fields_map]: logical field name to (column spec, type name), in the
    order of the configuration. *)
Definition FieldsMap : Type := list (string * (string * string)).

(** [fields_map.get(key)] *)
Fixpoint get_field (key : string) (fm : FieldsMap) : option (string * string) :=
  match fm with
  | [] => None
  | (k, v) :: fm' => if String.eqb k key then Some v else get_field key fm'
  end.

(** [series.dropna().max()], [None] for a series without valid value *)
Definition max_timestamp (parsed : list (option Z)) : option Z :=
  fold_left (fun acc o =>
               match o, acc with
               | Some t, Some m => Some (Z.max m t)
               | Some t, None => Some t
               | None, _ => acc
               end) parsed None.

(** The column of parsed dates, [pd.to_datetime(col, errors='coerce')]. *)
Definition parsed_dates `{PyLib} (c : nat) (df : DataFrame) : list (option Z) :=
  map (fun lr => to_datetime_coerce (iloc (snd lr) c)) (rows df).

(** [df.dropna(subset=['__parsed_date__'])] *)
Definition drop_unparsed `{PyLib} (c : nat) (rs : list (Z * Row))
  : list (Z * Row * Z) :=
  omap (fun lr => match to_datetime_coerce (iloc (snd lr) c) with
                  | Some t => Some (lr, t)
                  | None => None
                  end) rs.

(** [df[df['__parsed_date__'] >= threshold]], then the helper column is
    dropped *)
Definition keep_since (threshold : Z) (rs : list (Z * Row * Z))
  : list (Z * Row) :=
  map fst (List.filter (fun lrt => threshold <=? snd lrt) rs).

(** The filter proper: the rows kept for a threshold, and the latest valid
    date of the column before filtering. *)
Definition date_window `{PyLib} (c : nat) (threshold : Z) (df : DataFrame)
  : DataFrame * option Z :=
  ({| ncols := ncols df;
      rows := keep_since threshold (drop_unparsed c (rows df)) |},
   max_timestamp (parsed_dates c df)).

(** [_apply_date_filter] *)
Definition _apply_date_filter `{PyLib} (df : DataFrame) (fields_map : FieldsMap)
  (running_rec_path : string) (date_filter_days : Z)
  : IO (DataFrame * option Z) :=
  if empty df then ret (df, None)
  else
    processing_start_threshold <--
      CursorStore.read_running_rec running_rec_path date_filter_days ;;
    match get_field "key_Start_Date_Time" fields_map with
    | None =>
        _ <-- Log_ Error "Date filter skipped: key_Start_Date_Time" ;;
        ret (df, None)
    | Some (start_date_col_spec, _) =>
        if negb (PyStr.isdigit start_date_col_spec) then
          _ <-- Log_ Error "Date filter skipped: key_Start_Date_Time" ;;
          ret (df, None)
        else
          let start_date_col_idx := PyStr.int_of_digits start_date_col_spec in
          if negb (in_columns start_date_col_idx df) then
            _ <-- Log_ Error "Date filter skipped: index out of bounds" ;;
            ret (df, None)
          else
            let '(df_filtered, latest_date_in_original_file) :=
              date_window (Z.to_nat start_date_col_idx)
                          processing_start_threshold df in
            _ <-- (if empty df_filtered then
                     match latest_date_in_original_file with
                     | Some latest =>
                         if latest >? processing_start_threshold
                         then CursorStore.update_running_rec
                                running_rec_path latest
                         else ret tt
                     | None => ret tt
                     end
                   else ret tt) ;;
            ret (df_filtered, latest_date_in_original_file)
    end.

(** The lookup service [SQL] of the repository's [MyModule], which is not
    among the sources: whether [connSQL] gives a connection, and what
    [selectSQL] returns for a serial number. *)
Inductive Connection : Type :=
| Connected
| NoConnection
| ConnectRaises (e : Exn).

Class SqlDb : Type := {
  connSQL : Connection;
  selectSQL : string -> Res (Cell * Cell)
}.

(** The body of the loop over [df_enriched.iterrows()] for one row; [pn]
    and [lot] are the positions of the two new columns. *)
Definition enrich_row `{PyLib} `{SqlDb} (serial_idx pn lot : nat)
  (rs : list (Z * Row)) (lr : Z * Row) : list (Z * Row) :=
  let serial_num := iloc (snd lr) serial_idx in
  if negb (isna serial_num)
     && negb (String.eqb (PyStr.strip (py_str serial_num)) "")
  then
    match selectSQL (py_str serial_num) with
    | Done (part_num, lot_num_9) =>
        set_loc (fst lr) lot lot_num_9 (set_loc (fst lr) pn part_num rs)
    | Raise _ => rs
    end
  else rs.

(** [_enrich_with_sql_data] *)
Definition _enrich_with_sql_data `{PyLib} `{SqlDb} (df : DataFrame)
  (serial_num_col_idx_cfg : Z) : DataFrame :=
  if empty df then df
  else
    let pn := ncols df in
    let lot := S (ncols df) in
    let df_enriched := add_column CNone (add_column CNone df) in
    if negb (in_columns serial_num_col_idx_cfg df_enriched) then df_enriched
    else
      match connSQL with
      | NoConnection => df_enriched
      | Connected =>
          let serial_idx := Z.to_nat serial_num_col_idx_cfg in
          let looked_up :=
            fold_left (enrich_row serial_idx pn lot)
                      (rows df_enriched) (rows df_enriched) in
          reset_index
            (dropna_col pn {| ncols := ncols df_enriched; rows := looked_up |})
      | ConnectRaises _ => reset_index (dropna_col pn df_enriched)
      end.

(** Value of [df_xy_coords.iloc[r, c]] when both indices are in range *)
Definition xy_value (df_xy : DataFrame) (r : nat) (c : Z) : Cell :=
  match nth_error (rows df_xy) r with
  | Some lr => if in_columns c df_xy then iloc (snd lr) (Z.to_nat c) else CNone
  | None => CNone
  end.

(** [_merge_xy_coordinates]: columns [X1], [Y1], ..., the same value in every
    row *)
Definition _merge_xy_coordinates (df df_xy_coords : DataFrame)
  (xy_num_points_cfg : nat) (x_col y_col : Z) : DataFrame :=
  if empty df then df
  else
    fold_left
      (fun acc i =>
         if empty df_xy_coords
         then add_column CNone (add_column CNone acc)
         else add_column (xy_value df_xy_coords i y_col)
                (add_column (xy_value df_xy_coords i x_col) acc))
      (seq 0 xy_num_points_cfg) df.

(** [float(v)] *)
Definition py_float `{PyLib} (v : Cell) : Res PyFloat :=
  match v with
  | CStr s =>
      match float_of_string s with
      | Some f => Done f
      | None => Raise ValueError
      end
  | CInt z => Done (FFin (inject_Z z))
  | CFloat f => Done f
  | CBool b => Done (FFin (inject_Z (if b then 1 else 0)))
  | CTime _ | CNone => Raise TypeError
  end.

(** [int(f)] on a float: truncation towards zero *)
Definition int_of_float (f : PyFloat) : Res Z :=
  match f with
  | FNan => Raise ValueError
  | FInf _ => Raise OverflowError
  | FFin q => Done (Z.quot (Qnum q) (Z.pos (Qden q)))
  end.

(** [int(v)] *)
Definition py_int `{PyLib} (v : Cell) : Res Z :=
  match v with
  | CStr s =>
      match int_of_string s with
      | Some z => Done z
      | None => Raise ValueError
      end
  | CInt z => Done z
  | CFloat f => int_of_float f
  | CBool b => Done (if b then 1 else 0)
  | CTime _ | CNone => Raise TypeError
  end.

(** [bool(v)] on a value that is not a string *)
Definition py_bool (v : Cell) : bool :=
  match v with
  | CNone => false
  | CStr s => negb (String.eqb s "")
  | CInt z => negb (z =? 0)
  | CFloat (FFin q) => negb (Qnum q =? 0)
  | CFloat _ => true
  | CBool b => b
  | CTime _ => true
  end.

(** The [try] block of [_apply_type_conversions]: the converted value for a
    declared type.  [via_float] tells the two scripts apart:
    [int(float(v))] in [CVD_Grating.py], [int(v)] in
    [CVD_Crystal_Length_INI contorl V1.3.py]. *)
Definition convert_value `{PyLib} (via_float : bool) (dtype_str : string)
  (original_value : Cell) : Res Cell :=
  if String.eqb dtype_str "float" then
    f ← py_float original_value; Done (CFloat f)
  else if String.eqb dtype_str "int" then
    if via_float
    then f ← py_float original_value; z ← int_of_float f; Done (CInt z)
    else z ← py_int original_value; Done (CInt z)
  else if String.eqb dtype_str "datetime" then
    r ← to_datetime original_value;
    match r with
    | Some t => Done (CStr (strftime_slash t))
    | None => Raise ValueError
    end
  else if String.eqb dtype_str "bool" then
    match original_value with
    | CStr s =>
        if String.eqb (PyStr.lower s) "true" then Done (CBool true)
        else if String.eqb (PyStr.lower s) "false" then Done (CBool false)
        else Raise ValueError
    | _ => Done (CBool (py_bool original_value))
    end
  else if String.eqb dtype_str "str" then Done (CStr (py_str original_value))
  else Done original_value.

(** What the loop over the fields leaves of one row: the row with every
    field converted, or the row as it stands when a conversion failed and
    the row was marked for removal. *)
Inductive RowOutcome : Type :=
| Converted (r : Row)
| Marked (r : Row).

Definition outcome_row (o : RowOutcome) : Row :=
  match o with
  | Converted r | Marked r => r
  end.

(** The loop [for xml_key, (col_spec, dtype_str) in fields_map.items()] on
    the row at hand; [width] is [df_converted.shape[1]]. *)
Fixpoint convert_fields `{PyLib} (via_float : bool) (width : nat)
  (fields_map : FieldsMap) (r : Row) : Res RowOutcome :=
  match fields_map with
  | [] => Done (Converted r)
  | (xml_key, (col_spec, dtype_str)) :: rest =>
      if negb (PyStr.isdigit col_spec) then
        convert_fields via_float width rest r
      else
        let original_col_idx := PyStr.int_of_digits col_spec in
        if negb (original_col_idx <? Z.of_nat width) then
          convert_fields via_float width rest r
        else
          let c := Z.to_nat original_col_idx in
          let original_value := iloc r c in
          if isna original_value then
            convert_fields via_float width rest (set_iat r c CNone)
          else
            match convert_value via_float dtype_str original_value with
            | Done converted_value =>
                convert_fields via_float width rest (set_iat r c converted_value)
            | Raise e =>
                if is_value_or_type_error e then Done (Marked r) else Raise e
            end
  end.

(** The loop [for row_idx in range(len(df_converted))]: the frame after the
    loop, still with every row, and [rows_to_drop_indices]. *)
Fixpoint convert_rows `{PyLib} (via_float : bool) (width : nat)
  (fields_map : FieldsMap) (row_idx : Z) (rs : list (Z * Row))
  : Res (list (Z * Row) * list Z) :=
  match rs with
  | [] => Done ([], [])
  | (label, r) :: rs' =>
      o ← convert_fields via_float width fields_map r;
      rest ← convert_rows via_float width fields_map (row_idx + 1) rs';
      Done ((label, outcome_row o) :: fst rest,
            match o with
            | Converted _ => snd rest
            | Marked _ => row_idx :: snd rest
            end)
  end.

(** [_apply_type_conversions] *)
Definition _apply_type_conversions `{PyLib} (via_float : bool)
  (df : DataFrame) (fields_map : FieldsMap) : Res DataFrame :=
  if empty df then Done df
  else
    looped ← convert_rows via_float (ncols df) fields_map 0 (rows df);
    let df_converted := {| ncols := ncols df; rows := fst looped |} in
    match snd looped with
    | [] => Done df_converted
    | rows_to_drop_indices =>
        dropped ← drop_index rows_to_drop_indices df_converted;
        Done (reset_index dropped)
    end.

(** [_perform_column_renaming] changes the names of columns only, which a
    frame addressed by position does not carry. *)
Definition _perform_column_renaming (df : DataFrame) : DataFrame := df.

(** How the sinks name and render their files. *)
Class SinkFormat : Type := {
  (** [os.path.join(csv_base_path, f"{ini}_{now:%Y%m%d%H%M%S}.csv")] *)
  csv_file_path : string -> string -> Z -> string;
  (** the text [df.to_csv(index=False)] writes *)
  csv_text : DataFrame -> string;
  (** path and text of the pointer XML for a CSV path and a clock reading *)
  xml_file_path : string -> Z -> string;
  xml_text : string -> Z -> string
}.

(** [_save_to_csv]: the path of the CSV that was written, if any *)
Definition _save_to_csv `{PyLib} `{SinkFormat} (df : DataFrame)
  (csv_base_path ini_filename_base : string) : IO (option string) :=
  if empty df then
    _ <-- Log_ Info "CSV saving skipped: DataFrame is empty." ;;
    ret None
  else
    stamp <-- now_ ;;
    let csv_filepath_full :=
      csv_file_path csv_base_path ini_filename_base stamp in
    try_except
      (present <-- path_exists csv_base_path ;;
       _ <-- (if present then ret tt
              else _ <-- makedirs csv_base_path ;;
                   Log_ Info "Created CSV directory") ;;
       _ <-- write_file csv_filepath_full (csv_text df) ;;
       _ <-- Log_ Info "Data written to CSV file" ;;
       ret (Some csv_filepath_full))
      (fun _ =>
       _ <-- Log_ Error "Error writing CSV file" ;;
       ret None).

(** [generate_xml] *)
Definition generate_xml `{PyLib} `{SinkFormat} (output_path_xml : string)
  (csv_file_path_for_xml : string) : IO unit :=
  stamp <-- now_ ;;
  try_except
    (_ <-- write_file (xml_file_path output_path_xml stamp)
                      (xml_text csv_file_path_for_xml stamp) ;;
     Log_ Info "XML File Created")
    (fun _ => Log_ Error "Failed to write XML file").

(** The settings [process_single_excel_file] is called with. *)
Record Settings : Type := {
  running_rec_path_cfg : string;
  date_filter_days_cfg : Z;
  fields_map_cfg : FieldsMap;
  serial_number_source_column_idx_cfg : Z;
  xy_num_points_cfg : nat;
  xy_coord_x_col_idx_cfg : Z;
  xy_coord_y_col_idx_cfg : Z;
  csv_path_cfg : string;
  ini_filename_base_id : string;
  output_path_cfg : string
}.

(** [if latest_date and latest_date > read_running_rec(...):
        update_running_rec(..., latest_date)] *)
Definition advance_if_later `{PyLib} (cfg : Settings) (latest_date : option Z)
  : IO unit :=
  match latest_date with
  | None => ret tt
  | Some latest =>
      threshold <-- CursorStore.read_running_rec
                      (running_rec_path_cfg cfg) (date_filter_days_cfg cfg) ;;
      if latest >? threshold
      then CursorStore.update_running_rec (running_rec_path_cfg cfg) latest
      else ret tt
  end.

(** A result that may be an exception, inside [IO] *)
Definition lift_res {A} (r : Res A) : IO A := fun w => (r, w).

(** [process_single_excel_file], from the two frames that
    [_read_excel_sheets] returned ([None] for a main sheet that could not
    be read). *)
Definition process_single_excel_file `{PyLib} `{SqlDb} `{SinkFormat}
  (cfg : Settings) (df_main : option DataFrame) (df_xy : DataFrame)
  : IO unit :=
  match df_main with
  | None => Log_ Error "Stopping processing: main data could not be read"
  | Some df_main =>
      if empty df_main then Log_ Error "Stopping processing: main data is empty"
      else
        filtered <-- _apply_date_filter df_main (fields_map_cfg cfg)
                       (running_rec_path_cfg cfg) (date_filter_days_cfg cfg) ;;
        let df_filtered := fst filtered in
        let latest_date := snd filtered in
        if empty df_filtered then
          _ <-- Log_ Info "No data left after date filtering" ;;
          advance_if_later cfg latest_date
        else
          let df_with_sql :=
            _enrich_with_sql_data df_filtered
              (serial_number_source_column_idx_cfg cfg) in
          if empty df_with_sql then
            _ <-- Log_ Info "No data left after SQL enrichment" ;;
            advance_if_later cfg latest_date
          else
            let df_with_xy :=
              _merge_xy_coordinates df_with_sql df_xy (xy_num_points_cfg cfg)
                (xy_coord_x_col_idx_cfg cfg) (xy_coord_y_col_idx_cfg cfg) in
            df_typed <-- lift_res (_apply_type_conversions true df_with_xy
                                     (fields_map_cfg cfg)) ;;
            if empty df_typed then
              _ <-- Log_ Info "No data left after type conversions" ;;
              advance_if_later cfg latest_date
            else
              let df_renamed := _perform_column_renaming df_typed in
              saved <-- _save_to_csv df_renamed (csv_path_cfg cfg)
                          (ini_filename_base_id cfg) ;;
              _ <-- match saved with
                    | Some generated_csv_path =>
                        _ <-- generate_xml (output_path_cfg cfg)
                                generated_csv_path ;;
                        match latest_date with
                        | Some latest =>
                            CursorStore.update_running_rec
                              (running_rec_path_cfg cfg) latest
                        | None => ret tt
                        end
                    | None =>
                        _ <-- Log_ Error "Skipping XML generation" ;;
                        advance_if_later cfg latest_date
                    end ;;
              Log_ Info "Successfully processed Excel file"
  end.

End Grating.

(** ** The date window of [050_TAK_MESA.py] ([process_excel_file]) *)

Module TakMesa.
Import Frame.

(** The block [if running_date > 0 and date_col_key in df_processed.columns];
    [date_col] is the position of the column [key_start_date_time], if the
    frame has it. *)
Definition date_filter `{PyLib} (running_date : Z) (date_col : option nat)
  (df_processed : DataFrame) : IO DataFrame :=
  match date_col with
  | Some c =>
      if running_date >? 0 then
        let parsed := Grating.drop_unparsed c (rows df_processed) in
        today <-- now_ ;;
        let cutoff_date := today - timedelta_days running_date in
        ret {| ncols := ncols df_processed;
               rows := Grating.keep_since cutoff_date parsed |}
      else ret df_processed
  | None => ret df_processed
  end.

End TakMesa.

(** ** The database step of [Facet_Common.py] ([process_excel_file]) *)

Module Facet.
Import Frame Grating.

(** [df['key_Part_Number'] != 'LDアレイ_'] on one cell *)
Definition not_excluded (part_number : Cell) : bool :=
  match part_number with
  | CStr s => negb (String.eqb s "LDアレイ_")
  | _ => true
  end.

(** [df['key_Serial_Number'].apply(get_db_info)]: the two attributes of
    every row, or the first exception of [SQL.selectSQL] *)
Fixpoint lookup_all `{PyLib} `{SqlDb} (serial_idx : nat) (rs : list (Z * Row))
  : Res (list (Z * Row)) :=
  match rs with
  | [] => Done []
  | (label, r) :: rs' =>
      attrs ← selectSQL (py_str (iloc r serial_idx));
      rest ← lookup_all serial_idx rs';
      Done ((label, (r ++ [fst attrs; snd attrs])%list) :: rest)
  end.

(** Step 4 of [process_excel_file]: [None] when the function returns for
    want of a connection; the two attributes become the last two columns. *)
Definition database_query `{PyLib} `{SqlDb} (df : DataFrame) (serial_idx : nat)
  : Res (option DataFrame) :=
  match connSQL with
  | ConnectRaises e => Raise e
  | NoConnection => Done None
  | Connected =>
      looked_up ← lookup_all serial_idx (rows df);
      let pn := ncols df in
      Done (Some {| ncols := S (S (ncols df));
                    rows := List.filter
                              (fun lr => negb (isna (iloc (snd lr) pn))
                                         && not_excluded (iloc (snd lr) pn))
                              looked_up |})
  end.

End Facet.

(** ** The resampler of [051_Particle.py] ([main]) *)

Module Resampler.

(** A row of the merged frame, read with [dtype=str]: the columns the
    resampler looks at, and the rest of the row. *)
Record PRow : Type := {
  PtName : option string;
  Start_Date_Time : Cell;
  Ch1KeisokuData : Cell;
  other_columns : list Cell
}.

(** The row after [pd.to_datetime] and [pd.to_numeric], for a row whose
    time parsed. *)
Record SRow : Type := {
  name : option string;
  time : Z;
  ch1 : PyFloat;
  source : PRow
}.

(** [df['Start_Date_Time'] = pd.to_datetime(..., errors='coerce')], the
    numeric conversion of the measurement, then
    [df.dropna(subset=['Start_Date_Time'])] *)
Definition prepare `{PyLib} (df : list PRow) : list SRow :=
  omap (fun p => match to_datetime_coerce (Start_Date_Time p) with
                 | Some t => Some {| name := PtName p; time := t;
                                     ch1 := to_numeric_coerce (Ch1KeisokuData p);
                                     source := p |}
                 | None => None
                 end) df.

(** Order of [sort_values(['PtName', 'Start_Date_Time'])]: names as
    strings, a missing name after every name, then time. *)
Definition name_leb (a b : option string) : bool :=
  match a, b with
  | Some x, Some y => String.leb x y
  | Some _, None => true
  | None, Some _ => false
  | None, None => true
  end.

Definition name_eqb (a b : option string) : bool :=
  match a, b with
  | Some x, Some y => String.eqb x y
  | None, None => true
  | _, _ => false
  end.

Definition row_leb (a b : SRow) : bool :=
  if name_eqb (name a) (name b) then time a <=? time b
  else name_leb (name a) (name b).

Fixpoint insert_sorted (r : SRow) (l : list SRow) : list SRow :=
  match l with
  | [] => [r]
  | x :: l' => if row_leb r x then r :: l else x :: insert_sorted r l'
  end.

(** A stable sort: a row goes before the first row that is larger. *)
Definition sort_values (l : list SRow) : list SRow :=
  fold_right (fun r acc =>
                (** rows that are equal keep their order *)
                insert_sorted r acc) [] l.

(** [ts.floor(f'{interval_minutes}min')] *)
Definition bin_width (interval_minutes : Z) : Z :=
  interval_minutes * 60 * 1000000000.

Definition floor_to (width t : Z) : Z := t - t mod width.

(** The group key [(PtName, time_bin)] *)
Definition key_eqb (width : Z) (a b : SRow) : bool :=
  name_eqb (name a) (name b)
  && (floor_to width (time a) =? floor_to width (time b)).

(** Order of floats that are not [NaN] *)
Definition float_leb (a b : PyFloat) : bool :=
  match a, b with
  | FNan, _ | _, FNan => false
  | FInf true, _ => true
  | _, FInf false => true
  | FInf false, _ => false
  | _, FInf true => false
  | FFin x, FFin y => Qle_bool x y
  end.

Definition is_nan (f : PyFloat) : bool :=
  match f with
  | FNan => true
  | _ => false
  end.

(** [target_col_for_max]: the measurement when the frame has the column
    [Ch1KeisokuData], the time otherwise.  [better a b] says that [b]
    replaces [a] as the running maximum of [idxmax]: strictly larger, so
    the first of equal values stays. *)
Definition has_value (has_ch1 : bool) (r : SRow) : bool :=
  if has_ch1 then negb (is_nan (ch1 r)) else true.

Definition value_leb (has_ch1 : bool) (a b : SRow) : bool :=
  if has_ch1 then float_leb (ch1 a) (ch1 b) else time a <=? time b.

(** [series.idxmax()] with [skipna]: the first row with the largest value,
    [None] when no row has a value. *)
Definition idxmax (has_ch1 : bool) (group : list SRow) : option SRow :=
  fold_left (fun best r =>
               if has_value has_ch1 r then
                 match best with
                 | None => Some r
                 | Some b => if value_leb has_ch1 r b then Some b else Some r
                 end
               else best) group None.

(** The first row of every group of [groupby(['PtName', 'time_bin'])]:
    a row with a name whose key no earlier row has.  Rows without a name
    are in no group. *)
Fixpoint firsts (width : Z) (earlier l : list SRow) : list SRow :=
  match l with
  | [] => []
  | r :: l' =>
      let rest := firsts width (r :: earlier) l' in
      match name r with
      | Some _ =>
          if existsb (key_eqb width r) earlier then rest else r :: rest
      | None => rest
      end
  end.

(** The groups, each with the rows that carry its key.  The frame is
    sorted by name and time, so the sorted keys come in the order of their
    first rows. *)
Definition groups (width : Z) (l : list SRow) : list (list SRow) :=
  map (fun r => List.filter (key_eqb width r) l) (firsts width [] l).

(** [df.loc[idx_to_keep]]: the chosen row of every group.  A group in which
    no row has a value gives no label, and the selection raises. *)
Fixpoint select_rows (chosen : list (option SRow)) : Res (list SRow) :=
  match chosen with
  | [] => Done []
  | Some r :: rest => rs ← select_rows rest; Done (r :: rs)
  | None :: _ => Raise KeyError
  end.

(** The block under [if time_interval is not None and ...]; [has_ch1] says
    whether the frame has the column [Ch1KeisokuData], and
    [interval_minutes] is [int(time_interval * 60)]. *)
Definition resample `{PyLib} (has_ch1 : bool) (interval_minutes : Z)
  (df : list PRow) : Res (list SRow) :=
  let sorted := sort_values (prepare df) in
  let width := bin_width interval_minutes in
  if width =? 0 then Raise ValueError
  else select_rows (map (idxmax has_ch1) (groups width sorted)).

End Resampler.

(** ** More of Python's [str] *)

Module PyText.

(** [c in s] for one character *)
Fixpoint contains (c : ascii) (s : string) : bool :=
  match s with
  | EmptyString => false
  | String a s' => Ascii.eqb a c || contains c s'
  end.

(** [s.startswith(p)] *)
Definition startswith (p s : string) : bool :=
  match PyStr.strip_prefix p s with
  | Some _ => true
  | None => false
  end.

(** [p in s] for strings *)
Fixpoint is_infix (p s : string) : bool :=
  match s with
  | EmptyString => startswith p EmptyString
  | String _ s' => startswith p s || is_infix p s'
  end.

(** [s.split(sep)] for a separator of one character: the pieces between
    the separators, always at least one. *)
Fixpoint split (sep : ascii) (s : string) : list string :=
  match s with
  | EmptyString => [EmptyString]
  | String c s' =>
      if Ascii.eqb c sep then EmptyString :: split sep s'
      else
        match split sep s' with
        | [] => [String c EmptyString]
        | piece :: pieces => String c piece :: pieces
        end
  end.

(** [s.split(sep, maxsplit)]: at most [maxsplit] cuts, from the left. *)
Fixpoint split_max (sep : ascii) (maxsplit : nat) (s : string) : list string :=
  match s with
  | EmptyString => [EmptyString]
  | String c s' =>
      match maxsplit with
      | O => [s]
      | S fewer =>
          if Ascii.eqb c sep then EmptyString :: split_max sep fewer s'
          else
            match split_max sep maxsplit s' with
            | [] => [String c EmptyString]
            | piece :: pieces => String c piece :: pieces
            end
      end
  end.

(** The characters of [s] up to the first white space *)
Fixpoint take_token (s : string) : string :=
  match s with
  | EmptyString => EmptyString
  | String c s' =>
      if PyStr.isspace c then EmptyString else String c (take_token s')
  end.

(** [s.split()[0]]: the first run of characters that are no white space;
    [None] is the [IndexError] of an empty list. *)
Definition first_token (s : string) : option string :=
  match PyStr.lstrip s with
  | EmptyString => None
  | t => Some (take_token t)
  end.

Fixpoint lstrip_chars (p : ascii -> bool) (s : string) : string :=
  match s with
  | String c s' => if p c then lstrip_chars p s' else s
  | EmptyString => EmptyString
  end.

Definition rstrip_chars (p : ascii -> bool) (s : string) : string :=
  PyStr.rev (lstrip_chars p (PyStr.rev s)).

(** [s.strip(chars)], the characters given by a predicate *)
Definition strip_chars (p : ascii -> bool) (s : string) : string :=
  rstrip_chars p (lstrip_chars p s).

(** [re.sub(cls, repl, s)] for a class of single characters and a
    replacement of one character *)
Fixpoint sub_class (cls : ascii -> bool) (repl : ascii) (s : string) : string :=
  match s with
  | EmptyString => EmptyString
  | String c s' =>
      String (if cls c then repl else c) (sub_class cls repl s')
  end.

(** [s.lower()] on code points below 256: A..Z and the capital letters
    from 192 to 222, the multiplication sign apart. *)
Definition lower_char (c : ascii) : ascii :=
  let n := N_of_ascii c in
  if ((65 <=? n) && (n <=? 90)
      || (192 <=? n) && (n <=? 222) && negb (n =? 215))%N
  then ascii_of_N (n + 32) else c.

Fixpoint lower (s : string) : string :=
  match s with
  | EmptyString => EmptyString
  | String c s' => String (lower_char c) (lower s')
  end.


(** The line boundaries of [str.splitlines] below 256: LF, VT, FF, CR,
    FS, GS, RS and NEL. *)
Definition is_linebreak (c : ascii) : bool :=
  let n := N_of_ascii c in
  ((10 <=? n) && (n <=? 13) || (28 <=? n) && (n <=? 30) || (n =? 133))%N.

(** [s.splitlines()]: CR LF is one boundary, and a boundary at the very
    end opens no further line. *)
Fixpoint splitlines (s : string) : list string :=
  match s with
  | EmptyString => []
  | String c s' =>
      if is_linebreak c then
        EmptyString ::
        (if Ascii.eqb c "013"%char then
           match s' with
           | String "010"%char s'' => splitlines s''
           | _ => splitlines s'
           end
         else splitlines s')
      else
        match splitlines s' with
        | [] => [String c EmptyString]
        | line :: lines => String c line :: lines
        end
  end.

End PyText.

(** ** Reading the configuration ([_parse_fields_map_from_lines],
    [parse_fields_map], [_parse_rename_map_from_config],
    [detect_tool_name]) *)

Module Config.
Import PyText.

(** A [dict] keeps its keys in the order of their first insertion:
    [d[k] = v] replaces the value of a key that is there and appends a new
    key. *)
Fixpoint dict_set {K V : Type} (eqb : K -> K -> bool) (k : K) (v : V)
  (d : list (K * V)) : list (K * V) :=
  match d with
  | [] => [(k, v)]
  | (k', v') :: d' =>
      if eqb k' k then (k', v) :: d' else (k', v') :: dict_set eqb k v d'
  end.

(** [d.get(k)] *)
Fixpoint dict_get {K V : Type} (eqb : K -> K -> bool) (k : K)
  (d : list (K * V)) : option V :=
  match d with
  | [] => None
  | (k', v) :: d' => if eqb k' k then Some v else dict_get eqb k d'
  end.

(** [key, col_spec, dtype = map(str.strip, line.split(':', 2))]: [None] is
    the [ValueError] of an unpacking that does not get three pieces. *)
Definition three_fields (line : string) : option (string * string * string) :=
  match split_max ":" 2 line with
  | [key; col_spec; dtype] =>
      Some (PyStr.strip key, PyStr.strip col_spec, PyStr.strip dtype)
  | _ => None
  end.

(** The body of the loop of [_parse_fields_map_from_lines] in
    [CVD_Grating.py]; the state is the map and the numbers of the lines
    reported by [Log.Log_Error], latest first. *)
Definition parse_field_line (st : Grating.FieldsMap * list nat)
  (numbered : nat * string) : Grating.FieldsMap * list nat :=
  let line_stripped := PyStr.strip (snd numbered) in
  if negb (String.eqb line_stripped "")
     && negb (startswith "#" line_stripped)
     && negb (startswith ";" line_stripped)
  then
    match three_fields line_stripped with
    | Some (key, col_spec, dtype) =>
        (dict_set String.eqb key (col_spec, dtype) (fst st), snd st)
    | None => (fst st, S (fst numbered) :: snd st)
    end
  else st.

(** [_parse_fields_map_from_lines] of [CVD_Grating.py] *)
Definition _parse_fields_map_from_lines (fields_lines : list string)
  : Grating.FieldsMap * list nat :=
  fold_left parse_field_line
            (combine (seq 0 (length fields_lines)) fields_lines) ([], []).

(** [_parse_fields_map_from_lines] of [Facet_Common.py]: the key and its
    column; the type is split off and dropped. *)
Definition facet_field_line (fields : list (string * string)) (line : string)
  : list (string * string) :=
  if contains ":" line && negb (startswith "#" (PyStr.strip line)) then
    match three_fields line with
    | Some (key, col_str, _) => dict_set String.eqb key col_str fields
    | None => fields
    end
  else fields.

Definition _parse_fields_map_from_lines_facet (fields_lines : list string)
  : list (string * string) :=
  fold_left facet_field_line fields_lines [].

(** The body of the loop of [parse_fields_map] in [051_Particle.py] *)
Definition particle_field_line `{PyLib} (mapping : list (string * Z))
  (raw : string) : list (string * Z) :=
  let s := PyStr.strip raw in
  if String.eqb s "" || startswith "#" s || negb (contains ":" s)
  then mapping
  else
    match map PyStr.strip (split ":" s) with
    | k :: col_s :: _ =>
        match int_of_string col_s with
        | Some col => dict_set String.eqb k col mapping
        | None => mapping
        end
    | _ => mapping
    end.

(** [parse_fields_map] of [051_Particle.py] *)
Definition parse_fields_map `{PyLib} (fields_text : string)
  : list (string * Z) :=
  fold_left particle_field_line (splitlines fields_text) [].

(** [idx, name = mapping.strip().split(':')] and
    [rename_map[int(idx)] = name.strip()]: [None] is the [ValueError] of
    the unpacking or of [int]. *)
Definition rename_entry `{PyLib} (mapping : string) : option (Z * string) :=
  match split ":" (PyStr.strip mapping) with
  | [idx; name] =>
      match int_of_string idx with
      | Some i => Some (i, PyStr.strip name)
      | None => None
      end
  | _ => None
  end.

(** The loop over [mapping_str.strip().split(',')]: the map, and whether
    the loop ran to its end; an exception leaves the loop with the entries
    made so far. *)
Fixpoint rename_loop `{PyLib} (mappings : list string)
  (rename_map : list (Z * string)) : list (Z * string) * bool :=
  match mappings with
  | [] => (rename_map, true)
  | mapping :: rest =>
      if String.eqb (PyStr.strip mapping) "" then rename_loop rest rename_map
      else
        match rename_entry mapping with
        | Some (i, name) => rename_loop rest (dict_set Z.eqb i name rename_map)
        | None => (rename_map, false)
        end
  end.

(** What the configuration holds for [ColumnMapping]: no such section, a
    section without the option [rename_map], or the option's text. *)
Inductive ColumnMapping : Type :=
| NoSection
| NoOption
| RenameMap (mapping_str : string).

(** [_parse_rename_map_from_config]: the map and the level of the line
    that is logged. *)
Definition _parse_rename_map_from_config `{PyLib} (config_obj : ColumnMapping)
  : list (Z * string) * Level :=
  match config_obj with
  | NoSection => ([], Error)
  | NoOption => ([], Error)
  | RenameMap mapping_str =>
      let '(rename_map, finished) :=
        rename_loop (split "," (PyStr.strip mapping_str)) [] in
      (rename_map, if finished then Info else Error)
  end.

(** The loop of [detect_tool_name]: the tool of the first keyword, other
    than [default], that the file name contains. *)
Fixpoint first_keyword (filename_str : string)
  (tool_map : list (string * string)) : option string :=
  match tool_map with
  | [] => None
  | (keyword, tool) :: rest =>
      if negb (String.eqb keyword "default") && is_infix keyword filename_str
      then Some tool
      else first_keyword filename_str rest
  end.

(** [detect_tool_name] of [Facet_Common.py] *)
Definition detect_tool_name (filename : string)
  (tool_map : list (string * string)) : string :=
  match first_keyword filename tool_map with
  | Some tool => tool
  | None => default "UNKNOWN" (dict_get String.eqb "default" tool_map)
  end.

End Config.

(** ** Files, sheets and headers of [051_Particle.py] *)

Module Particle.
Import PyText.

(** The class that [re.sub] replaces in a file name: the control
    characters below 32, the double quote, and [<], [>], [:], [/], [\],
    [|], [?], [*]. *)
Definition is_illegal (c : ascii) : bool :=
  let n := N_of_ascii c in
  ((n <=? 31) || (n =? 60) || (n =? 62) || (n =? 58) || (n =? 34)
   || (n =? 47) || (n =? 92) || (n =? 124) || (n =? 63) || (n =? 42))%N.

Definition is_underscore_or_space (c : ascii) : bool :=
  Ascii.eqb c "_" || Ascii.eqb c " ".

(** [_sanitize_filename_component]; [s] is [None] or a string. *)
Definition _sanitize_filename_component (s : option string)
  (fallback : string) : string :=
  match s with
  | None => fallback
  | Some s =>
      let s := PyStr.strip s in
      if String.eqb s "" then fallback
      else
        let s2 := sub_class is_illegal "_" s in
        if String.eqb (PyStr.strip (strip_chars is_underscore_or_space s2)) ""
        then fallback else s2
  end.

(** [norm]: the name without its white space, in small letters *)
Fixpoint remove_spaces (s : string) : string :=
  match s with
  | EmptyString => EmptyString
  | String c s' =>
      if PyStr.isspace c then remove_spaces s' else String c (remove_spaces s')
  end.

Definition norm (s : string) : string := lower (remove_spaces s).

(** [next((s for s in sheets if pred(s)), None)] *)
Definition next_where (pred : string -> bool) (sheets : list string)
  : option string := List.find pred sheets.

(** The choice of [use_sheet] in [main]: the sheet asked for, or the first
    sheet with the same normal form, or the first sheet whose normal form
    contains that of the sheet asked for, or the first sheet.  A sheet
    found by [next] counts only if its name is not empty; [None] is the
    [IndexError] of [sheets[0]] on an empty list. *)
Definition use_sheet (desired_sheet : string) (sheets : list string)
  : option string :=
  let nd := norm desired_sheet in
  if existsb (String.eqb desired_sheet) sheets then Some desired_sheet
  else
    match next_where (fun s => String.eqb (norm s) nd) sheets with
    | Some (String c s) => Some (String c s)
    | _ =>
        match sheets with
        | [] => None
        | first :: _ =>
            match next_where (fun s => is_infix nd (norm s)) sheets with
            | Some s => Some s
            | None => Some first
            end
        end
    end.

(** [hits = sum(1 for v in row_vals if v.lower() in exp_set)] on a row of
    [df_like] *)
Definition header_hits `{PyLib} (expected : list string) (row : list Cell)
  : nat :=
  let exp_set := map lower expected in
  length (List.filter
            (fun v => existsb (String.eqb (lower (PyStr.strip (py_str v))))
                              exp_set)
            row).

(** The loop [for r in range(top)] from row [r] on, [rows] being the rows
    not yet looked at. *)
Fixpoint scan_header `{PyLib} (expected : list string) (min_hits : nat)
  (r : nat) (rows : list (list Cell)) : option nat :=
  match rows with
  | [] => None
  | row :: rest =>
      if (min_hits <=? header_hits expected row)%nat then Some r
      else scan_header expected min_hits (S r) rest
  end.

(** [detect_header_row]: the header row and the first row of data. *)
Definition detect_header_row `{PyLib} (df_like : list (list Cell))
  (expected : list string) (min_hits : nat) : nat * nat :=
  let top := Nat.min 30 (length df_like) in
  match scan_header expected min_hits 0 (firstn top df_like) with
  | Some r => (r, S r)
  | None => (0%nat, 1%nat)
  end.

(** A file found by the scan: its path, the day its name starts with (as
    a day number), and its modification time. *)
Record Hit : Type := { hit_path : string; hit_date : Z; hit_mtime : Z }.

(** [sorted(list(set(dates)), reverse=True)]: a date goes before the first
    smaller one, and a date that is there is not repeated. *)
Fixpoint insert_desc (d : Z) (l : list Z) : list Z :=
  match l with
  | [] => [d]
  | x :: l' =>
      if x <? d then d :: l
      else if x =? d then l
      else x :: insert_desc d l'
  end.

Definition unique_dates (all_hits : list Hit) : list Z :=
  fold_right insert_desc [] (map hit_date all_hits).

(** [pick_latest_two_days_files], from the files found *)
Definition pick_latest_two_days_files (all_hits : list Hit) : list string :=
  match all_hits with
  | [] => []
  | _ =>
      let latest_two_dates := firstn 2 (unique_dates all_hits) in
      map hit_path
          (List.filter (fun c => existsb (Z.eqb (hit_date c)) latest_two_dates)
                       all_hits)
  end.

(** [max(cs, key=lambda x: x[2])]: the first of the hits with the largest
    modification time *)
Definition max_mtime (cs : list Hit) : option Hit :=
  fold_left (fun best c =>
               match best with
               | None => Some c
               | Some b => if hit_mtime b <? hit_mtime c then Some c else Some b
               end) cs None.

(** [min(dist(c) for c in all_hits)] for a list that is not empty *)
Definition min_dist (today : Z) (all_hits : list Hit) : Z :=
  match all_hits with
  | [] => 0
  | c :: rest =>
      fold_left (fun m c' => Z.min m (Z.abs (hit_date c' - today)))
                rest (Z.abs (hit_date c - today))
  end.

(** [pick_by_filename_closest_date], from the files found: the file, its
    day and its distance from today in days; [None] stands for
    [(None, None, None)]. *)
Definition pick_by_filename_closest_date (today : Z) (all_hits : list Hit)
  : option (string * Z * Z) :=
  match all_hits with
  | [] => None
  | _ =>
      let todays := List.filter (fun c => hit_date c =? today) all_hits in
      match max_mtime todays with
      | Some best => Some (hit_path best, hit_date best, 0)
      | None =>
          let dist c := Z.abs (hit_date c - today) in
          let m := min_dist today all_hits in
          let nearest := List.filter (fun c => dist c =? m) all_hits in
          match max_mtime nearest with
          | Some best => Some (hit_path best, hit_date best, m)
          | None => None
          end
      end
  end.

End Particle.

(** ** The start cell of [050_TAK_MESA.py] *)

Module Layout.
Import PyText.

(** The code points of [c.upper()] for a code point below 256: the small
    letters go to their capitals, the sharp s to [SS], the micro sign and
    the y with diaeresis to capitals above 255. *)
Definition upper_codes (c : ascii) : list Z :=
  let n := N_of_ascii c in
  if ((97 <=? n) && (n <=? 122)
      || (224 <=? n) && (n <=? 254) && negb (n =? 247))%N
  then [Z.of_N n - 32]
  else if (n =? 223)%N then [83; 83]
  else if (n =? 181)%N then [924]
  else if (n =? 255)%N then [376]
  else [Z.of_N n].

Fixpoint upper (s : string) : list Z :=
  match s with
  | EmptyString => []
  | String c s' => (upper_codes c ++ upper s')%list
  end.

(** [get_col_index_from_char]: [ord] wants a string of length one. *)
Definition get_col_index_from_char (col_char : string) : Res Z :=
  match upper col_char with
  | [n] => Done (n - 65)
  | _ => Raise TypeError
  end.

Definition is_ascii_letter (c : ascii) : bool :=
  let n := N_of_ascii c in
  ((65 <=? n) && (n <=? 90) || (97 <=? n) && (n <=? 122))%N.

(** The longest run of characters of a class at the head of [s] *)
Fixpoint take_while (p : ascii -> bool) (s : string) : string :=
  match s with
  | String c s' => if p c then String c (take_while p s') else EmptyString
  | EmptyString => EmptyString
  end.

(** [re.search] for a pattern [(cls+)]: the first run of characters of
    the class, [None] when the string has none. *)
Fixpoint search_run (p : ascii -> bool) (s : string) : option string :=
  match s with
  | EmptyString => None
  | String c s' => if p c then Some (take_while p s) else search_run p s'
  end.

(** The lines of [process_excel_file] that read [start_cell]:
    [(start_row_idx, start_col_idx)]. *)
Definition start_indices (start_cell : string) : Res (Z * Z) :=
  match search_run PyStr.is_ascii_digit start_cell,
        search_run is_ascii_letter start_cell with
  | Some row_digits, Some col_letters =>
      let start_row_idx := PyStr.int_of_digits row_digits - 1 in
      start_col_idx ← get_col_index_from_char col_letters;
      Done (start_row_idx, start_col_idx)
  | _, _ => Raise ValueError
  end.

End Layout.

(** ** The serial numbers of a row in [048_TAK_SPUT.py] *)

Module Sput.
Import PyText.

(** The loop over [str(row['key_Serial_Number']).split('/')]: the serial
    numbers of the new rows; [None] is the [IndexError] of
    [serial.split()[0]] on a piece without any character but white
    space. *)
Fixpoint serials_of (pieces : list string) : option (list string) :=
  match pieces with
  | [] => Some []
  | serial :: rest =>
      let serial := PyStr.strip serial in
      match first_token serial with
      | None => None
      | Some serial =>
          match serials_of rest with
          | None => None
          | Some more =>
              if String.eqb serial "" then Some more
              else Some (serial :: more)
          end
      end
  end.

Definition split_serial_numbers (cell_text : string) : option (list string) :=
  serials_of (split "/" cell_text).

(** The part numbers that the loop over the rows assigns for a material
    type: [None] leaves [None] in the three columns, and [dropna()] then
    removes the row. *)
Definition part_numbers (key_Material_Type : string)
  : option (string * string * string) :=
  if is_infix "QJ-30150" key_Material_Type
  then Some ("XQJ-30150", "1000047352A", "1000047353A")
  else if is_infix "QJ-30115" key_Material_Type
  then Some ("XQJ-30115-P", "1000034198A", "1000034812A")
  else None.

End Sput.

(** ** The date filter of [CVD_Crystal_Length_INI contorl V1.3.py] *)

Module CrystalLength.
Import Frame Grating.

(** [_apply_date_filter]: the threshold is what [read_running_rec] of that
    script returns, the stored date when there is one. *)
Definition _apply_date_filter `{PyLib} (df : DataFrame) (fields_map : FieldsMap)
  (running_rec_path : string) (date_filter_days : Z)
  : IO (DataFrame * option Z) :=
  if empty df then ret (df, None)
  else
    processing_start_threshold <--
      CursorStore.read_running_rec_v13 running_rec_path date_filter_days ;;
    match get_field "key_Start_Date_Time" fields_map with
    | None =>
        _ <-- Log_ Warning "Date filter skipped: key_Start_Date_Time" ;;
        ret (df, None)
    | Some (start_date_col_spec, _) =>
        if negb (PyStr.isdigit start_date_col_spec) then
          _ <-- Log_ Warning "Date filter skipped: key_Start_Date_Time" ;;
          ret (df, None)
        else
          let start_date_col_idx := PyStr.int_of_digits start_date_col_spec in
          if negb (in_columns start_date_col_idx df) then
            _ <-- Log_ Error "Date filter skipped: index out of bounds" ;;
            ret (df, None)
          else
            let '(df_filtered, latest_date_in_original_file) :=
              date_window (Z.to_nat start_date_col_idx)
                          processing_start_threshold df in
            _ <-- (if (length (rows df_filtered) <? length (rows df))%nat
                   then Log_ Info "Date filter: rows removed" else ret tt) ;;
            _ <-- (if empty df_filtered then
                     _ <-- Log_ Info "After date filtering, no new data" ;;
                     match latest_date_in_original_file with
                     | Some latest =>
                         if latest >? processing_start_threshold
                         then CursorStore.update_running_rec
                                running_rec_path latest
                         else ret tt
                     | None => ret tt
                     end
                   else ret tt) ;;
            ret (df_filtered, latest_date_in_original_file)
    end.

End CrystalLength.

(** ** A small instance of the library interface, for examples

    Timestamps are written as decimal numbers; a date is read off the
    digits of a timestamp as [YYYYMMDD]. *)

Module Toy.

(** Decimal digits of a non-negative number, least significant first;
    [fuel] bounds the number of digits. *)
Fixpoint digits_rev (fuel : nat) (n : Z) : string :=
  match fuel with
  | O => EmptyString
  | S fuel' =>
      if n <? 10 then String (Serial.digit_char n) EmptyString
      else String (Serial.digit_char n) (digits_rev fuel' (n / 10))
  end.

Definition decimal (n : Z) : string :=
  if n <? 0 then "-" +:+ PyStr.rev (digits_rev 40 (- n))
  else PyStr.rev (digits_rev 40 n).

Definition parse_time (v : Cell) : Res (option Z) :=
  match v with
  | CStr s =>
      if PyStr.isdigit s then Done (Some (PyStr.int_of_digits s))
      else if String.eqb s "NaT" then Done None
      else Raise ValueError
  | CTime t => Done (Some t)
  | CInt z => Done (Some z)
  | CNone => Done None
  | CFloat FNan => Done None
  | CFloat (FInf _) => Raise OverflowError
  | CFloat _ | CBool _ => Raise TypeError
  end.

Definition parse_float (s : string) : option PyFloat :=
  if PyStr.isdigit s then Some (FFin (inject_Z (PyStr.int_of_digits s)))
  else if String.eqb s "inf" then Some (FInf false)
  else if String.eqb s "nan" then Some FNan
  else None.

Definition parse_int (s : string) : option Z :=
  if PyStr.isdigit s then Some (PyStr.int_of_digits s) else None.

(** The part of a path before its last [/] *)
Fixpoint before_last_slash (s : string) : option string :=
  match s with
  | EmptyString => None
  | String c s' =>
      match before_last_slash s' with
      | Some d => Some (String c d)
      | None => if Ascii.eqb c "/" then Some EmptyString else None
      end
  end.

#[global] Instance lib : PyLib := {
  to_datetime := parse_time;
  to_datetime_coerce v :=
    match parse_time v with
    | Done r => r
    | Raise _ => None
    end;
  strftime_cursor := decimal;
  strftime_slash := decimal;
  civil t := {| year := t / 10000; month := (t / 100) mod 100;
                day := t mod 100 |};
  float_of_string := parse_float;
  int_of_string := parse_int;
  to_numeric_coerce v :=
    match v with
    | CStr s => match parse_float s with Some f => f | None => FNan end
    | CInt z => FFin (inject_Z z)
    | CFloat f => f
    | _ => FNan
    end;
  py_str v :=
    match v with
    | CStr s => s
    | CInt z => decimal z
    | CTime t => decimal t
    | _ => ""
    end;
  dirname p := default "" (before_last_slash p)
}.

(** A world with the given files and clock, nothing locked, nothing
    logged. *)
Definition world (f : gmap string Node) (c : nat -> Z) : World :=
  {| files := f; locked := ∅; clock := c; reads := 0; log := [] |}.

(** A lookup service that knows four serial numbers: [S1] has no entry,
    [S2] has both attributes, [S3] has a part number only, [S4] has a lot
    number only; any other query fails. *)
#[global] Instance db : Grating.SqlDb := {
  Grating.connSQL := Grating.Connected;
  Grating.selectSQL s :=
    if String.eqb s "S1" then Done (CNone, CNone)
    else if String.eqb s "S2" then Done (CStr "PN123", CStr "LOT9")
    else if String.eqb s "S3" then Done (CStr "PN7", CNone)
    else if String.eqb s "S4" then Done (CNone, CStr "LOT4")
    else Raise OtherError
}.

(** The same service when no connection can be made. *)
Definition db_down : Grating.SqlDb := {|
  Grating.connSQL := Grating.NoConnection;
  Grating.selectSQL := fun _ => Raise OtherError
|}.

#[global] Instance sink : Grating.SinkFormat := {
  Grating.csv_file_path base ini stamp := base +:+ "/" +:+ ini +:+ ".csv";
  Grating.csv_text df := decimal (Z.of_nat (length (Frame.rows df)));
  Grating.xml_file_path out stamp := out +:+ "/pointer.xml";
  Grating.xml_text csv stamp := csv
}.

End Toy.

(** ** The claims that the code does not meet, as propositions *)

Module Claims.

(** The latest-sheet selection with ties going to the sheet seen first:
    the sheet returned has the highest version among the matching sheets,
    and no earlier sheet has the same version. *)
Definition picks_first_seen_highest (all_sheets : list string)
  (pattern : string) (result : option string) : Prop :=
  forall s, result = Some s ->
    exists (i : nat) (v : Z),
      all_sheets !! i = Some s /\
      Sheets.sheet_version pattern s = Some v /\
      forall (j : nat) s' v',
        all_sheets !! j = Some s' ->
        Sheets.sheet_version pattern s' = Some v' ->
        v' <= v /\ (v' = v -> (i <= j)%nat).

(** Enrichment with a partial match treated as a miss: a row for which
    the lookup returns a null part number or a null lot number has no
    descendant in the output. *)
Definition partial_match_dropped `{PyLib} `{Grating.SqlDb}
  (df : Frame.DataFrame) (serial_idx : Z) : Prop :=
  forall label r part_num lot_num_9,
    In (label, r) (Frame.rows df) ->
    Grating.selectSQL (py_str (Frame.iloc r (Z.to_nat serial_idx)))
    = Done (part_num, lot_num_9) ->
    isna part_num || isna lot_num_9 = true ->
    forall label' a b,
      ~ In (label', r ++ [a; b])
           (Frame.rows (Grating._enrich_with_sql_data df serial_idx)).


(** The cursor advancing whenever no row reaches the sink: if the column
    has a latest valid date and the date filter leaves no row, the run
    leaves that date in the cursor file. *)
Definition advances_when_all_rows_are_filtered `{PyLib} `{Grating.SqlDb}
  `{Grating.SinkFormat} (cfg : Grating.Settings) (c : nat)
  (df_main df_xy : Frame.DataFrame) (w : World) : Prop :=
  let w' := snd (Grating.process_single_excel_file cfg (Some df_main)
                   df_xy w) in
  let watermark :=
    clock w (reads w) - timedelta_days (Grating.date_filter_days_cfg cfg) in
  forall m,
    Grating.max_timestamp (Grating.parsed_dates c df_main) = Some m ->
    Frame.empty (fst (Grating.date_window c watermark df_main)) = true ->
    files w' !! Grating.running_rec_path_cfg cfg
    = Some (File (strftime_cursor m)).

End Claims.

(** * Properties *)

(** ** Latest versioned sheet *)

Module SheetsFacts.
Import PyStr Sheets.

Lemma int_digits_from_nonneg s : forall acc,
  all_chars is_ascii_digit s = true -> 0 <= acc -> 0 <= int_digits_from acc s.
Proof.
  induction s as [|c s IH]; intros acc Hall Hacc; simpl in *; [lia|].
  apply andb_prop in Hall as [Hc Hs].
  apply IH; [exact Hs|].
  unfold is_ascii_digit in Hc. unfold digit_value.
  apply andb_prop in Hc as [Hlo _]. apply N.leb_le in Hlo. lia.
Qed.

Lemma span_digits_all s : all_chars is_ascii_digit (fst (span_digits s)) = true.
Proof.
  induction s as [|c s IH]; simpl; [reflexivity|].
  destruct (is_ascii_digit c) eqn:Hc; [|reflexivity].
  destruct (span_digits s) as [d r]. simpl in *. rewrite Hc, IH. reflexivity.
Qed.

Lemma match_suffix_digits rest digits :
  match_suffix rest = Some (Some digits) ->
  all_chars is_ascii_digit digits = true.
Proof.
  unfold match_suffix. destruct rest as [|c0 rest0]; [discriminate|].
  destruct (lstrip (String c0 rest0)) as [|c after]; [discriminate|].
  destruct (Ascii.eqb_spec c "("%char) as [->|Hne].
  - pose proof (span_digits_all after) as Hall.
    destruct (span_digits after) as [d tail]. simpl in Hall.
    destruct d as [|d0 d']; [discriminate|].
    destruct tail as [|t0 tail']; [discriminate|].
    destruct (Ascii.eqb_spec t0 ")"%char) as [->|Hne'].
    + destruct tail'; [|discriminate]. intros [= <-]. exact Hall.
    + destruct t0 as [[] [] [] [] [] [] [] []]; try discriminate;
        destruct tail'; try discriminate; exfalso; apply Hne'; reflexivity.
  - destruct c as [[] [] [] [] [] [] [] []]; try discriminate.
    exfalso; apply Hne; reflexivity.
Qed.

(** A version is never negative, so the first matching sheet always
    replaces the initial [-1]. *)
Lemma sheet_version_nonneg pattern sheet v :
  sheet_version pattern sheet = Some v -> 0 <= v.
Proof.
  unfold sheet_version.
  destruct (strip_prefix pattern (strip sheet)) as [rest|]; [|discriminate].
  destruct (match_suffix rest) as [[digits|]|] eqn:Hm; try discriminate.
  - intros [= <-]. apply int_digits_from_nonneg; [|lia].
    eapply match_suffix_digits; eauto.
  - intros [= <-]. lia.
Qed.

Lemma strip_prefix_self p : strip_prefix p p = Some EmptyString.
Proof.
  induction p as [|c p IH]; simpl; [reflexivity|].
  rewrite Ascii.eqb_refl. exact IH.
Qed.

(** What the loop knows after the sheets [seen]: nothing matched so far, or
    the current sheet is the last of those with the highest version. *)
Definition scanned (pattern : string) (seen : list string)
  (st : option string * Z) : Prop :=
  match fst st with
  | None => snd st = -1 /\ forall s, In s seen -> sheet_version pattern s = None
  | Some s =>
      exists i : nat,
        seen !! i = Some s /\ sheet_version pattern s = Some (snd st) /\
        forall (j : nat) s' v',
          seen !! j = Some s' -> sheet_version pattern s' = Some v' ->
          v' <= snd st /\ (v' = snd st -> (j <= i)%nat)
  end.

Lemma lookup_snoc_cases {A} (l : list A) (x : A) (j : nat) (y : A) :
  (l ++ [x])%list !! j = Some y ->
  l !! j = Some y \/ (j = length l /\ y = x).
Proof.
  intros H. destruct (decide (j < length l)%nat) as [Hlt|Hge].
  - left. rewrite lookup_app_l in H by exact Hlt. exact H.
  - right. rewrite lookup_app_r in H by lia.
    destruct (j - length l)%nat as [|k] eqn:Hk; simpl in H.
    + injection H as <-. split; [lia|reflexivity].
    + destruct k; discriminate.
Qed.

Lemma scanned_step pattern seen st x :
  scanned pattern seen st -> scanned pattern (seen ++ [x])%list (step pattern st x).
Proof.
  intros Hinv. unfold step.
  destruct (sheet_version pattern x) as [v|] eqn:Hv.
  - pose proof (sheet_version_nonneg _ _ _ Hv) as Hnn.
    destruct (v >=? snd st) eqn:Hge.
    + apply Z.geb_le in Hge. unfold scanned. simpl.
      exists (length seen). split; [|split].
      * rewrite lookup_app_r by lia. rewrite Nat.sub_diag. reflexivity.
      * exact Hv.
      * intros j s' v' Hj Hs'.
        apply lookup_snoc_cases in Hj as [Hj|[-> ->]].
        -- pose proof (lookup_lt_Some _ _ _ Hj) as Hlt.
           unfold scanned in Hinv. destruct (fst st) as [s|].
           ++ destruct Hinv as (i & _ & _ & Hall).
              destruct (Hall j s' v' Hj Hs') as [Hle _]. split; lia.
           ++ destruct Hinv as [_ Hnone].
              assert (In s' seen) as Hin
                by (apply list_elem_of_In; eapply list_elem_of_lookup_2; eauto).
              rewrite (Hnone s' Hin) in Hs'. discriminate.
        -- rewrite Hv in Hs'. injection Hs' as <-. split; lia.
    + rewrite Z.geb_leb in Hge. apply Z.leb_gt in Hge.
      unfold scanned in *. destruct (fst st) as [s|].
      * destruct Hinv as (i & Hi & Hsv & Hall). exists i.
        split; [|split]; [|exact Hsv|].
        -- rewrite lookup_app_l; [exact Hi|]. eapply lookup_lt_Some; eauto.
        -- intros j s' v' Hj Hs'.
           apply lookup_snoc_cases in Hj as [Hj|[-> ->]]; [eauto|].
           rewrite Hv in Hs'. injection Hs' as <-. split; lia.
      * destruct Hinv as [Hm1 _]. lia.
  - unfold scanned in *. destruct (fst st) as [s|].
    + destruct Hinv as (i & Hi & Hsv & Hall). exists i.
      split; [|split]; [|exact Hsv|].
      * rewrite lookup_app_l; [exact Hi|]. eapply lookup_lt_Some; eauto.
      * intros j s' v' Hj Hs'.
        apply lookup_snoc_cases in Hj as [Hj|[-> ->]]; [eauto|].
        rewrite Hv in Hs'. discriminate.
    + destruct Hinv as [Hm1 Hnone]. split; [exact Hm1|].
      intros s Hin. apply in_app_or in Hin as [Hin|[<-|[]]]; auto.
Qed.

Lemma scanned_scan pattern l : forall seen st,
  scanned pattern seen st ->
  scanned pattern (seen ++ l)%list (scan pattern st l).
Proof.
  induction l as [|x l IH]; intros seen st Hinv; simpl.
  - rewrite app_nil_r. exact Hinv.
  - replace (seen ++ x :: l)%list with ((seen ++ [x]) ++ l)%list
      by (rewrite <- app_assoc; reflexivity).
    apply IH. apply scanned_step. exact Hinv.
Qed.

(** C6, as the code has it.  [find_latest_sheet] returns a sheet whose
    version is the highest among the sheets that match the pattern, a sheet
    without suffix counting as version 0; among sheets with that highest
    version it returns the one seen last; it returns nothing exactly when
    no sheet matches. *)
Theorem find_latest_sheet_last_highest (all_sheets : list string)
  (pattern : string) :
  (forall sheet, strip sheet = pattern ->
     sheet_version pattern sheet = Some 0) /\
  match find_latest_sheet all_sheets pattern with
  | None => forall s, In s all_sheets -> sheet_version pattern s = None
  | Some s =>
      exists (i : nat) (v : Z),
        all_sheets !! i = Some s /\ sheet_version pattern s = Some v /\
        forall (j : nat) s' v',
          all_sheets !! j = Some s' -> sheet_version pattern s' = Some v' ->
          v' <= v /\ (v' = v -> (j <= i)%nat)
  end.
Proof.
  split.
  - intros sheet Hs. unfold sheet_version. rewrite Hs, strip_prefix_self.
    reflexivity.
  - unfold find_latest_sheet.
    pose proof (scanned_scan pattern all_sheets [] (None, -1)) as H.
    simpl in H. specialize (H (conj eq_refl (fun s (F : False) => match F with end))).
    unfold scanned in H.
    destruct (fst (scan pattern (None, -1) all_sheets)) as [s|].
    + destruct H as (i & Hi & Hv & Hall). eauto 10.
    + destruct H as [_ Hnone]. exact Hnone.
Qed.

(** C6 as the specification words it does not hold: of two matching sheets
    with the same version, the code returns the second. *)
Lemma find_latest_sheet_not_first_seen :
  ~ Claims.picks_first_seen_highest
      ["Data (1)"; "Data(1)"] "Data"
      (find_latest_sheet ["Data (1)"; "Data(1)"] "Data").
Proof.
  intros H. specialize (H "Data(1)" eq_refl).
  destruct H as (i & v & Hi & Hv & Hall).
  destruct i as [|[|i]]; simpl in Hi; try discriminate.
  vm_compute in Hv. injection Hv as <-.
  destruct (Hall 0%nat "Data (1)" 1 eq_refl eq_refl) as [_ Hord].
  specialize (Hord eq_refl). lia.
Qed.

End SheetsFacts.

(** ** Serial numbers *)

Module SerialFacts.
Import PyStr Serial.

Lemma digit_char_is_digit n : is_ascii_digit (digit_char n) = true.
Proof.
  unfold digit_char.
  assert (0 <= n mod 10 < 10) as Hb by (apply Z.mod_pos_bound; lia).
  assert (n mod 10 = 0 \/ n mod 10 = 1 \/ n mod 10 = 2 \/ n mod 10 = 3 \/
          n mod 10 = 4 \/ n mod 10 = 5 \/ n mod 10 = 6 \/ n mod 10 = 7 \/
          n mod 10 = 8 \/ n mod 10 = 9) as Hc by lia.
  repeat (destruct Hc as [-> | Hc]; [reflexivity|]). rewrite Hc. reflexivity.
Qed.

(** [strftime("%y%m%d")] gives six decimal digits. *)
Lemma yymmdd_six_digits d :
  String.length (yymmdd d) = 6%nat /\ all_chars is_ascii_digit (yymmdd d) = true.
Proof.
  unfold yymmdd, two_digits. simpl. split; [reflexivity|].
  rewrite !digit_char_is_digit. reflexivity.
Qed.

Lemma yymmdd_nonempty d : String.eqb (yymmdd d) "" = false.
Proof. reflexivity. Qed.

Lemma append_blank_prefix p s :
  (if String.eqb p "" then s else p +:+ s) = p +:+ s.
Proof. destruct p; reflexivity. Qed.

#[local] Arguments yymmdd : simpl never.

Section BuildSerial.
Context `{PyLib}.

(** C10.  With [p] the stripped prefix ([""] for a missing one):
    a date source that is given and parses yields [p] followed by the date
    of the source as [YYMMDD]; a date source that is missing, empty, [NaT]
    or rejected by the parser with [ValueError] or [TypeError] yields [p]
    followed by today's date; the date part is always six decimal digits;
    and for an empty or blank prefix the result is the date part alone. *)
Theorem build_serial_from_prefix_spec (prefix : option string)
  (date_source : option DateSource) (today : Z) :
  let p := strip (default "" prefix) in
  (forall ds t,
     date_source = Some ds -> truthy date_source = true ->
     to_datetime (cell_of_source ds) = Done (Some t) ->
     build_serial_from_prefix prefix date_source today
     = Done (p +:+ yymmdd (civil t))) /\
  (date_source = None \/ truthy date_source = false \/
   (exists ds, date_source = Some ds /\
      (to_datetime (cell_of_source ds) = Done None \/
       exists e, to_datetime (cell_of_source ds) = Raise e /\
                 is_value_or_type_error e = true)) ->
   build_serial_from_prefix prefix date_source today
   = Done (p +:+ yymmdd (civil today))) /\
  (forall d, String.length (yymmdd d) = 6%nat /\
             all_chars is_ascii_digit (yymmdd d) = true) /\
  (p = "" -> forall r,
     build_serial_from_prefix prefix date_source today = Done r ->
     exists d, r = yymmdd d).
Proof.
  intros p. split; [|split; [|split]].
  - intros ds t -> Htruthy Hparse. unfold build_serial_from_prefix.
    rewrite Htruthy. unfold format_source. rewrite Hparse. simpl.
    rewrite append_blank_prefix. reflexivity.
  - intros Hcase. unfold build_serial_from_prefix.
    destruct Hcase as [-> | [Hfalse | (ds & -> & Hparse)]].
    + simpl. rewrite append_blank_prefix. reflexivity.
    + destruct date_source as [ds|]; rewrite ?Hfalse; simpl;
        rewrite append_blank_prefix; reflexivity.
    + destruct (truthy (Some ds)); [|simpl; rewrite append_blank_prefix; reflexivity].
      unfold format_source.
      destruct Hparse as [-> | (e & -> & He)]; simpl; rewrite ?He; simpl;
        rewrite append_blank_prefix; reflexivity.
  - apply yymmdd_six_digits.
  - intros Hp r. unfold build_serial_from_prefix. fold p. rewrite Hp.
    destruct date_source as [ds|].
    + destruct (truthy (Some ds)).
      * unfold format_source.
        destruct (to_datetime (cell_of_source ds)) as [[t|]|e]; simpl.
        -- intros [= <-]. eauto.
        -- intros [= <-]. eauto.
        -- destruct (is_value_or_type_error e); simpl; [|discriminate].
           intros [= <-]. eauto.
      * simpl. intros [= <-]. eauto.
    + simpl. intros [= <-]. eauto.
Qed.

End BuildSerial.

(** The serial number of a prefix with blanks around it and a date that
    parses, and of a blank prefix with a date that does not. *)
Lemma build_serial_from_prefix_example :
  Serial.build_serial_from_prefix (Some " AB ")
    (Some (DsStr "20240102")) 20251103 = Done "AB240102" /\
  Serial.build_serial_from_prefix (Some "  ")
    (Some (DsStr "bad")) 20251103 = Done "251103".
Proof.
  split.
  - exact (proj1 (build_serial_from_prefix_spec (Some " AB ")
                    (Some (DsStr "20240102")) 20251103)
             (DsStr "20240102") 20240102 eq_refl eq_refl eq_refl).
  - assert (Hbad : to_datetime (cell_of_source (DsStr "bad")) = Raise ValueError)
      by reflexivity.
    exact (proj1 (proj2 (build_serial_from_prefix_spec (Some "  ")
                           (Some (DsStr "bad")) 20251103))
             (or_intror (or_intror
                (ex_intro _ (DsStr "bad")
                   (conj eq_refl
                      (or_intror
                         (ex_intro _ ValueError (conj Hbad eq_refl)))))))).
Defined.

End SerialFacts.

(** ** Reasoning about [IO] *)

Module IOFacts.

Lemma bind_done {A B} (c : IO A) (k : A -> IO B) w a w' :
  c w = (Done a, w') -> bind c k w = k a w'.
Proof. intros Hc. unfold bind. rewrite Hc. reflexivity. Qed.

Lemma bind_raise {A B} (c : IO A) (k : A -> IO B) w e w' :
  c w = (Raise e, w') -> bind c k w = (Raise e, w').
Proof. intros Hc. unfold bind. rewrite Hc. reflexivity. Qed.

Lemma try_done {A} (c : IO A) h w a w' :
  c w = (Done a, w') -> try_except c h w = (Done a, w').
Proof. intros Hc. unfold try_except. rewrite Hc. reflexivity. Qed.

Lemma try_raise {A} (c : IO A) h w e w' :
  c w = (Raise e, w') -> try_except c h w = h e w'.
Proof. intros Hc. unfold try_except. rewrite Hc. reflexivity. Qed.

(** The text of a file, [""] for a path that holds none. *)
Definition text_at (w : World) (p : string) : string :=
  match files w !! p with
  | Some (File t) => t
  | _ => ""
  end.

Section Files.
Context `{PyLib}.

Lemma write_file_ok p text w :
  can_open w p = true ->
  write_file p text w = (Done tt, with_files (<[p := File text]> (files w)) w).
Proof. intros Hc. unfold write_file. rewrite Hc. reflexivity. Qed.

Lemma write_file_fail p text w :
  can_open w p = false -> write_file p text w = (Raise OSError, w).
Proof. intros Hc. unfold write_file. rewrite Hc. reflexivity. Qed.

Lemma can_open_not_dir w p : can_open w p = true -> files w !! p <> Some Dir.
Proof.
  unfold can_open. intros Hc Hd. rewrite Hd in Hc.
  rewrite andb_false_r in Hc. discriminate.
Qed.

(** Writing the file at [p] keeps [p] writable. *)
Lemma can_open_after_write w p node :
  can_open w p = true ->
  can_open (with_files (<[p := File node]> (files w)) w) p = true.
Proof.
  intros Hc. pose proof (can_open_not_dir _ _ Hc) as Hnd.
  unfold can_open in *. simpl.
  apply andb_prop in Hc as [Hc Hdir]. apply andb_prop in Hc as [Hlock _].
  rewrite Hlock, lookup_insert_eq. simpl.
  destruct (String.eqb (dirname p) "") eqn:Hd; [reflexivity|]. simpl in *.
  destruct (decide (p = dirname p)) as [Heq|Hne].
  - rewrite <- Heq in Hdir. destruct (files w !! p) as [[]|]; try discriminate.
    exfalso. apply Hnd. reflexivity.
  - rewrite lookup_insert_ne by exact Hne. exact Hdir.
Qed.

End Files.

End IOFacts.

(** ** CSV sink *)

Module CsvSinkFacts.
Import CsvSink IOFacts.

Section WriteToCsv.
Context `{PyLib}.

Lemma to_csv_append_ok path df h w :
  can_open w path = true ->
  to_csv_append path df h w =
  (Done tt,
   with_files (<[path := File (text_at w path +:+
                               ((if h then header_text df else "")
                                +:+ rows_text df))]> (files w)) w).
Proof.
  intros Hc. unfold to_csv_append, append_file. rewrite Hc. reflexivity.
Qed.

Lemma to_csv_append_fail path df h w :
  can_open w path = false -> to_csv_append path df h w = (Raise OSError, w).
Proof.
  intros Hc. unfold to_csv_append, append_file. rewrite Hc. reflexivity.
Qed.

Lemma parent_mkdir_cases path w :
  (exists e, parent_mkdir path w = (Raise e, w)) \/
  parent_mkdir path w = (Done tt, w) \/
  (files w !! dirname path = None /\
   parent_mkdir path w
   = (Done tt, with_files (<[dirname path := Dir]> (files w)) w)).
Proof.
  unfold parent_mkdir. destruct (String.eqb (dirname path) "").
  - right. left. reflexivity.
  - unfold mkdir_exist_ok.
    destruct (files w !! dirname path) as [[t|]|]; eauto.
    destruct (bool_decide (dirname path ∈ locked w)); eauto.
Qed.

(** C9.  A write that succeeds leaves in the target file its former text
    (nothing for a new file), then the header row if and only if the file did
    not exist before the write, then the data rows.  This holds for
    [write_to_csv] of [Facet_Common.py], which reports success by [True] and
    a failed write by [False] without touching the files, and for
    [write_to_csv] of [051_Particle.py]. *)
Theorem write_to_csv_appends (path : string) (df : CsvFrame) (w : World) :
  let existed := bool_decide (is_Some (files w !! path)) in
  let appended :=
    text_at w path +:+
    ((if existed then "" else header_text df) +:+ rows_text df) in
  (can_open w path = true ->
   fst (write_to_csv_facet path df w) = Done true /\
   files (snd (write_to_csv_facet path df w)) !! path
   = Some (File appended)) /\
  (can_open w path = false ->
   fst (write_to_csv_facet path df w) = Done false /\
   files (snd (write_to_csv_facet path df w)) = files w) /\
  (fst (write_to_csv_particle path df w) = Done tt ->
   files (snd (write_to_csv_particle path df w)) !! path
   = Some (File appended)).
Proof.
  intros existed appended. split; [|split].
  - intros Hc. pose proof (can_open_not_dir _ _ Hc) as Hnd.
    unfold write_to_csv_facet, bind, try_except, Log_, path_isfile, ret.
    simpl. rewrite to_csv_append_ok by exact Hc. simpl.
    split; [reflexivity|]. rewrite lookup_insert_eq.
    unfold appended, existed, text_at. simpl.
    destruct (files w !! path) as [[t|]|] eqn:Hf; simpl.
    + reflexivity.
    + exfalso. apply Hnd. reflexivity.
    + reflexivity.
  - intros Hc.
    unfold write_to_csv_facet, bind, try_except, Log_, path_isfile, ret.
    simpl. rewrite to_csv_append_fail by exact Hc. simpl.
    split; reflexivity.
  - unfold write_to_csv_particle, parent_mkdir.
    assert (forall w1 : World,
              files w1 !! path = files w !! path ->
              fst (bind (path_exists path)
                     (fun e => to_csv_append path df (negb e)) w1) = Done tt ->
              files (snd (bind (path_exists path)
                     (fun e => to_csv_append path df (negb e)) w1)) !! path
              = Some (File appended)) as Hrest.
    { intros w1 Hsame. unfold bind, path_exists. simpl.
      destruct (can_open w1 path) eqn:Hc.
      - rewrite to_csv_append_ok by exact Hc. simpl. intros _.
        rewrite lookup_insert_eq. unfold appended, existed, text_at.
        rewrite Hsame.
        destruct (bool_decide (is_Some (files w !! path))); reflexivity.
      - rewrite to_csv_append_fail by exact Hc. simpl. discriminate. }
    destruct (parent_mkdir_cases path w) as [(e & Hm) | [Hm | (Hnone & Hm)]].
    + rewrite (bind_raise _ _ _ _ _ Hm). simpl. discriminate.
    + rewrite (bind_done _ _ _ _ _ Hm). apply Hrest. reflexivity.
    + rewrite (bind_done _ _ _ _ _ Hm).
      destruct (decide (dirname path = path)) as [Heq|Hne].
      * unfold bind, path_exists. simpl.
        rewrite to_csv_append_fail; [simpl; discriminate|].
        unfold can_open. simpl. rewrite Heq, lookup_insert_eq.
        rewrite andb_false_r. reflexivity.
      * apply Hrest. simpl. apply lookup_insert_ne. exact Hne.
Qed.

End WriteToCsv.

(** Two writes to a new file: the header comes once, with the first. *)
Lemma write_to_csv_example :
  let df1 := {| header_text := "a,b;"; rows_text := "1,2;" |} in
  let df2 := {| header_text := "a,b;"; rows_text := "3,4;" |} in
  let w0 := Toy.world (<["csv" := Dir]> ∅) (fun _ => 0) in
  let w1 := snd (write_to_csv_facet "csv/out.csv" df1 w0) in
  files w1 !! "csv/out.csv" = Some (File "a,b;1,2;") /\
  files (snd (write_to_csv_facet "csv/out.csv" df2 w1)) !! "csv/out.csv"
  = Some (File "a,b;1,2;3,4;") /\
  files (snd (write_to_csv_particle "csv/out.csv" df2 w1)) !! "csv/out.csv"
  = Some (File "a,b;1,2;3,4;").
Proof.
  intros df1 df2 w0 w1. split; [|split].
  - exact (proj2 (proj1 (write_to_csv_appends "csv/out.csv" df1 w0) eq_refl)).
  - exact (proj2 (proj1 (write_to_csv_appends "csv/out.csv" df2 w1) eq_refl)).
  - exact (proj2 (proj2 (write_to_csv_appends "csv/out.csv" df2 w1)) eq_refl).
Defined.

End CsvSinkFacts.

(** ** Cursor store *)

Module CursorStoreFacts.
Import CursorStore IOFacts.

Section Reads.
Context `{PyLib}.

Lemma ensure_rec_dir_cases p w :
  (exists e, ensure_rec_dir p w = (Raise e, w)) \/
  ensure_rec_dir p w = (Done tt, w) \/
  (files w !! dirname p = None /\ String.eqb (dirname p) "" = false /\
   ensure_rec_dir p w
   = (Done tt, with_files (<[dirname p := Dir]> (files w)) w)).
Proof.
  unfold ensure_rec_dir. destruct (String.eqb (dirname p) "").
  - right. left. reflexivity.
  - unfold bind, path_exists, makedirs, ret. simpl.
    destruct (files w !! dirname p) as [n|] eqn:Hd; simpl.
    + right. left. reflexivity.
    + destruct (bool_decide (dirname p ∈ locked w)); simpl; eauto.
      rewrite Hd. simpl. eauto.
Qed.

(** When the file can be opened its directory is there, and nothing is
    created. *)
Lemma ensure_rec_dir_present p w :
  can_open w p = true -> ensure_rec_dir p w = (Done tt, w).
Proof.
  unfold can_open, ensure_rec_dir. intros Hc.
  apply andb_prop in Hc as [_ Hdir].
  destruct (String.eqb (dirname p) ""); [reflexivity|]. simpl in Hdir.
  unfold bind, path_exists, ret. simpl.
  destruct (files w !! dirname p) as [[]|]; try discriminate. reflexivity.
Qed.

(** [read_running_rec] of [CVD_Crystal_Length_INI contorl V1.3.py] never
    raises when [datetime] can hold the look-back date, which the function
    computes before its [try].  Without a cursor file it returns the
    look-back date and leaves an empty file, or logs the error that
    prevented it; for a content that does not parse it logs an error and
    returns the look-back date; for a content that parses it returns the
    stored date. *)
Theorem read_running_rec_v13_never_raises (p : string) (days : Z) (w : World) :
  look_back_in_range (clock w (reads w)) days = true ->
  let fallback := clock w (reads w) - timedelta_days days in
  exists t w',
    read_running_rec_v13 p days w = (Done t, w') /\
    (files w !! p = None ->
     t = fallback /\
     (files w' !! p = Some (File "") \/
      In (Error, "Failed to create running record file") (log w'))) /\
    (forall text,
       files w !! p = Some (File text) -> p ∉ locked w ->
       PyStr.strip text <> "" ->
       match to_datetime_coerce (CStr (PyStr.strip text)) with
       | None =>
           t = fallback /\ files w' = files w /\
           In (Error, "Running record file content format error") (log w')
       | Some t0 => t = t0 /\ files w' = files w
       end).
Proof.
  intros _ fallback. unfold read_running_rec_v13.
  unfold bind at 1. unfold now_. simpl.
  unfold bind at 1. unfold path_exists. simpl.
  set (w1 := {| files := files w; locked := locked w; clock := clock w;
                reads := S (reads w); log := log w |}).
  destruct (files w !! p) as [node|] eqn:Hf; simpl.
  - (* the file is there *)
    unfold try_except, bind at 1.
    destruct (read_file p w1) as [[text|e] w2] eqn:Hr.
    + assert (w2 = w1 /\ (forall text', node = File text' -> text' = text))
        as [-> Htext].
      { unfold read_file in Hr. simpl in Hr. rewrite Hf in Hr.
        destruct node as [t|]; [|discriminate].
        destruct (bool_decide (p ∈ locked w)); [discriminate|].
        injection Hr as <- <-. split; [reflexivity|]. intros ? [= ->].
        reflexivity. }
      destruct (String.eqb (PyStr.strip text) "") eqn:Hs; simpl.
      * unfold bind, Log_, ret. simpl. do 2 eexists.
        split; [reflexivity|]. split; [discriminate|].
        intros text' [= ->] _ Hne. rewrite (Htext text' eq_refl) in Hne.
        apply String.eqb_eq in Hs. contradiction.
      * destruct (to_datetime_coerce (CStr (PyStr.strip text))) eqn:Hp;
          unfold bind, Log_, ret; simpl; do 2 eexists;
          (split; [reflexivity|]); (split; [discriminate|]);
          intros text' [= ->] _ _; rewrite (Htext text' eq_refl), Hp;
          simpl; auto.
    + unfold bind, Log_, ret. simpl. do 2 eexists.
      split; [reflexivity|]. split; [discriminate|].
      intros text [= ->] Hl _. exfalso.
      unfold read_file in Hr. simpl in Hr. rewrite Hf in Hr.
      rewrite bool_decide_eq_false_2 in Hr by exact Hl. discriminate.
  - (* no file *)
    assert (Hgoal :
      exists w2,
        try_except
          (_ <-- ensure_rec_dir p ;;
           _ <-- write_file p "" ;;
           Log_ Info "Running record file not found, created empty file")
          (fun _ => Log_ Error "Failed to create running record file") w1
        = (Done tt, w2) /\
        (files w2 !! p = Some (File "") \/
         In (Error, "Failed to create running record file") (log w2))).
    { unfold try_except.
      destruct (ensure_rec_dir_cases p w1)
        as [(e & Hm) | [Hm | (_ & _ & Hm)]].
      - rewrite (bind_raise _ _ _ _ _ Hm). unfold Log_. simpl.
        eexists. split; [reflexivity|]. right. simpl. auto.
      - rewrite (bind_done _ _ _ _ _ Hm).
        destruct (can_open w1 p) eqn:Hc.
        + rewrite (bind_done _ _ _ _ _ (write_file_ok p "" w1 Hc)).
          unfold Log_. simpl. eexists. split; [reflexivity|]. left. simpl.
          apply lookup_insert_eq.
        + rewrite (bind_raise _ _ _ _ _ (write_file_fail p "" w1 Hc)).
          unfold Log_. simpl. eexists. split; [reflexivity|]. right.
          simpl. auto.
      - rewrite (bind_done _ _ _ _ _ Hm).
        set (w1' := with_files (<[dirname p:=Dir]> (files w1)) w1).
        destruct (can_open w1' p) eqn:Hc.
        + rewrite (bind_done _ _ _ _ _ (write_file_ok p "" w1' Hc)).
          unfold Log_. simpl. eexists. split; [reflexivity|]. left. simpl.
          apply lookup_insert_eq.
        + rewrite (bind_raise _ _ _ _ _ (write_file_fail p "" w1' Hc)).
          unfold Log_. simpl. eexists. split; [reflexivity|]. right.
          simpl. auto. }
    destruct Hgoal as (w2 & Htry & Hw2).
    rewrite (bind_done _ _ _ _ _ Htry). unfold ret. simpl.
    do 2 eexists. split; [reflexivity|]. split; [auto|].
    intros text Habs. discriminate.
Qed.

(** [read_running_rec] of [048_TAK_SPUT.py], case by case: a missing file
    is created without a guard, so the call raises when the file cannot be
    created; a content that does not parse gives the look-back date and
    nothing is logged. *)
Lemma read_running_rec_048_cases (p : string) (w : World) :
  let r := read_running_rec_048 p w in
  (files w !! p = None -> can_open w p = false -> r = (Raise OSError, w)) /\
  (files w !! p = None -> can_open w p = true ->
   exists w', r = (Done (clock w (reads w) - timedelta_days 30), w') /\
              files w' !! p = Some (File "")) /\
  (forall text,
     files w !! p = Some (File text) -> p ∉ locked w ->
     PyStr.strip text <> "" ->
     to_datetime_coerce (CStr (PyStr.strip text)) = None ->
     exists w', r = (Done (clock w (reads w) - timedelta_days 30), w') /\
                files w' = files w /\ log w' = log w).
Proof.
  intros r. subst r.
  assert (Hstart : forall node,
            files w !! p = node ->
            read_running_rec_048 p w
            = (if negb (bool_decide (is_Some node))
               then _ <-- write_file p "" ;; thirty_days_ago
               else
                 try_except
                   (text <-- read_file p ;;
                    let content := PyStr.strip text in
                    if negb (String.eqb content "") then
                      match to_datetime_coerce (CStr content) with
                      | None => thirty_days_ago
                      | Some last_run_date => ret last_run_date
                      end
                    else thirty_days_ago)
                   (fun _ =>
                    _ <-- Log_ Error "Error reading running record file" ;;
                    thirty_days_ago)) w).
  { intros node <-. reflexivity. }
  split; [|split].
  - intros Hf Hc. rewrite (Hstart _ Hf). simpl.
    rewrite (bind_raise _ _ _ _ _ (write_file_fail p "" w Hc)). reflexivity.
  - intros Hf Hc. rewrite (Hstart _ Hf). simpl.
    rewrite (bind_done _ _ _ _ _ (write_file_ok p "" w Hc)).
    unfold thirty_days_ago, bind, now_, ret. simpl.
    eexists. split; [reflexivity|]. apply lookup_insert_eq.
  - intros text Hf Hl Hne Hparse. rewrite (Hstart _ Hf). simpl.
    unfold try_except, bind at 1, read_file. rewrite Hf.
    rewrite bool_decide_eq_false_2 by exact Hl.
    apply String.eqb_neq in Hne. rewrite Hne, Hparse. simpl.
    unfold thirty_days_ago, bind, now_, ret. simpl.
    eexists. split; [reflexivity|]. split; reflexivity.
Qed.

End Reads.

(** C8 fails for [read_running_rec] of [048_TAK_SPUT.py]: the cursor file
    [rec/run.txt] does not exist and neither does the directory [rec], and
    the read raises instead of returning the look-back date. *)
Theorem read_running_rec_048_raises :
  read_running_rec_048 "rec/run.txt" (Toy.world ∅ (fun _ => 0))
  = (Raise OSError, Toy.world ∅ (fun _ => 0)).
Proof. reflexivity. Qed.

(** The same read with the script of V1.3: the directory and the empty
    file are created and the look-back date is returned. *)
Lemma read_running_rec_v13_example :
  let r := read_running_rec_v13 "rec/run.txt" 30 (Toy.world ∅ (fun _ => 0)) in
  fst r = Done (- timedelta_days 30) /\
  files (snd r) !! "rec/run.txt" = Some (File "").
Proof. split; reflexivity. Qed.

(** A cursor file that holds the date 50, read when the clock stands in
    the year 2024: the stored date is returned and no file changes. *)
Lemma read_running_rec_v13_stored_example :
  exists t w',
    read_running_rec_v13 "run.txt" 0
      (Toy.world (<["run.txt" := File "50"]> ∅) (fun _ => 20240101))
    = (Done t, w') /\
    t = 50 /\
    files w' = files (Toy.world (<["run.txt" := File "50"]> ∅)
                                (fun _ => 20240101)).
Proof.
  destruct (read_running_rec_v13_never_raises (H := Toy.lib) "run.txt" 0
              (Toy.world (<["run.txt" := File "50"]> ∅) (fun _ => 20240101))
              eq_refl) as (t & w' & Hrun & _ & Hstored).
  exists t, w'. split; [exact Hrun|].
  exact (Hstored "50" eq_refl (not_elem_of_empty _)
           (fun Habs => ltac:(discriminate Habs))).
Defined.

End CursorStoreFacts.

(** ** The date window *)

Module DateWindowFacts.
Import Frame Grating IOFacts.

(** Two worlds that differ in the log and the files only. *)
Definition same_clock (w w' : World) : Prop :=
  locked w' = locked w /\ clock w' = clock w.

Section Window.
Context `{PyLib}.

Definition parses_since (c : nat) (watermark : Z) (lr : Z * Row) : bool :=
  match to_datetime_coerce (iloc (snd lr) c) with
  | Some t => watermark <=? t
  | None => false
  end.

(** Rows that do not parse are gone before the comparison. *)
Lemma drop_unparsed_parsed c rs lr t :
  In (lr, t) (drop_unparsed c rs) ->
  In lr rs /\ to_datetime_coerce (iloc (snd lr) c) = Some t.
Proof.
  induction rs as [|x rs IH]; simpl; [tauto|].
  destruct (to_datetime_coerce (iloc (snd x) c)) as [tx|] eqn:Hx; simpl.
  - intros [[= <- <-] | Hin]; [auto|]. destruct (IH Hin). auto.
  - intros Hin. destruct (IH Hin). auto.
Qed.

(** The two steps together are one filter, in the order of the frame. *)
Lemma keep_since_filter c watermark rs :
  keep_since watermark (drop_unparsed c rs)
  = List.filter (parses_since c watermark) rs.
Proof.
  unfold keep_since, parses_since.
  induction rs as [|x rs IH]; simpl; [reflexivity|].
  destruct (to_datetime_coerce (iloc (snd x) c)) as [tx|]; simpl.
  - destruct (watermark <=? tx); simpl; rewrite IH; reflexivity.
  - exact IH.
Qed.

Lemma keep_since_in c watermark rs lr :
  In lr (keep_since watermark (drop_unparsed c rs)) <->
  In lr rs /\
  exists t, to_datetime_coerce (iloc (snd lr) c) = Some t /\ watermark <= t.
Proof.
  rewrite keep_since_filter, filter_In. unfold parses_since.
  split.
  - intros [Hin Hp]. split; [exact Hin|].
    destruct (to_datetime_coerce (iloc (snd lr) c)) as [t|]; [|discriminate].
    exists t. split; [reflexivity|]. apply Z.leb_le. exact Hp.
  - intros [Hin (t & -> & Hle)]. split; [exact Hin|]. apply Z.leb_le. exact Hle.
Qed.

(** [read_running_rec] of [CVD_Grating.py]: the look-back date of the
    clock reading; besides the log, the only change can be the directory of
    the cursor file. *)
Lemma read_running_rec_spec p days w :
  exists w',
    CursorStore.read_running_rec p days w
    = (Done (clock w (reads w) - timedelta_days days), w') /\
    same_clock w w' /\ reads w' = S (reads w) /\
    (files w' = files w \/
     (files w !! p = None /\ files w !! dirname p = None /\
      String.eqb (dirname p) "" = false /\
      files w' = <[dirname p := Dir]> (files w))).
Proof.
  unfold CursorStore.read_running_rec.
  unfold bind at 1. unfold now_. simpl.
  unfold bind at 1. unfold Log_ at 1. simpl.
  unfold bind at 1. unfold Log_ at 1. simpl.
  unfold bind at 1. unfold path_exists. simpl.
  match goal with
  | |- context [bind _ _ ?w0] => set (w1 := w0)
  end.
  destruct (files w !! p) as [node|] eqn:Hf; simpl.
  - unfold bind at 1, try_except, bind at 1.
    destruct (read_file p w1) as [[text|e] w2] eqn:Hr.
    + assert (w2 = w1) as ->.
      { unfold read_file in Hr. simpl in Hr. rewrite Hf in Hr.
        destruct node; [|discriminate].
        destruct (bool_decide (p ∈ locked w)); [discriminate|].
        injection Hr as _ <-. reflexivity. }
      destruct (negb (String.eqb (PyStr.strip text) ""));
        unfold Log_, ret; simpl; eexists; split; try reflexivity;
        unfold same_clock; simpl; auto.
    + assert (w2 = w1) as ->.
      { unfold read_file in Hr. simpl in Hr. rewrite Hf in Hr.
        destruct node; [|injection Hr as _ <-; reflexivity].
        destruct (bool_decide (p ∈ locked w)); [|discriminate].
        injection Hr as _ <-. reflexivity. }
      unfold Log_, ret; simpl; eexists; split; try reflexivity;
        unfold same_clock; simpl; auto.
  - unfold bind at 1. unfold bind at 1. unfold Log_ at 1. simpl.
    unfold try_except.
    match goal with
    | |- context [CursorStore.ensure_rec_dir p ?w0] => set (w2 := w0)
    end.
    destruct (CursorStoreFacts.ensure_rec_dir_cases p w2)
      as [(e & Hm) | [Hm | (Hnone & Hdir & Hm)]]; rewrite Hm;
      unfold Log_, ret; simpl; eexists; (split; [reflexivity|]);
      unfold same_clock; simpl; auto.
    repeat split; auto.
Qed.

(** [update_running_rec]: the cursor file holds the date when it can be
    opened, and nothing changes besides the log when it cannot. *)
Lemma update_running_rec_spec p end_date w :
  exists w',
    CursorStore.update_running_rec p end_date w = (Done tt, w') /\
    same_clock w w' /\ reads w' = reads w /\
    files w'
    = (if can_open w p
       then <[p := File (strftime_cursor end_date)]> (files w)
       else files w).
Proof.
  unfold CursorStore.update_running_rec, try_except.
  destruct (can_open w p) eqn:Hc.
  - rewrite (bind_done _ _ _ _ _ (write_file_ok p _ w Hc)).
    unfold Log_. simpl. eexists. split; [reflexivity|].
    unfold same_clock. simpl. auto.
  - rewrite (bind_raise _ _ _ _ _ (write_file_fail p _ w Hc)).
    unfold Log_. simpl. eexists. split; [reflexivity|].
    unfold same_clock. simpl. auto.
Qed.

(** The filter under the conditions in which it runs: what it returns. *)
Lemma _apply_date_filter_runs df fields_map p days w spec ty :
  empty df = false ->
  get_field "key_Start_Date_Time" fields_map = Some (spec, ty) ->
  PyStr.isdigit spec = true ->
  in_columns (PyStr.int_of_digits spec) df = true ->
  exists w',
    _apply_date_filter df fields_map p days w
    = (Done (date_window (Z.to_nat (PyStr.int_of_digits spec))
                         (clock w (reads w) - timedelta_days days) df), w').
Proof.
  intros Hne Hget Hdig Hcol. unfold _apply_date_filter. rewrite Hne.
  destruct (read_running_rec_spec p days w) as (w1 & Hread & _).
  rewrite (bind_done _ _ _ _ _ Hread). rewrite Hget, Hdig, Hcol. simpl.
  set (thr := clock w (reads w) - timedelta_days days).
  set (c := Z.to_nat (PyStr.int_of_digits spec)).
  match goal with
  | |- context [bind ?m _ w1] =>
      assert (exists w2, m w1 = (Done tt, w2)) as (w2 & Hm)
  end.
  { match goal with
    | |- context [if empty ?d then _ else _] => destruct (empty d)
    end; [|eexists; reflexivity].
    destruct (max_timestamp _) as [l|]; [|eexists; reflexivity].
    destruct (l >? thr); [|eexists; reflexivity].
    destruct (update_running_rec_spec p l w1) as (w2 & Hu & _). eauto. }
  rewrite (bind_done _ _ _ _ _ Hm). unfold ret. eexists. reflexivity.
Qed.

(** C1.  For every table and every watermark the date window keeps a row
    if and only if its timestamp cell parses and the parsed time is at or
    after the watermark, and rows that do not parse are dropped before the
    comparison; this is what [_apply_date_filter] of [CVD_Grating.py]
    returns when the timestamp column is configured, with the look-back
    date as watermark, and what the date block of [050_TAK_MESA.py]
    returns when [Running_date] is positive. *)
Theorem date_filter_keeps_since_watermark (c : nat) (df : DataFrame) :
  (forall watermark lr,
     In lr (rows (fst (date_window c watermark df))) <->
     In lr (rows df) /\
     exists t, to_datetime_coerce (iloc (snd lr) c) = Some t /\
               watermark <= t) /\
  (forall watermark,
     rows (fst (date_window c watermark df))
     = keep_since watermark (drop_unparsed c (rows df)) /\
     forall lr t, In (lr, t) (drop_unparsed c (rows df)) ->
                  to_datetime_coerce (iloc (snd lr) c) = Some t) /\
  (forall fields_map p days w spec ty,
     empty df = false ->
     get_field "key_Start_Date_Time" fields_map = Some (spec, ty) ->
     PyStr.isdigit spec = true ->
     in_columns (PyStr.int_of_digits spec) df = true ->
     c = Z.to_nat (PyStr.int_of_digits spec) ->
     exists latest w',
       _apply_date_filter df fields_map p days w
       = (Done (fst (date_window c (clock w (reads w) - timedelta_days days)
                                 df), latest), w')) /\
  (forall running_date w,
     running_date > 0 ->
     exists w',
       TakMesa.date_filter running_date (Some c) df w
       = (Done (fst (date_window c
                       (clock w (reads w) - timedelta_days running_date) df)),
          w')).
Proof.
  split; [|split; [|split]].
  - intros watermark lr. simpl. apply keep_since_in.
  - intros watermark. split; [reflexivity|].
    intros lr t Hin. apply (drop_unparsed_parsed _ _ _ _ Hin).
  - intros fields_map p days w spec ty Hne Hget Hdig Hcol ->.
    destruct (_apply_date_filter_runs df fields_map p days w spec ty
                Hne Hget Hdig Hcol) as (w' & Hrun).
    rewrite Hrun. unfold date_window. simpl. eauto.
  - intros running_date w Hpos. unfold TakMesa.date_filter.
    assert ((running_date >? 0) = true) as -> by (apply Z.gtb_lt; lia).
    unfold bind, now_, ret. simpl. eauto.
Qed.

Lemma max_timestamp_fold parsed : forall acc,
  match fold_left (fun acc o =>
                     match o, acc with
                     | Some t, Some m => Some (Z.max m t)
                     | Some t, None => Some t
                     | None, _ => acc
                     end) parsed acc with
  | None => acc = None /\ forall t, ~ In (Some t) parsed
  | Some m =>
      (acc = Some m \/ In (Some m) parsed) /\
      (forall a, acc = Some a -> a <= m) /\
      forall t, In (Some t) parsed -> t <= m
  end.
Proof.
  induction parsed as [|o parsed IH]; intros acc; simpl.
  - destruct acc as [a|].
    + split; [auto|]. split; [intros ? [= ->]; lia|tauto].
    + split; [reflexivity|tauto].
  - match goal with |- context [fold_left _ parsed ?acc'] =>
      specialize (IH acc'); destruct (fold_left _ parsed acc') as [m|]
    end.
    + destruct IH as (Hm & Hacc & Hall).
      destruct o as [t|]; [destruct acc as [a|]|].
      * specialize (Hacc _ eq_refl). split; [|split].
        -- destruct Hm as [[= Hm] | Hm]; [|auto].
           destruct (Z.max_spec a t) as [[_ Hmax] | [_ Hmax]];
             rewrite Hmax in Hm; subst; auto.
        -- intros a' [= <-]. lia.
        -- intros t' [[= <-] | Hin]; [lia|auto].
      * specialize (Hacc _ eq_refl). split; [|split].
        -- destruct Hm as [[= <-] | Hm]; auto.
        -- discriminate.
        -- intros t' [[= <-] | Hin]; [lia|auto].
      * split; [|split]; [tauto|exact Hacc|].
        intros t' [Hx | Hin]; [discriminate|auto].
    + destruct IH as [Hacc Hnone].
      destruct o as [t|]; [destruct acc; discriminate|].
      split; [exact Hacc|]. intros t' [Hx | Hin]; [discriminate|].
      apply (Hnone _ Hin).
Qed.

(** [max_timestamp] is the greatest valid date of the column, and there is
    none exactly when no cell of the column parses. *)
Lemma max_timestamp_spec parsed :
  match max_timestamp parsed with
  | None => forall t, ~ In (Some t) parsed
  | Some m => In (Some m) parsed /\ forall t, In (Some t) parsed -> t <= m
  end.
Proof.
  unfold max_timestamp. pose proof (max_timestamp_fold parsed None) as Hf.
  destruct (fold_left _ parsed None) as [m|].
  - destruct Hf as ([Hm | Hm] & _ & Hall); [discriminate|auto].
  - apply Hf.
Qed.

Lemma in_parsed_dates c df t :
  In (Some t) (parsed_dates c df) <->
  exists lr, In lr (rows df) /\ to_datetime_coerce (iloc (snd lr) c) = Some t.
Proof.
  unfold parsed_dates. rewrite in_map_iff. split.
  - intros (lr & Heq & Hin). eauto.
  - intros (lr & Hin & Heq). eauto.
Qed.


End Window.

End DateWindowFacts.

(** ** Enrichment *)

Module EnrichFacts.
Import Frame Grating.

(** Every row has as many cells as the frame has columns. *)
Definition well_formed (df : DataFrame) : Prop :=
  Forall (fun lr => length (snd lr) = ncols df) (rows df).

Lemma set_loc_absent label c v rs :
  ~ In label (map fst rs) -> set_loc label c v rs = rs.
Proof.
  induction rs as [|x rs IH]; simpl; [reflexivity|]. intros Hn.
  destruct (Z.eqb_spec (fst x) label) as [Heq|Hne]; [tauto|].
  rewrite IH by tauto. reflexivity.
Qed.

Lemma set_loc_app label c v rs1 rs2 :
  set_loc label c v (rs1 ++ rs2)
  = (set_loc label c v rs1 ++ set_loc label c v rs2)%list.
Proof. apply map_app. Qed.

(** With labels that are all different, [df.loc[label, c] = v] changes the
    one row that carries the label. *)
Lemma set_loc_unique label c v pre r post :
  ~ In label (map fst pre) -> ~ In label (map fst post) ->
  set_loc label c v (pre ++ (label, r) :: post)
  = (pre ++ (label, set_iat r c v) :: post)%list.
Proof.
  intros Hpre Hpost. rewrite set_loc_app, (set_loc_absent _ _ _ pre Hpre).
  simpl. rewrite Z.eqb_refl, (set_loc_absent _ _ _ post Hpost). reflexivity.
Qed.

Section Enrich.
Context `{PyLib} `{SqlDb}.

(** What the query gives for a row: the two attributes, or nothing when
    the serial number is missing or blank or the query fails. *)
Definition lookup_outcome (serial_idx : nat) (r : Row) : option (Cell * Cell) :=
  let serial_num := iloc r serial_idx in
  if negb (isna serial_num)
     && negb (String.eqb (PyStr.strip (py_str serial_num)) "")
  then
    match selectSQL (py_str serial_num) with
    | Done attrs => Some attrs
    | Raise _ => None
    end
  else None.

Definition attach (serial_idx pn lot : nat) (lr : Z * Row) : Z * Row :=
  match lookup_outcome serial_idx (snd lr) with
  | Some (part_num, lot_num_9) =>
      (fst lr, set_iat (set_iat (snd lr) pn part_num) lot lot_num_9)
  | None => lr
  end.

Lemma attach_label serial_idx pn lot lr :
  fst (attach serial_idx pn lot lr) = fst lr.
Proof.
  unfold attach. destruct (lookup_outcome serial_idx (snd lr)) as [[a b]|];
    reflexivity.
Qed.

Lemma attach_labels serial_idx pn lot rs :
  map fst (map (attach serial_idx pn lot) rs) = map fst rs.
Proof.
  rewrite map_map. apply map_ext. intros lr. apply attach_label.
Qed.

Lemma enrich_row_unique serial_idx pn lot pre lr post :
  ~ In (fst lr) (map fst pre) -> ~ In (fst lr) (map fst post) ->
  enrich_row serial_idx pn lot (pre ++ lr :: post) lr
  = (pre ++ attach serial_idx pn lot lr :: post)%list.
Proof.
  intros Hpre Hpost. unfold enrich_row, attach, lookup_outcome.
  destruct lr as [label r]. simpl in *.
  destruct (negb (isna (iloc r serial_idx))
            && negb (String.eqb (PyStr.strip (py_str (iloc r serial_idx))) ""));
    [|reflexivity].
  destruct (selectSQL (py_str (iloc r serial_idx))) as [[a b]|e];
    [|reflexivity].
  rewrite (set_loc_unique label pn a pre r post Hpre Hpost).
  rewrite (set_loc_unique label lot b pre _ post Hpre Hpost). reflexivity.
Qed.

(** The loop over the rows attaches to every row what its own query gave,
    when no label occurs twice. *)
Lemma enrich_loop serial_idx pn lot todo : forall pre,
  NoDup (map fst (pre ++ todo)) ->
  fold_left (enrich_row serial_idx pn lot) todo
            (map (attach serial_idx pn lot) pre ++ todo)
  = map (attach serial_idx pn lot) (pre ++ todo).
Proof.
  induction todo as [|x todo IH]; intros pre Hnd; simpl.
  - rewrite !app_nil_r. reflexivity.
  - pose proof Hnd as Hnd'. rewrite map_app in Hnd'. simpl in Hnd'.
    apply NoDup_app in Hnd' as (_ & Hdisj & Hpost).
    apply NoDup_cons in Hpost as [Hx _].
    rewrite enrich_row_unique.
    + replace (map (attach serial_idx pn lot) pre
               ++ attach serial_idx pn lot x :: todo)
        with (map (attach serial_idx pn lot) (pre ++ [x]) ++ todo)
        by (rewrite map_app, <- app_assoc; reflexivity).
      replace (pre ++ x :: todo) with ((pre ++ [x]) ++ todo)
        by (rewrite <- app_assoc; reflexivity).
      apply IH. rewrite <- app_assoc. exact Hnd.
    + rewrite attach_labels. intros Hin. apply list_elem_of_In in Hin.
      apply (Hdisj _ Hin). left.
    + intros Hin. apply Hx. apply list_elem_of_In. exact Hin.
Qed.

(** The row that leaves the enrichment for a row of the input, if any. *)
Definition enriched_row (serial_idx : nat) (lr : Z * Row) : option (Z * Row) :=
  match lookup_outcome serial_idx (snd lr ++ [CNone; CNone]) with
  | Some (part_num, lot_num_9) =>
      if isna part_num then None
      else Some (fst lr, (snd lr ++ [part_num; lot_num_9])%list)
  | None => None
  end.

Lemma iloc_end (r : Row) (tail : list Cell) (k : nat) :
  iloc (r ++ tail) (length r + k) = nth k tail CNone.
Proof.
  unfold iloc. rewrite app_nth2 by lia.
  replace (length r + k - length r)%nat with k by lia. reflexivity.
Qed.

Lemma set_two_cells (r : Row) (a b : Cell) :
  set_iat (set_iat (r ++ [CNone; CNone]) (length r) a) (S (length r)) b
  = r ++ [a; b].
Proof.
  unfold set_iat. induction r as [|x r IH]; simpl; [reflexivity|].
  f_equal. exact IH.
Qed.

Lemma attach_then_dropna serial_idx width rs :
  Forall (fun lr => length (snd lr) = width) rs ->
  List.filter (fun lr => negb (isna (iloc (snd lr) width)))
    (map (attach serial_idx width (S width))
       (map (fun lr => (fst lr, (snd lr ++ [CNone]) ++ [CNone])%list) rs))
  = omap (enriched_row serial_idx) rs.
Proof.
  induction 1 as [|[label r] rs Hlen _ IH]; simpl; [reflexivity|].
  simpl in Hlen. rewrite IH. unfold attach, enriched_row. simpl.
  rewrite <- (app_assoc r [CNone] [CNone]). simpl.
  destruct (lookup_outcome serial_idx (r ++ [CNone; CNone])) as [[a b]|];
    simpl.
  - subst width. rewrite set_two_cells.
    replace (length r) with (length r + 0)%nat at 1 by lia.
    rewrite iloc_end. simpl. destruct (isna a); reflexivity.
  - subst width. replace (length r) with (length r + 0)%nat at 1 by lia.
    rewrite iloc_end. reflexivity.
Qed.

(** What [_enrich_with_sql_data] returns when the lookup runs. *)
Lemma _enrich_with_sql_data_rows df serial_num_col_idx_cfg :
  well_formed df -> NoDup (labels df) -> empty df = false ->
  connSQL = Connected ->
  in_columns serial_num_col_idx_cfg (add_column CNone (add_column CNone df))
  = true ->
  rows (_enrich_with_sql_data df serial_num_col_idx_cfg)
  = relabel_from 0
      (omap (enriched_row (Z.to_nat serial_num_col_idx_cfg)) (rows df)).
Proof.
  intros Hwf Hnd Hne Hconn Hcol. unfold _enrich_with_sql_data.
  rewrite Hne, Hcol, Hconn. simpl.
  set (rows_e := map (fun lr => (fst lr, (snd lr ++ [CNone])%list))
                   (map (fun lr => (fst lr, (snd lr ++ [CNone])%list))
                      (rows df))).
  assert (rows_e = map (fun lr => (fst lr, (snd lr ++ [CNone]) ++ [CNone])%list)
                     (rows df)) as Hrows.
  { unfold rows_e. rewrite map_map. reflexivity. }
  pose proof (enrich_loop (Z.to_nat serial_num_col_idx_cfg)
                (ncols df) (S (ncols df)) rows_e []) as Hloop.
  simpl in Hloop. rewrite Hloop.
  - rewrite Hrows. rewrite (attach_then_dropna _ _ _ Hwf). reflexivity.
  - rewrite Hrows, map_map. simpl. exact Hnd.
Qed.

Lemma relabel_from_rows rs : forall start,
  map snd (relabel_from start rs) = map snd rs.
Proof.
  unfold relabel_from. induction rs as [|x rs IH]; intros start;
    [reflexivity|].
  simpl. f_equal. rewrite <- (IH (start + 1)). f_equal.
  apply imap_ext. intros i y _. simpl. f_equal. lia.
Qed.

Lemma in_relabel_from start rs (r : Row) :
  (exists label, In (label, r) (relabel_from start rs)) <->
  (exists label, In (label, r) rs).
Proof.
  split; intros [label Hin].
  - apply (in_map snd) in Hin. rewrite relabel_from_rows in Hin.
    apply in_map_iff in Hin as ([l0 r0] & Heq & Hin). simpl in Heq.
    subst r0. eauto.
  - apply (in_map snd) in Hin. rewrite <- (relabel_from_rows rs start) in Hin.
    apply in_map_iff in Hin as ([l0 r0] & Heq & Hin). simpl in Heq.
    subst r0. eauto.
Qed.

Lemma in_omap_enriched serial_idx rs label x :
  In (label, x) (omap (enriched_row serial_idx) rs) <->
  exists r part_num lot_num_9,
    In (label, r) rs /\
    lookup_outcome serial_idx (r ++ [CNone; CNone])
    = Some (part_num, lot_num_9) /\
    isna part_num = false /\ x = r ++ [part_num; lot_num_9].
Proof.
  rewrite <- list_elem_of_In, list_elem_of_omap. unfold enriched_row. split.
  - intros ([l0 r0] & Hin & Hrow). simpl in Hrow.
    destruct (lookup_outcome serial_idx (r0 ++ [CNone; CNone]))
      as [[a b]|] eqn:Hl; [|discriminate].
    destruct (isna a) eqn:Ha; [discriminate|].
    injection Hrow as <- <-. apply list_elem_of_In in Hin. eauto 10.
  - intros (r & a & b & Hin & Hl & Ha & ->). exists (label, r).
    split; [apply list_elem_of_In; exact Hin|]. simpl. rewrite Hl, Ha.
    reflexivity.
Qed.

Lemma in_lookup_all serial_idx rs : forall looked label x,
  Facet.lookup_all serial_idx rs = Done looked ->
  (In (label, x) looked <->
   exists r part_num lot_num_9,
     In (label, r) rs /\
     selectSQL (py_str (iloc r serial_idx)) = Done (part_num, lot_num_9) /\
     x = r ++ [part_num; lot_num_9]).
Proof.
  induction rs as [|[l0 r0] rs IH]; intros looked label x; simpl.
  - intros [= <-]. split; [intros []|intros (? & ? & ? & [] & _)].
  - destruct (selectSQL (py_str (iloc r0 serial_idx))) as [[a b]|e] eqn:Hs;
      simpl; [|discriminate].
    destruct (Facet.lookup_all serial_idx rs) as [rest|e]; simpl;
      [|discriminate].
    intros [= <-]. simpl. rewrite (IH rest label x eq_refl). split.
    + intros [[= <- <-] | (r & pa & lo & Hin & Hq & ->)]; eauto 10.
    + intros (r & pa & lo & [[= <- <-] | Hin] & Hq & ->).
      * left. rewrite Hs in Hq. injection Hq as <- <-. reflexivity.
      * right. eauto 10.
Qed.

(** C7, as the code has it.  When the lookup runs, [_enrich_with_sql_data]
    keeps a row exactly when its query returned a part number that is not
    null, and the kept row carries both attributes; the lot number plays no
    part, so a row with a part number and a null lot number stays, and a
    row without part number goes whatever its lot number.  The database
    step of [Facet_Common.py] keeps a row exactly when the query returned
    a part number that is not null and is not the excluded one. *)
Theorem enrichment_keeps_rows_with_part_number (df : DataFrame)
  (serial_num_col_idx_cfg : Z) (facet_serial_idx : nat) :
  well_formed df -> NoDup (labels df) -> empty df = false ->
  connSQL = Connected ->
  in_columns serial_num_col_idx_cfg (add_column CNone (add_column CNone df))
  = true ->
  let serial_idx := Z.to_nat serial_num_col_idx_cfg in
  let out := _enrich_with_sql_data df serial_num_col_idx_cfg in
  rows out = relabel_from 0 (omap (enriched_row serial_idx) (rows df)) /\
  (forall label r,
     In (label, r) (rows df) ->
     match lookup_outcome serial_idx (r ++ [CNone; CNone]) with
     | Some (part_num, lot_num_9) =>
         if isna part_num
         then forall label' a b, ~ In (label', r ++ [a; b]) (rows out)
         else exists label', In (label', r ++ [part_num; lot_num_9]) (rows out)
     | None => forall label' a b, ~ In (label', r ++ [a; b]) (rows out)
     end) /\
  (forall kept,
     Facet.database_query df facet_serial_idx = Done (Some kept) ->
     forall label x,
       In (label, x) (rows kept) <->
       exists r part_num lot_num_9,
         In (label, r) (rows df) /\
         selectSQL (py_str (iloc r facet_serial_idx))
         = Done (part_num, lot_num_9) /\
         x = r ++ [part_num; lot_num_9] /\
         isna part_num = false /\ Facet.not_excluded part_num = true).
Proof.
  intros Hwf Hnd Hne Hconn Hcol serial_idx out.
  pose proof (_enrich_with_sql_data_rows df serial_num_col_idx_cfg
                Hwf Hnd Hne Hconn Hcol) as Hrows.
  fold out serial_idx in Hrows.
  assert (Hlen : forall label r, In (label, r) (rows df) ->
                                 length r = ncols df).
  { intros label r Hin. unfold well_formed in Hwf.
    rewrite Forall_forall in Hwf.
    apply (Hwf (label, r)). apply list_elem_of_In. exact Hin. }
  assert (Hno : forall label r,
            In (label, r) (rows df) ->
            (forall a b, lookup_outcome serial_idx (r ++ [CNone; CNone])
                         = Some (a, b) -> isna a = true) ->
            forall label' a b, ~ In (label', r ++ [a; b]) (rows out)).
  { intros label r Hin Hmiss label' a b Hout. rewrite Hrows in Hout.
    assert (exists l0, In (l0, r ++ [a; b])
                         (omap (enriched_row serial_idx) (rows df)))
      as [l0 Hin0] by (apply (in_relabel_from 0); eauto).
    apply in_omap_enriched in Hin0 as (r0 & a0 & b0 & Hin0 & Hl & Ha & Heq).
    apply app_inj_2 in Heq as [<- _]; [|reflexivity].
    rewrite (Hmiss _ _ Hl) in Ha. discriminate. }
  split; [exact Hrows|]. split.
  - intros label r Hin.
    destruct (lookup_outcome serial_idx (r ++ [CNone; CNone]))
      as [[a b]|] eqn:Hl.
    + destruct (isna a) eqn:Ha.
      * apply (Hno label r Hin). intros a' b'. rewrite Hl.
        intros [= <- <-]. exact Ha.
      * rewrite Hrows. apply (in_relabel_from 0). exists label.
        apply in_omap_enriched. eauto 10.
    + apply (Hno label r Hin). intros a' b'. rewrite Hl. discriminate.
  - intros kept. unfold Facet.database_query. rewrite Hconn.
    destruct (Facet.lookup_all facet_serial_idx (rows df)) as [looked|e]
      eqn:Hall; simpl; [|discriminate].
    intros [= <-] label x. simpl. rewrite filter_In.
    rewrite (in_lookup_all _ _ _ label x Hall). split.
    + intros [(r & a & b & Hin & Hq & ->) Hkeep]. simpl in Hkeep.
      replace (ncols df) with (length r + 0)%nat in Hkeep
        by (rewrite (Hlen _ _ Hin); lia).
      rewrite iloc_end in Hkeep. simpl in Hkeep.
      apply andb_prop in Hkeep as [Ha Hex].
      apply negb_true_iff in Ha. eauto 10.
    + intros (r & a & b & Hin & Hq & -> & Ha & Hex). split; [eauto 10|].
      simpl. replace (ncols df) with (length r + 0)%nat
        by (rewrite (Hlen _ _ Hin); lia).
      rewrite iloc_end. simpl. rewrite Ha, Hex. reflexivity.
Qed.

End Enrich.

(** The batch of scenario 4, with two partial matches added: serial [S1]
    has no entry, [S2] has both attributes, [S3] has a part number and no
    lot number, [S4] a lot number and no part number. *)
Definition batch : DataFrame :=
  {| ncols := 1;
     rows := [(0, [CStr "S1"]); (1, [CStr "S2"]); (2, [CStr "S3"]);
              (3, [CStr "S4"])] |}.

Lemma enrichment_example :
  rows (_enrich_with_sql_data batch 0)
  = [(0, [CStr "S2"; CStr "PN123"; CStr "LOT9"]);
     (1, [CStr "S3"; CStr "PN7"; CNone])].
Proof.
  assert (Hwf : well_formed batch) by (repeat constructor).
  assert (Hnd : NoDup (labels batch))
    by (apply (bool_decide_unpack _); vm_compute; exact I).
  exact (proj1 (enrichment_keeps_rows_with_part_number batch 0 0
                  Hwf Hnd eq_refl eq_refl eq_refl)).
Defined.

(** C7 as the specification words it does not hold: the row of [S3], whose
    lookup has no lot number, is kept. *)
Lemma partial_match_is_kept : ~ Claims.partial_match_dropped batch 0.
Proof.
  intros Hclaim.
  apply (Hclaim 2 [CStr "S3"] (CStr "PN7") CNone
           (or_intror (or_intror (or_introl eq_refl))) eq_refl eq_refl
           1 (CStr "PN7") CNone).
  vm_compute. right. left. reflexivity.
Qed.

End EnrichFacts.

(** ** Type coercion *)

Module CoercionFacts.
Import Frame Grating.

(** The labels [start], [start + 1], ... of a frame whose index was never
    cut, or was reset. *)
Fixpoint default_labels (start : Z) (rs : list (Z * Row)) : Prop :=
  match rs with
  | [] => True
  | lr :: rs' => fst lr = start /\ default_labels (start + 1) rs'
  end.

Lemma default_labels_lower rs : forall start lr,
  default_labels start rs -> In lr rs -> start <= fst lr.
Proof.
  induction rs as [|x rs IH]; intros start lr Hd Hin; [destruct Hin|].
  destruct Hd as [Hx Hd]. destruct Hin as [<- | Hin]; [lia|].
  specialize (IH _ _ Hd Hin). lia.
Qed.

Lemma relabel_default rs : forall start,
  default_labels start rs -> relabel_from start rs = rs.
Proof.
  unfold relabel_from. induction rs as [|[l r] rs IH]; intros start Hd;
    [reflexivity|].
  destruct Hd as [Hl Hd]. simpl in *. subst l. f_equal.
  - f_equal. lia.
  - rewrite <- (IH (start + 1) Hd) at 2. apply imap_ext.
    intros i y _. simpl. f_equal. lia.
Qed.

Section Coerce.
Context `{PyLib}.
Variables (via_float : bool) (width : nat) (fields_map : FieldsMap).

(** The row that leaves the coercion for a row of the input: the row with
    every declared field converted, and nothing for a row in which a
    conversion failed. *)
Definition coerced_row (lr : Z * Row) : option (Z * Row) :=
  match convert_fields via_float width fields_map (snd lr) with
  | Done (Converted r') => Some (fst lr, r')
  | _ => None
  end.

(** The loop removes no row: the frame it leaves has the rows of the input,
    label by label, and the positions it marks are positions of rows in
    which a conversion failed. *)
Lemma convert_rows_default rs : forall start looped,
  default_labels start rs ->
  convert_rows via_float width fields_map start rs = Done looped ->
  map fst (fst looped) = map fst rs /\
  (forall d, In d (snd looped) -> In d (map fst rs)) /\
  List.filter (fun lr => negb (existsb (Z.eqb (fst lr)) (snd looped)))
              (fst looped)
  = omap coerced_row rs.
Proof.
  induction rs as [|[l r] rs IH]; intros start looped Hd; simpl.
  - intros [= <-]. simpl. split; [reflexivity|]. split; [tauto|reflexivity].
  - destruct Hd as [Hl Hd]. simpl in Hl. subst l.
    destruct (convert_fields via_float width fields_map r) as [o|e] eqn:Ho;
      simpl; [|discriminate].
    destruct (convert_rows via_float width fields_map (start + 1) rs)
      as [rest|e] eqn:Hrest; simpl; [|discriminate].
    intros [= <-]. simpl.
    destruct (IH _ _ Hd Hrest) as (Hlabels & Hdrops & Hfilter).
    assert (Hlow : forall d, In d (snd rest) -> start + 1 <= d).
    { intros d Hin. apply Hdrops in Hin.
      apply in_map_iff in Hin as (lr & <- & Hin).
      apply (default_labels_lower _ _ _ Hd Hin). }
    assert (Hhead : existsb (Z.eqb start) (snd rest) = false).
    { apply not_true_is_false. intros Hex.
      apply existsb_exists in Hex as (d & Hin & Heq).
      apply Z.eqb_eq in Heq. specialize (Hlow d Hin). lia. }
    assert (Htail : forall drops,
              (drops = snd rest \/ drops = start :: snd rest) ->
              List.filter (fun lr => negb (existsb (Z.eqb (fst lr)) drops))
                          (fst rest)
              = omap coerced_row rs).
    { intros drops Hdr. rewrite <- Hfilter. apply filter_ext_in.
      intros lr Hin. destruct Hdr as [-> | ->]; [reflexivity|]. simpl.
      assert (start + 1 <= fst lr) as Hlr.
      { assert (In (fst lr) (map fst rs)) as Hin'
          by (rewrite <- Hlabels; apply in_map; exact Hin).
        apply in_map_iff in Hin' as (lr0 & <- & Hin0).
        apply (default_labels_lower _ _ _ Hd Hin0). }
      destruct (Z.eqb_spec (fst lr) start); [lia|reflexivity]. }
    split; [f_equal; exact Hlabels|]. split.
    + intros d Hin. destruct o; simpl in Hin.
      * right. apply Hdrops. exact Hin.
      * destruct Hin as [<- | Hin]; [left; reflexivity|].
        right. apply Hdrops. exact Hin.
    + unfold coerced_row at 1. simpl. rewrite Ho. destruct o; simpl.
      * rewrite Hhead. simpl. f_equal.
        exact (Htail (snd rest) (or_introl eq_refl)).
      * rewrite Z.eqb_refl. simpl.
        exact (Htail (start :: snd rest) (or_intror eq_refl)).
Qed.

End Coerce.

Section CoerceFrame.
Context `{PyLib}.

(** On a frame with default labels the coercion does what C5 says: a row
    leaves the stage if and only if every conversion of its declared fields
    succeeded, and then with all of them converted; the loop itself removes
    no row, and the marked rows go in one step after it. *)
Lemma _apply_type_conversions_default via_float df fields_map out :
  default_labels 0 (rows df) -> empty df = false ->
  _apply_type_conversions via_float df fields_map = Done out ->
  rows out
  = relabel_from 0
      (omap (coerced_row via_float (ncols df) fields_map) (rows df)) /\
  exists looped,
    convert_rows via_float (ncols df) fields_map 0 (rows df) = Done looped /\
    length (fst looped) = length (rows df).
Proof.
  intros Hd Hne. unfold _apply_type_conversions. rewrite Hne.
  destruct (convert_rows via_float (ncols df) fields_map 0 (rows df))
    as [looped|e] eqn:Hloop; simpl; [|discriminate].
  destruct (convert_rows_default via_float (ncols df) fields_map
              (rows df) 0 looped Hd Hloop) as (Hlabels & Hdrops & Hfilter).
  assert (Hlen : length (fst looped) = length (rows df)).
  { rewrite <- (length_map fst (fst looped)), Hlabels. apply length_map. }
  destruct (snd looped) as [|d drops] eqn:Hsnd.
  - intros [= <-]. simpl. split; [|eauto].
    simpl in Hfilter. rewrite <- Hfilter.
    rewrite (forallb_filter_id _ (fst looped))
      by (apply forallb_forall; reflexivity).
    symmetry. apply relabel_default.
    clear - Hlabels Hd. revert Hlabels Hd. generalize 0.
    generalize (rows df). induction (fst looped) as [|x l IH];
      intros [|y rs] start Hl Hdef; try discriminate; [exact I|].
    simpl in *. injection Hl as Hxy Hl. destruct Hdef as [Hy Hdef].
    split; [congruence|]. eapply IH; eauto.
  - assert (forallb
              (fun l => existsb (Z.eqb l)
                          (labels {| ncols := ncols df; rows := fst looped |}))
              (d :: drops) = true) as Hall.
    { apply forallb_forall. intros x Hin. apply existsb_exists.
      exists x. split; [|apply Z.eqb_refl].
      unfold labels. simpl. rewrite Hlabels. apply Hdrops. exact Hin. }
    unfold drop_index. rewrite Hall. simpl. intros [= <-]. simpl.
    split; [|eauto]. f_equal. exact Hfilter.
Qed.

End CoerceFrame.

(** The fields of scenario 2: an identifier, a time stamp and a value. *)
Definition fields : FieldsMap :=
  [("key_id", ("0", "str")); ("key_Start_Date_Time", ("1", "datetime"));
   ("key_val", ("2", "float"))].

(** Two rows as they reach the coercion when the first row of the sheet was
    cut by the date window and the lookup found no connection, so that the
    index was not reset and the two new columns are empty: the labels are
    1 and 2.  The value of the second row is no number. *)
Definition cut_frame : DataFrame :=
  {| ncols := 5;
     rows := [(1, [CStr "A"; CTime 20240102; CStr "35"; CNone; CNone]);
              (2, [CStr "B"; CTime 20240103; CStr "N/A"; CNone; CNone])] |}.

(** C5 fails on a frame whose labels are not the positions.  The row at
    position 1 is marked, [df.drop(index=[1])] removes the row labelled 1,
    which is the good row at position 0, and the row with the bad value
    leaves the stage, half converted. *)
Theorem type_conversion_drops_the_wrong_row :
  _apply_type_conversions true cut_frame fields
  = Done {| ncols := 5;
            rows := [(0, [CStr "B"; CStr "20240103"; CStr "N/A";
                          CNone; CNone])] |}.
Proof. reflexivity. Qed.

(** The same rows with default labels: the bad row goes, the good row
    stays, converted. *)
Lemma type_conversion_default_example :
  _apply_type_conversions true
    {| ncols := 3;
       rows := [(0, [CStr "A"; CTime 20240102; CStr "35"]);
                (1, [CStr "B"; CTime 20240103; CStr "N/A"])] |} fields
  = Done {| ncols := 3;
            rows := [(0, [CStr "A"; CStr "20240102";
                          CFloat (FFin (inject_Z 35))])] |}.
Proof. reflexivity. Qed.

(** When the marked position is no label at all the stage raises. *)
Lemma type_conversion_key_error :
  _apply_type_conversions true
    {| ncols := 3;
       rows := [(1, [CStr "A"; CTime 20240102; CStr "N/A"]);
                (2, [CStr "B"; CTime 20240103; CStr "35"])] |} fields
  = Raise KeyError.
Proof. reflexivity. Qed.

End CoercionFacts.

(** ** The pipeline and the cursor *)

Module PipelineFacts.
Import Frame Grating IOFacts DateWindowFacts.

(** [post Q c]: whatever [c] returns or raises, the world it leaves is
    related by [Q] to the world it started in. *)
Definition post {A} (Q : World -> World -> Prop) (c : IO A) : Prop :=
  forall w r w', c w = (r, w') -> Q w w'.

Section Rules.
Variable Q : World -> World -> Prop.
Hypothesis Q_refl : forall w, Q w w.
Hypothesis Q_trans : forall w1 w2 w3, Q w1 w2 -> Q w2 w3 -> Q w1 w3.






End Rules.

Section Run.
Context `{PyLib} `{SqlDb} `{SinkFormat}.
Variable cfg : Settings.

Local Abbreviation p := (running_rec_path_cfg cfg).
Local Abbreviation lookback := (timedelta_days (date_filter_days_cfg cfg)).

(** The cursor file is not its own directory, and the sinks write
    elsewhere. *)
Hypothesis dir_distinct : dirname p <> p.
Hypothesis csv_dir_distinct : csv_path_cfg cfg <> p.
Hypothesis csv_distinct : forall stamp,
  csv_file_path (csv_path_cfg cfg) (ini_filename_base_id cfg) stamp <> p.
Hypothesis xml_distinct : forall stamp,
  xml_file_path (output_path_cfg cfg) stamp <> p.


(** The cursor file is untouched, or holds [latest], and then [latest] is
    not older than the look-back date of a reading of the clock that was
    taken from reading [first] on and before [w']. *)
Definition writes_from (first : nat) (latest : option Z) (w w' : World)
  : Prop :=
  clock w' = clock w /\ (reads w <= reads w')%nat /\
  (files w' !! p = files w !! p \/
   exists m, latest = Some m /\
             files w' !! p = Some (File (strftime_cursor m)) /\
             exists k, (first <= k < reads w')%nat /\
                       clock w k - lookback <= m).

(** The same for the readings taken between [w] and [w']. *)
Definition writes_only (latest : option Z) (w w' : World) : Prop :=
  writes_from (reads w) latest w w'.




Lemma writes_from_weaken first first' latest w w' :
  (first' <= first)%nat ->
  writes_from first latest w w' -> writes_from first' latest w w'.
Proof.
  intros Hle (Hc & Hr & Hf). split; [exact Hc|]. split; [exact Hr|].
  destruct Hf as [Hf | (m & Hm & Hf & k & Hk & Hold)]; [left; exact Hf|].
  right. exists m. split; [exact Hm|]. split; [exact Hf|].
  exists k. split; [lia|exact Hold].
Qed.

Lemma writes_from_trans first latest w1 w2 w3 :
  writes_from first latest w1 w2 -> writes_from first latest w2 w3 ->
  writes_from first latest w1 w3.
Proof.
  intros (Hc1 & Hr1 & Ha) (Hc2 & Hr2 & Hb). split; [congruence|].
  split; [lia|].
  destruct Hb as [Hb | (m & Hm & Hf & k & Hk & Hold)].
  - destruct Ha as [Ha | (m & Hm & Hf & k & Hk & Hold)].
    + left. congruence.
    + right. exists m. split; [exact Hm|]. split; [congruence|].
      exists k. split; [lia|exact Hold].
  - right. exists m. split; [exact Hm|]. split; [exact Hf|].
    exists k. split; [exact Hk|]. rewrite Hc1 in Hold. exact Hold.
Qed.


Lemma writes_only_trans latest w1 w2 w3 :
  writes_only latest w1 w2 -> writes_only latest w2 w3 ->
  writes_only latest w1 w3.
Proof.
  intros Ha Hb. apply (writes_from_trans _ _ _ w2); [exact Ha|].
  apply (writes_from_weaken (reads w2)); [|exact Hb].
  destruct Ha as (_ & Hr & _). exact Hr.
Qed.


















(** What follows the date filter in [process_single_excel_file]. *)
Definition after_filter (df_xy : DataFrame) (filtered : DataFrame * option Z)
  : IO unit :=
  let df_filtered := fst filtered in
  let latest_date := snd filtered in
  if empty df_filtered then
    _ <-- Log_ Info "No data left after date filtering" ;;
    advance_if_later cfg latest_date
  else
    let df_with_sql :=
      _enrich_with_sql_data df_filtered
        (serial_number_source_column_idx_cfg cfg) in
    if empty df_with_sql then
      _ <-- Log_ Info "No data left after SQL enrichment" ;;
      advance_if_later cfg latest_date
    else
      let df_with_xy :=
        _merge_xy_coordinates df_with_sql df_xy (xy_num_points_cfg cfg)
          (xy_coord_x_col_idx_cfg cfg) (xy_coord_y_col_idx_cfg cfg) in
      df_typed <-- lift_res (_apply_type_conversions true df_with_xy
                               (fields_map_cfg cfg)) ;;
      if empty df_typed then
        _ <-- Log_ Info "No data left after type conversions" ;;
        advance_if_later cfg latest_date
      else
        let df_renamed := _perform_column_renaming df_typed in
        saved <-- _save_to_csv df_renamed (csv_path_cfg cfg)
                    (ini_filename_base_id cfg) ;;
        _ <-- match saved with
              | Some generated_csv_path =>
                  _ <-- generate_xml (output_path_cfg cfg)
                          generated_csv_path ;;
                  match latest_date with
                  | Some latest =>
                      CursorStore.update_running_rec p latest
                  | None => ret tt
                  end
              | None =>
                  _ <-- Log_ Error "Skipping XML generation" ;;
                  advance_if_later cfg latest_date
              end ;;
        Log_ Info "Successfully processed Excel file".

Lemma process_single_excel_file_unfold df_main df_xy :
  process_single_excel_file cfg (Some df_main) df_xy
  = if empty df_main
    then Log_ Error "Stopping processing: main data is empty"
    else
      filtered <-- _apply_date_filter df_main (fields_map_cfg cfg) p
                     (date_filter_days_cfg cfg) ;;
      after_filter df_xy filtered.
Proof. reflexivity. Qed.


(** The position of the timestamp column, when it is configured by a
    number within the frame, so that the date filter runs. *)
Definition configured_column (df : DataFrame) : option nat :=
  match get_field "key_Start_Date_Time" (fields_map_cfg cfg) with
  | Some (spec, _) =>
      if PyStr.isdigit spec && in_columns (PyStr.int_of_digits spec) df
      then Some (Z.to_nat (PyStr.int_of_digits spec))
      else None
  | None => None
  end.





(** *** Runs in which the cursor file can be written *)

Lemma can_open_same w w' q :
  files w' = files w -> locked w' = locked w -> can_open w' q = can_open w q.
Proof. intros Hf Hl. unfold can_open. rewrite Hf, Hl. reflexivity. Qed.

Lemma read_running_rec_open days w :
  can_open w p = true ->
  exists w',
    CursorStore.read_running_rec p days w
    = (Done (clock w (reads w) - timedelta_days days), w') /\
    files w' = files w /\ locked w' = locked w /\ clock w' = clock w /\
    reads w' = S (reads w).
Proof.
  intros Hopen.
  destruct (read_running_rec_spec p days w)
    as (w' & Heq & [Hl Hck] & Hreads & Hf).
  exists w'. repeat split; auto.
  destruct Hf as [Hf | (_ & Hnone & Hdir & _)]; [exact Hf|].
  unfold can_open in Hopen. rewrite Hdir, Hnone in Hopen.
  rewrite andb_false_r in Hopen. discriminate.
Qed.

Lemma advance_if_later_writes m w :
  can_open w p = true -> clock w (reads w) - lookback < m ->
  exists w',
    advance_if_later cfg (Some m) w = (Done tt, w') /\
    files w' !! p = Some (File (strftime_cursor m)).
Proof.
  intros Hopen Hlater. unfold advance_if_later.
  destruct (read_running_rec_open (date_filter_days_cfg cfg) w Hopen)
    as (w1 & Hread & Hf & Hl & _).
  rewrite (bind_done _ _ _ _ _ Hread).
  assert ((m >? clock w (reads w) - lookback) = true) as ->
    by (apply Z.gtb_lt; lia).
  destruct (update_running_rec_spec p m w1) as (w2 & Hu & _ & _ & Hf2).
  exists w2. split; [exact Hu|].
  rewrite Hf2, (can_open_same w w1 p Hf Hl), Hopen.
  apply lookup_insert_eq.
Qed.

Lemma advance_if_later_skips m w :
  can_open w p = true -> m <= clock w (reads w) - lookback ->
  exists w', advance_if_later cfg (Some m) w = (Done tt, w') /\
             files w' = files w.
Proof.
  intros Hopen Holder. unfold advance_if_later.
  destruct (read_running_rec_open (date_filter_days_cfg cfg) w Hopen)
    as (w1 & Hread & Hf & _).
  rewrite (bind_done _ _ _ _ _ Hread).
  assert ((m >? clock w (reads w) - lookback) = false) as ->
    by (rewrite Z.gtb_ltb; apply Z.ltb_ge; lia).
  exists w1. split; [reflexivity|exact Hf].
Qed.

Lemma configured_column_runs df c :
  configured_column df = Some c ->
  exists spec ty,
    get_field "key_Start_Date_Time" (fields_map_cfg cfg) = Some (spec, ty) /\
    PyStr.isdigit spec = true /\
    in_columns (PyStr.int_of_digits spec) df = true /\
    c = Z.to_nat (PyStr.int_of_digits spec).
Proof.
  unfold configured_column.
  destruct (get_field _ _) as [[spec ty]|]; [|discriminate].
  destruct (PyStr.isdigit spec) eqn:Hdig; [|discriminate].
  destruct (in_columns _ df) eqn:Hcol; [|discriminate].
  intros [= <-]. exists spec, ty. auto.
Qed.

(** When the window keeps no row, the latest date of the column is older
    than the watermark. *)
Lemma empty_window_latest_older df c watermark m :
  configured_column df = Some c ->
  empty (fst (date_window c watermark df)) = true ->
  snd (date_window c watermark df) = Some m -> m < watermark.
Proof.
  intros Hcol Hempty Hmax.
  apply configured_column_runs in Hcol as (spec & ty & _ & _ & Hin & _).
  destruct (Z_lt_le_dec m watermark) as [Hlt | Hle]; [exact Hlt|exfalso].
  simpl in Hmax.
  pose proof (max_timestamp_spec (parsed_dates c df)) as Hspec.
  rewrite Hmax in Hspec. destruct Hspec as [Hm _].
  apply in_parsed_dates in Hm as (lr & Hlr & Hparse).
  assert (In lr (rows (fst (date_window c watermark df)))) as Hkept
    by (simpl; apply keep_since_in; eauto).
  unfold empty in Hempty.
  destruct (rows (fst (date_window c watermark df))); [destruct Hkept|].
  simpl in Hempty. unfold in_columns in Hin.
  apply andb_prop in Hin as [Hlo Hin]. apply Z.ltb_lt in Hin.
  apply Z.leb_le in Hlo. apply Nat.eqb_eq in Hempty. lia.
Qed.

Lemma _apply_date_filter_open df c w :
  can_open w p = true -> empty df = false -> configured_column df = Some c ->
  let window := date_window c (clock w (reads w) - lookback) df in
  exists w1,
    _apply_date_filter df (fields_map_cfg cfg) p (date_filter_days_cfg cfg) w
    = (Done window, w1) /\
    files w1 = files w /\ locked w1 = locked w /\ clock w1 = clock w /\
    reads w1 = S (reads w).
Proof.
  intros Hopen Hne Hcol window.
  pose proof (empty_window_latest_older df c
                (clock w (reads w) - lookback)) as Holder.
  specialize (fun m => Holder m Hcol). fold window in Holder.
  destruct (configured_column_runs df c Hcol)
    as (spec & ty & Hget & Hdig & Hin & ->).
  unfold _apply_date_filter. rewrite Hne.
  destruct (read_running_rec_open (date_filter_days_cfg cfg) w Hopen)
    as (w1 & Hread & Hf & Hl & Hck & Hreads).
  rewrite (bind_done _ _ _ _ _ Hread), Hget, Hdig, Hin. simpl.
  exists w1. split; [|auto].
  match goal with
  | |- bind ?m _ w1 = _ => assert (m w1 = (Done tt, w1)) as Hm
  end.
  { match goal with
    | |- (if empty ?d then _ else _) w1 = _ =>
        change d with (fst window)
    end.
    destruct (empty (fst window)) eqn:Hempty; [|reflexivity].
    destruct (max_timestamp _) as [m|] eqn:Hmax; [|reflexivity].
    specialize (Holder m eq_refl Hmax).
    assert ((m >? clock w (reads w) - lookback) = false) as ->
      by (rewrite Z.gtb_ltb; apply Z.ltb_ge; lia).
    reflexivity. }
  rewrite (bind_done _ _ _ _ _ Hm). reflexivity.
Qed.

(** The world after a line was logged. *)
Definition logged (l : Level) (msg : string) (w : World) : World :=
  {| files := files w; locked := locked w; clock := clock w;
     reads := reads w; log := (l, msg) :: log w |}.

Lemma bind_Log {B} l msg (k : unit -> IO B) w :
  bind (Log_ l msg) k w = k tt (logged l msg w).
Proof. reflexivity. Qed.

(** C3, as the code has it.  The date filter returns the maximum of all
    the dates of the timestamp column that parse, rows that it removes
    included.  When rows pass the filter and the enrichment or the type
    conversion then drops them all, the run writes that maximum to the
    cursor file if it is later than the look-back date of the next clock
    reading.  When the filter itself drops every row the maximum is older
    than the look-back date, and the run leaves the files as they are. *)
Theorem cursor_follows_latest_date_seen (df df_xy : DataFrame) (c : nat)
  (m : Z) (w : World) :
  can_open w p = true -> empty df = false -> configured_column df = Some c ->
  max_timestamp (parsed_dates c df) = Some m ->
  let window := date_window c (clock w (reads w) - lookback) df in
  let df_with_sql :=
    _enrich_with_sql_data (fst window)
      (serial_number_source_column_idx_cfg cfg) in
  let df_with_xy :=
    _merge_xy_coordinates df_with_sql df_xy (xy_num_points_cfg cfg)
      (xy_coord_x_col_idx_cfg cfg) (xy_coord_y_col_idx_cfg cfg) in
  (exists w1,
     _apply_date_filter df (fields_map_cfg cfg) p (date_filter_days_cfg cfg) w
     = (Done (fst window, Some m), w1)) /\
  (exists lr, In lr (rows df) /\
              to_datetime_coerce (iloc (snd lr) c) = Some m) /\
  (forall lr t, In lr (rows df) ->
                to_datetime_coerce (iloc (snd lr) c) = Some t -> t <= m) /\
  (empty (fst window) = false ->
   (empty df_with_sql = true \/
    exists df_typed,
      _apply_type_conversions true df_with_xy (fields_map_cfg cfg)
      = Done df_typed /\ empty df_typed = true) ->
   clock w (S (reads w)) - lookback < m ->
   exists w',
     process_single_excel_file cfg (Some df) df_xy w = (Done tt, w') /\
     files w' !! p = Some (File (strftime_cursor m))) /\
  (empty (fst window) = true ->
   clock w (reads w) <= clock w (S (reads w)) ->
   exists w',
     process_single_excel_file cfg (Some df) df_xy w = (Done tt, w') /\
     files w' = files w).
Proof.
  intros Hopen Hne Hcol Hmax window df_with_sql df_with_xy.
  destruct (_apply_date_filter_open df c w Hopen Hne Hcol)
    as (w1 & Hfilter & Hf & Hl & Hck & Hreads).
  fold window in Hfilter.
  assert (Hwindow : window = (fst window, Some m))
    by (unfold window, date_window; simpl; rewrite Hmax; reflexivity).
  pose proof (max_timestamp_spec (parsed_dates c df)) as Hspec.
  rewrite Hmax in Hspec. destruct Hspec as [Hin Hall].
  assert (Hopen1 : forall l msg, can_open (logged l msg w1) p = true).
  { intros l msg. rewrite <- Hopen. apply can_open_same; simpl; auto. }
  assert (Hstart : process_single_excel_file cfg (Some df) df_xy w
                   = after_filter df_xy (fst window, Some m) w1).
  { rewrite process_single_excel_file_unfold, Hne.
    rewrite (bind_done _ _ _ _ _ Hfilter), Hwindow. reflexivity. }
  split; [exists w1; rewrite Hfilter, Hwindow; reflexivity|].
  split; [apply in_parsed_dates; exact Hin|].
  split; [intros lr t Hlr Ht; apply Hall, in_parsed_dates; eauto|].
  split.
  - intros Hkept Hdropped Hlater. rewrite Hstart. unfold after_filter.
    cbn [fst snd]. rewrite Hkept. fold df_with_sql.
    assert (Hwrite : forall msg,
              exists w',
                (_ <-- Log_ Info msg ;; advance_if_later cfg (Some m)) w1
                = (Done tt, w') /\
                files w' !! p = Some (File (strftime_cursor m))).
    { intros msg. rewrite bind_Log.
      apply advance_if_later_writes; [apply Hopen1|].
      simpl. rewrite Hck, Hreads. exact Hlater. }
    destruct (empty df_with_sql) eqn:Hsql; [apply Hwrite|].
    destruct Hdropped as [Hx | (df_typed & Hconv & Hempty)]; [discriminate|].
    fold df_with_xy. rewrite Hconv. unfold bind at 1, lift_res.
    rewrite Hempty. apply Hwrite.
  - intros Hempty Hmono. rewrite Hstart. unfold after_filter.
    cbn [fst snd]. rewrite Hempty, bind_Log.
    assert (m < clock w (reads w) - lookback) as Holder.
    { apply (empty_window_latest_older df c _ m Hcol Hempty).
      simpl. exact Hmax. }
    destruct (advance_if_later_skips m (logged Info
                "No data left after date filtering" w1)) as (w' & Hadv & Hf');
      [apply Hopen1|simpl; rewrite Hck, Hreads; lia|].
    exists w'. split; [exact Hadv|]. rewrite Hf'. exact Hf.
Qed.

End Run.

(** *** A job on three small tables

    The clock stands at 30 and the look-back is zero days, so the watermark
    is 30; the cursor file holds 10 from an earlier run. *)

Definition job : Settings :=
  {| running_rec_path_cfg := "run.txt";
     date_filter_days_cfg := 0;
     fields_map_cfg :=
       [("key_Serial_Number", ("0", "str"));
        ("key_Start_Date_Time", ("1", "datetime"));
        ("key_val", ("2", "float"))];
     serial_number_source_column_idx_cfg := 0;
     xy_num_points_cfg := 1;
     xy_coord_x_col_idx_cfg := 0;
     xy_coord_y_col_idx_cfg := 1;
     csv_path_cfg := "csv";
     ini_filename_base_id := "job";
     output_path_cfg := "xml" |}.

Definition no_xy : DataFrame := {| ncols := 0; rows := [] |}.

Definition start : World :=
  Toy.world (<["run.txt" := File "10"]> (<["xml" := Dir]> ∅)) (fun _ => 30).


(** One row of time 50 whose serial number has no entry. *)
Definition table_unknown : DataFrame :=
  {| ncols := 3; rows := [(0, [CStr "S1"; CTime 50; CStr "35"])] |}.

(** One row of time 20, before the watermark, and one that does not
    parse. *)
Definition table_old : DataFrame :=
  {| ncols := 3;
     rows := [(0, [CStr "S2"; CTime 20; CStr "35"]);
              (1, [CStr "S2"; CStr "n/a"; CStr "36"])] |}.

(** The rows of scenario 1: [A] after the watermark, [B] before it. *)
Definition table_two : DataFrame :=
  {| ncols := 3;
     rows := [(0, [CStr "A"; CTime 50; CStr "35"]);
              (1, [CStr "B"; CTime 20; CStr "11"])] |}.

Lemma date_filter_example :
  exists latest w',
    _apply_date_filter table_two (fields_map_cfg job) "run.txt" 0 start
    = (Done ({| ncols := 3;
                rows := [(0, [CStr "A"; CTime 50; CStr "35"])] |}, latest),
       w').
Proof.
  exact (proj1 (proj2 (proj2 (date_filter_keeps_since_watermark 1 table_two)))
           (fields_map_cfg job) "run.txt" 0 start "1" "datetime"
           eq_refl eq_refl eq_refl eq_refl eq_refl).
Defined.






(** The run on [table_unknown]: the lookup drops the only row, nothing
    reaches the sink, and 50 is left in the cursor file. *)
Lemma dropped_rows_example :
  exists w',
    process_single_excel_file job (Some table_unknown) no_xy start
    = (Done tt, w') /\
    files w' !! "run.txt" = Some (File "50").
Proof.
  exact (proj1 (proj2 (proj2 (proj2
           (cursor_follows_latest_date_seen job table_unknown no_xy 1 50 start
              eq_refl eq_refl eq_refl eq_refl))))
           eq_refl (or_introl eq_refl) eq_refl).
Defined.

(** C3 as the specification words it does not hold: on [table_old] the
    date filter leaves no row, the latest date seen is 20, and the cursor
    file still holds 10. *)
Lemma cursor_not_advanced_when_all_filtered :
  ~ Claims.advances_when_all_rows_are_filtered job 1 table_old no_xy start.
Proof.
  intros Hclaim. specialize (Hclaim 20 eq_refl eq_refl).
  vm_compute in Hclaim. discriminate.
Qed.

End PipelineFacts.

(** ** The resampler *)

Module ResamplerFacts.
Import Resampler.

Lemma name_eqb_refl a : name_eqb a a = true.
Proof. destruct a; simpl; [apply String.eqb_refl|reflexivity]. Qed.

Lemma name_eqb_eq a b : name_eqb a b = true <-> a = b.
Proof.
  destruct a, b; simpl; try (split; [discriminate|discriminate]);
    try (split; reflexivity).
  rewrite String.eqb_eq. split; congruence.
Qed.

Lemma key_eqb_spec width a b :
  key_eqb width a b = true <->
  name a = name b /\ floor_to width (time a) = floor_to width (time b).
Proof.
  unfold key_eqb. rewrite andb_true_iff, name_eqb_eq, Z.eqb_eq. tauto.
Qed.

Lemma key_eqb_refl width a : key_eqb width a a = true.
Proof. apply key_eqb_spec. auto. Qed.

Lemma key_eqb_sym width a b : key_eqb width a b = key_eqb width b a.
Proof.
  destruct (key_eqb width a b) eqn:Hab, (key_eqb width b a) eqn:Hba;
    try reflexivity.
  - apply key_eqb_spec in Hab as [? ?].
    assert (key_eqb width b a = true) by (apply key_eqb_spec; auto).
    congruence.
  - apply key_eqb_spec in Hba as [? ?].
    assert (key_eqb width a b = true) by (apply key_eqb_spec; auto).
    congruence.
Qed.

Lemma key_eqb_trans width a b c :
  key_eqb width a b = true -> key_eqb width b c = true ->
  key_eqb width a c = true.
Proof.
  rewrite !key_eqb_spec. intros [? ?] [? ?]. split; congruence.
Qed.

(** The bucket of a time is the largest multiple of the interval that is
    not after it. *)
Lemma floor_to_floor width t :
  0 < width ->
  floor_to width t = width * (t / width) /\
  floor_to width t <= t < floor_to width t + width.
Proof.
  intros Hw. unfold floor_to.
  pose proof (Z.div_mod t width ltac:(lia)).
  pose proof (Z.mod_pos_bound t width Hw). lia.
Qed.

(** Sorting keeps the rows. *)
Lemma insert_sorted_in r l x :
  In x (insert_sorted r l) <-> x = r \/ In x l.
Proof.
  induction l as [|y l IH]; simpl; [intuition congruence|].
  destruct (row_leb r y); simpl; [intuition congruence|].
  rewrite IH. intuition congruence.
Qed.

Lemma sort_values_in l x : In x (sort_values l) <-> In x l.
Proof.
  unfold sort_values. induction l as [|y l IH]; simpl; [tauto|].
  rewrite insert_sorted_in, IH. intuition congruence.
Qed.

(** Floats that are no [NaN] are totally ordered. *)
Lemma float_leb_total a b :
  is_nan a = false -> is_nan b = false ->
  float_leb a b = false -> float_leb b a = true.
Proof.
  destruct a as [|[]|x], b as [|[]|y]; simpl; try discriminate; auto.
  intros _ _ Hxy.
  destruct (Qlt_le_dec y x) as [Hlt | Hle].
  - apply Qle_bool_iff, Qlt_le_weak. exact Hlt.
  - apply Qle_bool_iff in Hle. congruence.
Qed.

Lemma float_leb_trans a b c :
  float_leb a b = true -> float_leb b c = true -> float_leb a c = true.
Proof.
  destruct a as [|[]|x], b as [|[]|y], c as [|[]|z]; simpl;
    try discriminate; auto.
  rewrite !Qle_bool_iff. apply Qle_trans.
Qed.

Section Value.
Variable has_ch1 : bool.

Lemma value_leb_total a b :
  has_value has_ch1 a = true -> has_value has_ch1 b = true ->
  value_leb has_ch1 a b = false -> value_leb has_ch1 b a = true.
Proof.
  unfold has_value, value_leb. destruct has_ch1.
  - intros Ha Hb. apply float_leb_total; apply negb_true_iff; assumption.
  - intros _ _ Hab. apply Z.leb_gt in Hab. apply Z.leb_le. lia.
Qed.

Lemma value_leb_trans a b c :
  value_leb has_ch1 a b = true -> value_leb has_ch1 b c = true ->
  value_leb has_ch1 a c = true.
Proof.
  unfold value_leb. destruct has_ch1; [apply float_leb_trans|].
  rewrite !Z.leb_le. lia.
Qed.

Lemma value_leb_refl a :
  has_value has_ch1 a = true -> value_leb has_ch1 a a = true.
Proof.
  intros Ha. destruct (value_leb has_ch1 a a) eqn:Hv; [reflexivity|].
  pose proof (value_leb_total a a Ha Ha Hv). congruence.
Qed.

Definition idxmax_step (best : option SRow) (r : SRow) : option SRow :=
  if has_value has_ch1 r then
    match best with
    | None => Some r
    | Some b => if value_leb has_ch1 r b then Some b else Some r
    end
  else best.

Lemma idxmax_fold group : forall best,
  (forall b, best = Some b -> has_value has_ch1 b = true) ->
  match fold_left idxmax_step group best with
  | None => best = None /\ forall r, In r group -> has_value has_ch1 r = false
  | Some m =>
      (best = Some m \/ In m group) /\ has_value has_ch1 m = true /\
      (forall b, best = Some b -> value_leb has_ch1 b m = true) /\
      forall r, In r group -> has_value has_ch1 r = true ->
                value_leb has_ch1 r m = true
  end.
Proof.
  induction group as [|x group IH]; intros best Hbest; simpl.
  - destruct best as [b|].
    + split; [auto|]. split; [auto|]. split; [|tauto].
      intros b' [= <-]. apply value_leb_refl. auto.
    + split; [reflexivity|tauto].
  - assert (Hstep : forall b, idxmax_step best x = Some b ->
                              has_value has_ch1 b = true).
    { unfold idxmax_step. intros b.
      destruct (has_value has_ch1 x) eqn:Hx; [|auto].
      destruct best as [b0|]; [|intros [= <-]; exact Hx].
      destruct (value_leb has_ch1 x b0); intros [= <-]; auto. }
    specialize (IH (idxmax_step best x) Hstep).
    destruct (fold_left idxmax_step group (idxmax_step best x)) as [m|].
    + destruct IH as (Hm & Hvm & Hb & Hall).
      unfold idxmax_step in Hm, Hb.
      destruct (has_value has_ch1 x) eqn:Hx.
      * destruct best as [b0|].
        -- destruct (value_leb has_ch1 x b0) eqn:Hxb.
           ++ specialize (Hb _ eq_refl).
              split; [destruct Hm; auto|]. split; [exact Hvm|]. split.
              ** intros b' [= <-]. exact Hb.
              ** intros r [<- | Hin] Hr; [|auto].
                 eapply value_leb_trans; eauto.
           ++ specialize (Hb _ eq_refl).
              split; [destruct Hm as [[= <-] | Hm]; auto|].
              split; [exact Hvm|]. split.
              ** intros b' [= <-].
                 eapply value_leb_trans; [|exact Hb].
                 apply value_leb_total; auto.
              ** intros r [<- | Hin] Hr; auto.
        -- specialize (Hb _ eq_refl).
           split; [destruct Hm as [[= <-] | Hm]; auto|].
           split; [exact Hvm|]. split; [discriminate|].
           intros r [<- | Hin] Hr; auto.
      * split; [destruct Hm; auto|]. split; [exact Hvm|].
        split; [exact Hb|]. intros r [<- | Hin] Hr; [congruence|auto].
    + destruct IH as [Hnone Hall]. unfold idxmax_step in Hnone.
      destruct (has_value has_ch1 x) eqn:Hx.
      * destruct best as [b0|]; [destruct (value_leb _ _ _)|]; discriminate.
      * split; [exact Hnone|]. intros r [<- | Hin]; auto.
Qed.

(** [idxmax] gives a row of the group that has a value, and no row of the
    group has a larger one. *)
Lemma idxmax_spec group m :
  idxmax has_ch1 group = Some m ->
  In m group /\ has_value has_ch1 m = true /\
  forall r, In r group -> has_value has_ch1 r = true ->
            value_leb has_ch1 r m = true.
Proof.
  intros Hm. pose proof (idxmax_fold group None) as Hf.
  change (fold_left idxmax_step group None) with (idxmax has_ch1 group) in Hf.
  rewrite Hm in Hf.
  destruct Hf as ([Hx | Hin] & Hv & _ & Hall); [discriminate|discriminate|].
  auto.
Qed.

Lemma idxmax_some group :
  (exists r, In r group /\ has_value has_ch1 r = true) ->
  exists m, idxmax has_ch1 group = Some m.
Proof.
  intros (r & Hin & Hr). pose proof (idxmax_fold group None) as Hf.
  change (fold_left idxmax_step group None) with (idxmax has_ch1 group) in Hf.
  destruct (idxmax has_ch1 group) as [m|]; [eauto|].
  destruct Hf as [_ Hall]; [discriminate|].
  rewrite (Hall r Hin) in Hr. discriminate.
Qed.

End Value.

(** The first rows of the groups: rows with a name, of the frame, no two
    with the same key. *)
Lemma firsts_spec width l : forall earlier,
  Forall (fun f => In f l /\ name f <> None /\
                   existsb (key_eqb width f) earlier = false)
         (firsts width earlier l) /\
  ForallOrdPairs (fun a b => key_eqb width b a = false)
                 (firsts width earlier l).
Proof.
  induction l as [|r l IH]; intros earlier; simpl.
  - split; constructor.
  - destruct (IH (r :: earlier)) as [Hall Hpairs].
    assert (Hrest : Forall (fun f => In f (r :: l) /\ name f <> None /\
                              existsb (key_eqb width f) earlier = false)
                           (firsts width (r :: earlier) l)).
    { eapply List.Forall_impl; [|exact Hall]. simpl.
      intros f (Hin & Hname & Hex). apply orb_false_elim in Hex as [_ Hex].
      auto. }
    destruct (name r) eqn:Hname; [|auto].
    destruct (existsb (key_eqb width r) earlier) eqn:Hex; [auto|].
    split.
    + constructor; [|exact Hrest]. split; [left; reflexivity|].
      split; [congruence|exact Hex].
    + constructor; [|exact Hpairs].
      eapply List.Forall_impl; [|exact Hall]. simpl.
      intros f (_ & _ & Hf). apply orb_false_elim in Hf as [Hf _]. exact Hf.
Qed.

(** Every row with a name has the key of some first row. *)
Lemma firsts_cover width l : forall earlier r,
  In r l -> name r <> None ->
  existsb (key_eqb width r) earlier = true \/
  exists f, In f (firsts width earlier l) /\ key_eqb width f r = true.
Proof.
  induction l as [|x l IH]; intros earlier r Hin Hname; [destruct Hin|].
  simpl. destruct Hin as [<- | Hin].
  - destruct (name x) eqn:Hx; [|congruence].
    destruct (existsb (key_eqb width x) earlier) eqn:Hex; [auto|].
    right. exists x. split; [left; reflexivity|apply key_eqb_refl].
  - destruct (IH (x :: earlier) r Hin Hname) as [Hex | (f & Hf & Hkey)].
    + simpl in Hex. apply orb_prop in Hex as [Hrx | Hex]; [|auto].
      destruct (name x) eqn:Hx.
      * destruct (existsb (key_eqb width x) earlier) eqn:Hex.
        -- left. apply existsb_exists in Hex as (e & He & Hxe).
           apply existsb_exists. exists e. split; [exact He|].
           eapply key_eqb_trans; eauto.
        -- right. exists x. split; [left; reflexivity|].
           rewrite key_eqb_sym. exact Hrx.
      * apply key_eqb_spec in Hrx as [Hn _]. congruence.
    + right. exists f. split; [|exact Hkey].
      destruct (name x); [|exact Hf].
      destruct (existsb (key_eqb width x) earlier); [exact Hf|].
      right. exact Hf.
Qed.

Lemma select_rows_spec chosen : forall out,
  select_rows chosen = Done out -> chosen = map Some out.
Proof.
  induction chosen as [|[r|] chosen IH]; intros out; simpl.
  - intros [= <-]. reflexivity.
  - destruct (select_rows chosen) as [rs|e]; simpl; [|discriminate].
    intros [= <-]. simpl. f_equal. apply IH. reflexivity.
  - discriminate.
Qed.

Lemma select_rows_some chosen :
  Forall (fun o => exists r : SRow, o = Some r) chosen ->
  exists out, select_rows chosen = Done out.
Proof.
  induction 1 as [|o chosen [r ->] _ [out IH]]; simpl; [eauto|].
  rewrite IH. simpl. eauto.
Qed.

Section Resample.
Context `{PyLib}.

(** The row of the frame for a row of the sheet whose time parsed. *)
Definition prepared (p : PRow) (t : Z) : SRow :=
  {| name := PtName p; time := t;
     ch1 := to_numeric_coerce (Ch1KeisokuData p); source := p |}.

Lemma in_prepare df r :
  In r (prepare df) <->
  exists p t, In p df /\ to_datetime_coerce (Start_Date_Time p) = Some t /\
              r = prepared p t.
Proof.
  unfold prepare. rewrite <- list_elem_of_In, list_elem_of_omap. split.
  - intros (p & Hin & Hr). apply list_elem_of_In in Hin.
    destruct (to_datetime_coerce (Start_Date_Time p)) as [t|] eqn:Ht;
      [|discriminate].
    injection Hr as <-. exists p, t. auto.
  - intros (p & t & Hin & Ht & ->). exists p.
    split; [apply list_elem_of_In; exact Hin|]. rewrite Ht. reflexivity.
Qed.

(** The chosen rows, group by group. *)
Lemma chosen_rows has_ch1 width fs sorted : forall out,
  map (idxmax has_ch1)
      (map (fun r => List.filter (key_eqb width r) sorted) fs)
  = map Some out ->
  Forall2 (fun f r =>
             key_eqb width f r = true /\ In r sorted /\
             has_value has_ch1 r = true /\
             forall r', In r' sorted -> key_eqb width f r' = true ->
                        has_value has_ch1 r' = true ->
                        value_leb has_ch1 r' r = true) fs out.
Proof.
  induction fs as [|f fs IH]; intros [|r out]; simpl; try discriminate.
  - constructor.
  - intros [= Hr Hrest]. constructor; [|apply IH; exact Hrest].
    apply idxmax_spec in Hr as (Hin & Hv & Hall).
    apply filter_In in Hin as [Hin Hkey].
    split; [exact Hkey|]. split; [exact Hin|]. split; [exact Hv|].
    intros r' Hin' Hkey' Hv'. apply Hall; [|exact Hv'].
    apply filter_In. auto.
Qed.

(** C4.  For a positive interval, when the resampler returns a frame: the
    bucket of a time is its floor to the interval; no two rows of the
    output have the same group key and bucket; and every row of the output
    comes from a row of the input whose time parsed, has a tie-break value
    ([Ch1KeisokuData], or the time when the frame has no such column), and
    that value is not below the value of any input row with the same group
    key and bucket that has one. *)
Theorem resample_keeps_maximum_per_bucket (has_ch1 : bool)
  (interval_minutes : Z) (df : list PRow) (out : list SRow) :
  0 < interval_minutes ->
  resample has_ch1 interval_minutes df = Done out ->
  let width := bin_width interval_minutes in
  (forall t, floor_to width t = width * (t / width)) /\
  ForallOrdPairs (fun a b => key_eqb width a b = false) out /\
  forall r, In r out ->
    (exists p, In p df /\
               to_datetime_coerce (Start_Date_Time p) = Some (time r) /\
               r = prepared p (time r)) /\
    has_value has_ch1 r = true /\
    forall p t,
      In p df -> to_datetime_coerce (Start_Date_Time p) = Some t ->
      PtName p = name r ->
      floor_to width t = floor_to width (time r) ->
      has_value has_ch1 (prepared p t) = true ->
      value_leb has_ch1 (prepared p t) r = true.
Proof.
  intros Hpos Hres width. unfold resample in Hres. fold width in Hres.
  assert (0 < width) as Hw by (unfold width, bin_width; lia).
  assert ((width =? 0) = false) as Hnz by (apply Z.eqb_neq; lia).
  rewrite Hnz in Hres. apply select_rows_spec in Hres.
  unfold groups in Hres.
  set (sorted := sort_values (prepare df)) in *.
  pose proof (chosen_rows has_ch1 width _ sorted out Hres) as Hchosen.
  destruct (firsts_spec width sorted []) as [_ Hpairs].
  split; [intros t; apply (floor_to_floor width t Hw)|]. split.
  - clear Hres. revert Hpairs.
    induction Hchosen as [|f r fs out' (Hkey & _) Hrest IH];
      intros Hpairs; [constructor|].
    inversion Hpairs as [|? ? Hf Hfs]; subst. constructor; [|auto].
    clear IH Hpairs Hfs. induction Hrest as [|f' r' fs' out'' (Hkey' & _) _ IH];
      [constructor|].
    inversion Hf as [|? ? Hff Hf']; subst. constructor; [|auto].
    destruct (key_eqb width r r') eqn:Hrr; [|reflexivity].
    assert (key_eqb width f' f = true); [|congruence].
    eapply key_eqb_trans; [exact Hkey'|].
    rewrite key_eqb_sym. eapply key_eqb_trans; [exact Hkey|exact Hrr].
  - intros r Hin. clear Hres Hpairs.
    induction Hchosen as [|f r0 fs out' (Hkey & Hsorted & Hv & Hall) _ IH];
      [destruct Hin|].
    destruct Hin as [<- | Hin]; [|auto].
    apply (proj1 (sort_values_in (prepare df) r0)) in Hsorted.
    apply in_prepare in Hsorted as H0.
    destruct H0 as (p0 & t0 & Hp0 & Ht0 & Hr0).
    split; [|split; [exact Hv|]].
    + exists p0. rewrite Hr0. simpl. rewrite <- Hr0. auto.
    + intros p t Hp Ht Hname Hbin Hvp. apply Hall; [| |exact Hvp].
      * apply sort_values_in, in_prepare. eauto.
      * eapply key_eqb_trans; [exact Hkey|]. apply key_eqb_spec. simpl. auto.
Qed.

(** The resampler returns a frame when the interval is positive and every
    row that has a name and a time has a tie-break value, as is the case
    when the frame has no column [Ch1KeisokuData]. *)
Lemma resample_returns (has_ch1 : bool) (interval_minutes : Z)
  (df : list PRow) :
  0 < interval_minutes ->
  (forall r, In r (prepare df) -> has_value has_ch1 r = true) ->
  exists out, resample has_ch1 interval_minutes df = Done out.
Proof.
  intros Hpos Hvalues. unfold resample.
  assert ((bin_width interval_minutes =? 0) = false) as ->
    by (apply Z.eqb_neq; unfold bin_width; lia).
  apply select_rows_some. unfold groups. rewrite map_map.
  apply Forall_forall. intros o Ho. apply list_elem_of_In in Ho.
  apply in_map_iff in Ho as (f & <- & Hf).
  destruct (firsts_spec (bin_width interval_minutes)
              (sort_values (prepare df)) []) as [Hall _].
  rewrite List.Forall_forall in Hall. destruct (Hall f Hf) as (Hin & _).
  apply idxmax_some. exists f. split.
  - apply filter_In. split; [exact Hin|apply key_eqb_refl].
  - apply Hvalues, sort_values_in, Hin.
Qed.

End Resample.

(** Scenario 3: two rows of point [X1] in the same two-hour bucket, with
    values 5 and 9; times are in nanoseconds, 10:05 and 10:40 of a day. *)
Definition minute : Z := 60 * 1000000000.

Definition two_rows : list PRow :=
  [ {| PtName := Some "X1"; Start_Date_Time := CTime (605 * minute);
       Ch1KeisokuData := CStr "5"; other_columns := [] |};
    {| PtName := Some "X1"; Start_Date_Time := CTime (640 * minute);
       Ch1KeisokuData := CStr "9"; other_columns := [] |} ].

Lemma resample_example :
  exists r,
    resample true 120 two_rows = Done [r] /\
    ch1 r = FFin (inject_Z 9) /\ time r = 640 * minute.
Proof.
  eexists. split; [vm_compute; reflexivity|]. split; reflexivity.
Qed.

Definition row_of_5 : PRow :=
  {| PtName := Some "X1"; Start_Date_Time := CTime (605 * minute);
     Ch1KeisokuData := CStr "5"; other_columns := [] |}.

Definition row_of_9 : PRow :=
  {| PtName := Some "X1"; Start_Date_Time := CTime (640 * minute);
     Ch1KeisokuData := CStr "9"; other_columns := [] |}.

(** The theorem at scenario 3: the row kept has the largest value. *)
Lemma resample_maximum_example :
  resample true 120 two_rows = Done [prepared row_of_9 (640 * minute)] /\
  value_leb true (prepared row_of_5 (605 * minute))
                 (prepared row_of_9 (640 * minute)) = true.
Proof.
  split; [reflexivity|].
  exact (proj2 (proj2 (proj2 (proj2
           (resample_keeps_maximum_per_bucket true 120 two_rows
              [prepared row_of_9 (640 * minute)] eq_refl eq_refl))
           (prepared row_of_9 (640 * minute)) (or_introl eq_refl)))
           row_of_5 (605 * minute) (or_introl eq_refl) eq_refl eq_refl
           eq_refl eq_refl).
Defined.

End ResamplerFacts.

(** * Further properties of the scripts *)

(** ** Pieces of strings *)

Module PyTextFacts.
Import PyStr PyText.

Lemma app_cons c s t : String c s +:+ t = String c (s +:+ t).
Proof. reflexivity. Qed.

Lemma app_nil s : "" +:+ s = s.
Proof. reflexivity. Qed.

Lemma app_empty_r s : s +:+ "" = s.
Proof.
  induction s as [|c s IH]; [reflexivity|]. rewrite app_cons, IH. reflexivity.
Qed.

Lemma app_assoc_str a b c : (a +:+ b) +:+ c = a +:+ (b +:+ c).
Proof.
  induction a as [|x a IH]; [reflexivity|]. rewrite !app_cons, IH.
  reflexivity.
Qed.

Lemma rev_append_app s : forall acc, rev_append s acc = rev s +:+ acc.
Proof.
  unfold rev. induction s as [|c s IH]; intros acc; simpl; [reflexivity|].
  rewrite (IH (String c acc)), (IH (String c "")), app_assoc_str.
  reflexivity.
Qed.

Lemma rev_cons c s : rev (String c s) = rev s +:+ String c "".
Proof. unfold rev at 1. simpl. apply rev_append_app. Qed.

Lemma rev_app a : forall b, rev (a +:+ b) = rev b +:+ rev a.
Proof.
  induction a as [|c a IH]; intros b.
  - rewrite app_nil. change (rev "") with "". rewrite app_empty_r.
    reflexivity.
  - rewrite app_cons, !rev_cons, IH, app_assoc_str. reflexivity.
Qed.

Lemma rev_involutive s : rev (rev s) = s.
Proof.
  induction s as [|c s IH]; [reflexivity|].
  rewrite rev_cons, rev_app, IH. reflexivity.
Qed.

Lemma contains_app c a : forall b,
  contains c (a +:+ b) = contains c a || contains c b.
Proof.
  induction a as [|x a IH]; intros b; [reflexivity|].
  rewrite app_cons. simpl. rewrite IH, orb_assoc. reflexivity.
Qed.

Lemma contains_rev c s : contains c (rev s) = contains c s.
Proof.
  induction s as [|x s IH]; [reflexivity|].
  rewrite rev_cons, contains_app, IH. simpl.
  rewrite orb_false_r. apply orb_comm.
Qed.

(** What is stripped on the left is a prefix, and the first character that
    stays is not one to strip. *)
Lemma lstrip_chars_head p s c t :
  lstrip_chars p s = String c t -> p c = false.
Proof.
  induction s as [|x s IH]; simpl; [discriminate|].
  destruct (p x) eqn:Hx; [exact IH|]. intros [= <- _]. exact Hx.
Qed.

Lemma contains_lstrip_chars p c s :
  contains c (lstrip_chars p s) = true -> contains c s = true.
Proof.
  induction s as [|x s IH]; simpl; [discriminate|].
  destruct (p x); [|auto]. intros Hc. rewrite (IH Hc). apply orb_true_r.
Qed.

Lemma contains_strip_chars p c s :
  contains c (strip_chars p s) = true -> contains c s = true.
Proof.
  unfold strip_chars, rstrip_chars. rewrite contains_rev. intros Hc.
  apply contains_lstrip_chars in Hc. rewrite contains_rev in Hc.
  apply (contains_lstrip_chars _ _ _ Hc).
Qed.

Lemma lstrip_chars_snoc p c u :
  p c = false ->
  exists u', lstrip_chars p (u +:+ String c "") = u' +:+ String c "".
Proof.
  intros Hc. induction u as [|x u IH].
  - rewrite app_nil. simpl. rewrite Hc. exists "". reflexivity.
  - rewrite app_cons. simpl.
    destruct (p x); [exact IH|]. exists (String x u). reflexivity.
Qed.

(** A first character that is not one to strip stays first. *)
Lemma rstrip_chars_head p c t :
  p c = false -> exists t', rstrip_chars p (String c t) = String c t'.
Proof.
  intros Hc. unfold rstrip_chars. rewrite rev_cons.
  destruct (lstrip_chars_snoc p c (rev t) Hc) as (u' & ->).
  exists (rev u'). rewrite rev_app. reflexivity.
Qed.

Lemma lstrip_all p s :
  all_chars p s = true <-> lstrip_chars p s = "".
Proof.
  induction s as [|x s IH]; simpl; [tauto|].
  destruct (p x); simpl; [exact IH|]. split; discriminate.
Qed.

(** Stripping leaves nothing exactly of a string of characters to strip. *)
Lemma strip_chars_all p s :
  all_chars p s = true <-> strip_chars p s = "".
Proof.
  unfold strip_chars. split.
  - intros Hall. apply lstrip_all in Hall. rewrite Hall. reflexivity.
  - intros Hs. apply lstrip_all.
    destruct (lstrip_chars p s) as [|c t] eqn:Hl; [reflexivity|].
    destruct (rstrip_chars_head p c t (lstrip_chars_head _ _ _ _ Hl))
      as (t' & Ht). rewrite Ht in Hs. discriminate.
Qed.

Lemma lstrip_lstrip_chars s : lstrip s = lstrip_chars isspace s.
Proof.
  induction s as [|x s IH]; simpl; [reflexivity|]. rewrite IH. reflexivity.
Qed.

Lemma strip_strip_chars s : strip s = strip_chars isspace s.
Proof.
  unfold strip, rstrip, strip_chars, rstrip_chars.
  rewrite !lstrip_lstrip_chars. reflexivity.
Qed.

(** [s.strip()] is empty exactly for a string of white space. *)
Lemma strip_blank s : strip s = "" <-> all_chars isspace s = true.
Proof. rewrite strip_strip_chars. symmetry. apply strip_chars_all. Qed.

Lemma contains_strip c s : contains c (strip s) = true -> contains c s = true.
Proof. rewrite strip_strip_chars. apply contains_strip_chars. Qed.

(** What [s.strip()] returns does not start with white space. *)
Lemma strip_head s c t : strip s = String c t -> isspace c = false.
Proof.
  rewrite strip_strip_chars. unfold strip_chars.
  destruct (lstrip_chars isspace s) as [|x u] eqn:Hl; [discriminate|].
  pose proof (lstrip_chars_head _ _ _ _ Hl) as Hx.
  destruct (rstrip_chars_head isspace x u Hx) as (t' & ->).
  intros [= <- _]. exact Hx.
Qed.

Lemma strip_prefix_spec p : forall s r,
  strip_prefix p s = Some r <-> s = p +:+ r.
Proof.
  induction p as [|a p IH]; intros s r; simpl.
  - split; [intros [= ->]; reflexivity|intros ->; reflexivity].
  - destruct s as [|b s]; [split; discriminate|].
    destruct (Ascii.eqb_spec a b) as [->|Hne].
    + rewrite IH. split; [intros ->; reflexivity|].
      rewrite app_cons. intros [= ->]. reflexivity.
    + split; [discriminate|]. rewrite app_cons. intros [= Hab _]. congruence.
Qed.

(** [s.startswith(p)]: [s] is [p] followed by something. *)
Lemma startswith_spec p s :
  startswith p s = true <-> exists r, s = p +:+ r.
Proof.
  unfold startswith. destruct (strip_prefix p s) as [r|] eqn:Hp.
  - apply strip_prefix_spec in Hp. split; eauto.
  - split; [discriminate|]. intros (r & Hr).
    apply strip_prefix_spec in Hr. congruence.
Qed.

(** [p in s]: [s] is something, then [p], then something. *)
Lemma is_infix_spec p s :
  is_infix p s = true <-> exists a r, s = a +:+ (p +:+ r).
Proof.
  induction s as [|c s IH]; simpl.
  - rewrite startswith_spec. split.
    + intros (r & Hr). exists "", r. exact Hr.
    + intros ([|x a] & r & Hr); [eauto|].
      rewrite app_cons in Hr. discriminate.
  - rewrite orb_true_iff, startswith_spec, IH. split.
    + intros [(r & Hr) | (a & r & Hr)].
      * exists "", r. exact Hr.
      * exists (String c a), r. rewrite app_cons, Hr. reflexivity.
    + intros ([|x a] & r & Hr).
      * left. eauto.
      * right. rewrite app_cons in Hr. injection Hr as _ Hr. eauto.
Qed.

Lemma split_not_nil sep s : split sep s <> [].
Proof.
  destruct s as [|c s]; simpl; [discriminate|].
  destruct (Ascii.eqb c sep); [discriminate|].
  destruct (split sep s); discriminate.
Qed.

(** No piece of [s.split(sep)] holds the separator. *)
Lemma split_no_sep sep s :
  Forall (fun piece => contains sep piece = false) (split sep s).
Proof.
  induction s as [|c s IH]; simpl.
  - constructor; [reflexivity|constructor].
  - destruct (Ascii.eqb c sep) eqn:Hc.
    + constructor; [reflexivity|exact IH].
    + destruct (split sep s) as [|piece pieces]; simpl.
      * constructor; [simpl; rewrite Hc; reflexivity|constructor].
      * inversion IH as [|? ? Hp Hps]; subst.
        constructor; [simpl; rewrite Hc; exact Hp|exact Hps].
Qed.

(** Joining the pieces with the separator gives the string back. *)
Lemma split_concat sep s :
  String.concat (String sep "") (split sep s) = s.
Proof.
  induction s as [|c s IH]; simpl; [reflexivity|].
  pose proof (split_not_nil sep s) as Hne.
  destruct (Ascii.eqb_spec c sep) as [->|Hc].
  - destruct (split sep s) as [|piece pieces]; [contradiction|].
    rewrite <- IH. reflexivity.
  - destruct (split sep s) as [|piece pieces]; [contradiction|].
    rewrite <- IH. destruct pieces; reflexivity.
Qed.

Lemma take_token_no_space s : all_chars (fun c => negb (isspace c)) (take_token s) = true.
Proof.
  induction s as [|c s IH]; simpl; [reflexivity|].
  destruct (isspace c) eqn:Hc; simpl; [reflexivity|].
  rewrite Hc, IH. reflexivity.
Qed.

Lemma contains_take_token c s :
  contains c (take_token s) = true -> contains c s = true.
Proof.
  induction s as [|x s IH]; simpl; [discriminate|].
  destruct (isspace x); simpl; [discriminate|].
  destruct (Ascii.eqb x c); simpl; auto.
Qed.

Lemma sub_class_length cls repl s :
  String.length (sub_class cls repl s) = String.length s.
Proof. induction s as [|c s IH]; simpl; [reflexivity|]. rewrite IH. reflexivity. Qed.

Lemma sub_class_clean cls repl s :
  cls repl = false ->
  all_chars (fun c => negb (cls c)) (sub_class cls repl s) = true.
Proof.
  intros Hr. induction s as [|c s IH]; simpl; [reflexivity|].
  rewrite IH, andb_true_r. destruct (cls c) eqn:Hc; [rewrite Hr|rewrite Hc];
    reflexivity.
Qed.

End PyTextFacts.

(** ** Reading the configuration *)

Module ConfigFacts.
Import PyStr PyText Config PyTextFacts.

Section Dict.
Context {L K V : Type} (eqb : K -> K -> bool) (f : L -> option (K * V)).
Hypothesis eqb_eq : forall a b, eqb a b = true <-> a = b.

(** One line of a configuration, for a reader that keeps the entry [f]
    finds in it. *)
Definition dict_step (d : list (K * V)) (l : L) : list (K * V) :=
  match f l with
  | Some (k, v) => dict_set eqb k v d
  | None => d
  end.

Definition entries_of (lines : list L) : list (K * V) :=
  fold_left dict_step lines [].

Lemma dict_get_set (k k' : K) (v : V) (d : list (K * V)) :
  dict_get eqb k (dict_set eqb k' v d)
  = if eqb k' k then Some v else dict_get eqb k d.
Proof.
  induction d as [|[k0 v0] d IH]; simpl; [reflexivity|].
  destruct (eqb k0 k') eqn:E0; simpl.
  - apply eqb_eq in E0. subst k0. destruct (eqb k' k); reflexivity.
  - rewrite IH. destruct (eqb k0 k) eqn:E1, (eqb k' k) eqn:E2; try reflexivity.
    apply eqb_eq in E1, E2. subst.
    assert (eqb k k = true) by (apply eqb_eq; reflexivity). congruence.
Qed.

Lemma dict_set_keys (k : K) (v : V) (d : list (K * V)) (x : K) :
  In x (map fst (dict_set eqb k v d)) -> x = k \/ In x (map fst d).
Proof.
  induction d as [|[k0 v0] d IH]; simpl.
  - intros [<- | []]. auto.
  - destruct (eqb k0 k); simpl; [tauto|]. intros [<- | Hin]; [tauto|].
    destruct (IH Hin); auto.
Qed.

(** A key is in the dict once. *)
Lemma dict_set_NoDup (k : K) (v : V) (d : list (K * V)) :
  List.NoDup (map fst d) -> List.NoDup (map fst (dict_set eqb k v d)).
Proof.
  induction d as [|[k0 v0] d IH]; simpl; intros Hnd.
  - constructor; [tauto|constructor].
  - inversion Hnd as [|? ? Hk0 Hd]; subst.
    destruct (eqb k0 k) eqn:E0; simpl; [constructor; assumption|].
    constructor; [|auto]. intros Hin.
    destruct (dict_set_keys _ _ _ _ Hin) as [-> | Hin']; [|contradiction].
    assert (eqb k k = true) by (apply eqb_eq; reflexivity). congruence.
Qed.

Lemma entries_of_NoDup lines : List.NoDup (map fst (entries_of lines)).
Proof.
  unfold entries_of.
  assert (forall d, List.NoDup (map fst d) ->
                    List.NoDup (map fst (fold_left dict_step lines d))) as Hgen.
  { induction lines as [|l lines IH]; intros d Hd; simpl; [exact Hd|].
    apply IH. unfold dict_step. destruct (f l) as [[k v]|]; [|exact Hd].
    apply dict_set_NoDup. exact Hd. }
  apply Hgen. constructor.
Qed.

Lemma entries_of_snoc lines l :
  entries_of (lines ++ [l]) = dict_step (entries_of lines) l.
Proof. unfold entries_of. rewrite fold_left_app. reflexivity. Qed.

(** The value of a key is the one of the last line that has an entry
    for it. *)
Lemma entries_of_get lines : forall k v,
  dict_get eqb k (entries_of lines) = Some v <->
  exists (i : nat) l,
    lines !! i = Some l /\ f l = Some (k, v) /\
    forall (j : nat) l' v',
      (i < j)%nat -> lines !! j = Some l' -> f l' <> Some (k, v').
Proof.
  induction lines as [|x lines IH] using rev_ind; intros k v.
  - simpl. split; [discriminate|]. intros (i & l & Hi & _).
    destruct i; discriminate.
  - rewrite entries_of_snoc. unfold dict_step.
    assert (Hold : forall k0 v0,
              (f x = None \/ exists k' v', f x = Some (k', v') /\ k' <> k0) ->
              (dict_get eqb k0 (entries_of lines) = Some v0 <->
               exists (i : nat) l,
                 (lines ++ [x]) !! i = Some l /\ f l = Some (k0, v0) /\
                 forall (j : nat) l' v',
                   (i < j)%nat -> (lines ++ [x]) !! j = Some l' ->
                   f l' <> Some (k0, v'))).
    { intros k0 v0 Hx. rewrite IH. split.
      - intros (i & l & Hi & Hl & Hlater). exists i, l.
        split; [rewrite lookup_app_l; [exact Hi|eapply lookup_lt_Some; eauto]|].
        split; [exact Hl|]. intros j l' v' Hij Hj.
        apply SheetsFacts.lookup_snoc_cases in Hj as [Hj | [-> ->]]; [eauto|].
        destruct Hx as [Hx | (k' & w' & Hx & Hne)]; rewrite Hx; congruence.
      - intros (i & l & Hi & Hl & Hlater).
        apply SheetsFacts.lookup_snoc_cases in Hi as [Hi | [-> ->]].
        + exists i, l. split; [exact Hi|]. split; [exact Hl|].
          intros j l' v' Hij Hj. apply (Hlater j l' v' Hij).
          rewrite lookup_app_l; [exact Hj|eapply lookup_lt_Some; eauto].
        + destruct Hx as [Hx | (k' & w' & Hx & Hne)]; rewrite Hx in Hl;
            congruence. }
    destruct (f x) as [[k' v']|] eqn:Hx; [|apply Hold; auto].
    rewrite dict_get_set. destruct (eqb k' k) eqn:Hk.
    + apply eqb_eq in Hk. subst k'. split.
      * intros [= <-]. exists (length lines), x.
        split; [rewrite lookup_app_r, Nat.sub_diag by lia; reflexivity|].
        split; [exact Hx|]. intros j l' w' Hij Hj.
        apply lookup_lt_Some in Hj. rewrite length_app in Hj. simpl in Hj. lia.
      * intros (i & l & Hi & Hl & Hlater).
        apply SheetsFacts.lookup_snoc_cases in Hi as [Hi | [-> ->]].
        -- exfalso. pose proof (lookup_lt_Some _ _ _ Hi) as Hlt.
           apply (Hlater (length lines) x v' Hlt); [|exact Hx].
           rewrite lookup_app_r, Nat.sub_diag by lia. reflexivity.
        -- congruence.
    + apply Hold. right. exists k', v'. split; [reflexivity|].
      intros ->. assert (eqb k k = true) by (apply eqb_eq; reflexivity).
      congruence.
Qed.

End Dict.

Lemma split_max_zero sep s : split_max sep 0 s = [s].
Proof. destruct s; reflexivity. Qed.

Lemma split_max_cons sep n c s :
  split_max sep (S n) (String c s)
  = if Ascii.eqb c sep then "" :: split_max sep n s
    else match split_max sep (S n) s with
         | [] => [String c ""]
         | piece :: pieces => String c piece :: pieces
         end.
Proof. reflexivity. Qed.

(** A string with a separator after a piece that has none is cut there. *)
Lemma split_max_cut sep n a : forall rest,
  contains sep a = false ->
  split_max sep (S n) (a +:+ String sep rest) = a :: split_max sep n rest.
Proof.
  induction a as [|c a IH]; intros rest Ha.
  - rewrite app_nil, split_max_cons, Ascii.eqb_refl. reflexivity.
  - simpl in Ha. apply orb_false_elim in Ha as [Hc Ha].
    rewrite app_cons, split_max_cons, Hc, (IH rest Ha). reflexivity.
Qed.

Lemma split_max_inv sep n s : forall a b l,
  split_max sep (S n) s = a :: b :: l ->
  contains sep a = false /\
  exists rest, s = a +:+ String sep rest /\ split_max sep n rest = b :: l.
Proof.
  induction s as [|c s IH]; intros a b l; [discriminate|].
  rewrite split_max_cons. destruct (Ascii.eqb c sep) eqn:Hc.
  - intros [= <- Hrest]. split; [reflexivity|].
    apply Ascii.eqb_eq in Hc. subst c. exists s. split; [reflexivity|exact Hrest].
  - destruct (split_max sep (S n) s) as [|piece pieces] eqn:Hs; [discriminate|].
    intros [= <- ->]. destruct (IH _ _ _ eq_refl) as (Hpiece & rest & -> & Hrest).
    split; [simpl; rewrite Hc; exact Hpiece|].
    exists rest. split; [reflexivity|exact Hrest].
Qed.

(** Three fields are found in a text of the form [a:b:c] in which [a] and
    [b] hold no colon; [c] may hold some. *)
Lemma three_fields_spec s k c t :
  three_fields s = Some (k, c, t) <->
  exists a b d,
    s = a +:+ ":" +:+ b +:+ ":" +:+ d /\
    contains ":" a = false /\ contains ":" b = false /\
    k = strip a /\ c = strip b /\ t = strip d.
Proof.
  unfold three_fields. split.
  - destruct (split_max ":" 2 s) as [|a [|b [|d [|? ?]]]] eqn:Hs;
      try discriminate.
    intros [= <- <- <-].
    apply split_max_inv in Hs as (Ha & rest & -> & Hs).
    apply split_max_inv in Hs as (Hb & rest' & -> & Hs).
    rewrite split_max_zero in Hs. injection Hs as ->.
    exists a, b, d. repeat split; assumption.
  - intros (a & b & d & -> & Ha & Hb & -> & -> & ->).
    change (a +:+ ":" +:+ b +:+ ":" +:+ d)
      with (a +:+ String ":" (b +:+ String ":" d)).
    rewrite (split_max_cut _ _ _ _ Ha), (split_max_cut _ _ _ _ Hb),
      split_max_zero. reflexivity.
Qed.

Lemma startswith_before_colon x a r :
  Ascii.eqb x ":" = false ->
  startswith (String x "") (a +:+ String ":" r) = startswith (String x "") a.
Proof.
  intros Hx. unfold startswith. destruct a as [|c a].
  - rewrite app_nil. simpl. rewrite Hx. reflexivity.
  - rewrite app_cons. simpl. destruct (Ascii.eqb x c); reflexivity.
Qed.

(** Whether [_parse_fields_map_from_lines] of [CVD_Grating.py] looks at a
    line: it is not blank and no comment. *)
Definition is_setting (line : string) : bool :=
  let s := strip line in
  negb (String.eqb s "") && negb (startswith "#" s) && negb (startswith ";" s).

(** The entry that the loop makes for a line. *)
Definition field_of_line (line : string) : option (string * (string * string)) :=
  if is_setting line then
    match three_fields (strip line) with
    | Some (key, col_spec, dtype) => Some (key, (col_spec, dtype))
    | None => None
    end
  else None.

(** A line declares a field: without the white space around it, it reads
    [key:col_spec:dtype], it is no comment, and the three parts are taken
    without the white space around them. *)
Definition declares (line key col_spec dtype : string) : Prop :=
  exists a b c,
    strip line = a +:+ ":" +:+ b +:+ ":" +:+ c /\
    contains ":" a = false /\ contains ":" b = false /\
    startswith "#" a = false /\ startswith ";" a = false /\
    key = strip a /\ col_spec = strip b /\ dtype = strip c.

Lemma field_of_line_declares line key col_spec dtype :
  field_of_line line = Some (key, (col_spec, dtype)) <->
  declares line key col_spec dtype.
Proof.
  unfold field_of_line, declares, is_setting. split.
  - destruct (_ && _) eqn:Hset; [|discriminate].
    destruct (three_fields (strip line)) as [[[k c] t]|] eqn:H3;
      [|discriminate].
    intros [= <- <- <-].
    apply three_fields_spec in H3 as (a & b & d & Hs & Ha & Hb & -> & -> & ->).
    exists a, b, d. rewrite Hs in Hset.
    change (a +:+ ":" +:+ b +:+ ":" +:+ d)
      with (a +:+ String ":" (b +:+ String ":" d)) in Hset.
    rewrite !startswith_before_colon in Hset by reflexivity.
    apply andb_prop in Hset as [Hset Hsemi].
    apply andb_prop in Hset as [_ Hhash].
    apply negb_true_iff in Hsemi, Hhash. repeat split; assumption.
  - intros (a & b & d & Hs & Ha & Hb & Hhash & Hsemi & -> & -> & ->).
    assert (three_fields (strip line) = Some (strip a, strip b, strip d))
      as -> by (apply three_fields_spec; eauto 10).
    rewrite Hs.
    change (a +:+ ":" +:+ b +:+ ":" +:+ d)
      with (a +:+ String ":" (b +:+ String ":" d)).
    rewrite !startswith_before_colon by reflexivity. rewrite Hhash, Hsemi.
    destruct a; reflexivity.
Qed.

Lemma get_field_dict_get key fm :
  Grating.get_field key fm = dict_get String.eqb key fm.
Proof.
  induction fm as [|[k v] fm IH]; simpl; [reflexivity|].
  rewrite IH. reflexivity.
Qed.

Lemma parse_field_line_map st n line :
  fst (parse_field_line st (n, line))
  = dict_step String.eqb field_of_line (fst st) line.
Proof.
  unfold parse_field_line, dict_step, field_of_line, is_setting. simpl.
  destruct (_ && _); [|reflexivity].
  destruct (three_fields (strip line)) as [[[k c] t]|]; reflexivity.
Qed.

Lemma parse_field_lines_map lines : forall ns st,
  length ns = length lines ->
  fst (fold_left parse_field_line (combine ns lines) st)
  = fold_left (dict_step String.eqb field_of_line) lines (fst st).
Proof.
  induction lines as [|line lines IH]; intros [|n ns] st Hlen;
    try discriminate; [reflexivity|].
  simpl. rewrite IH by (simpl in Hlen; lia).
  rewrite parse_field_line_map. reflexivity.
Qed.

Lemma parse_field_line_reported st n line :
  snd (parse_field_line st (n, line))
  = if is_setting line
    then match field_of_line line with
         | None => S n :: snd st
         | Some _ => snd st
         end
    else snd st.
Proof.
  unfold parse_field_line, field_of_line, is_setting. simpl.
  destruct (_ && _); [|reflexivity].
  destruct (three_fields (strip line)) as [[[k c] t]|]; reflexivity.
Qed.

(** The lines that are reported: the settings in which no field is
    found, by their number from 1. *)
Lemma parse_field_lines_reported lines : forall start st n,
  In n (snd (fold_left parse_field_line
               (combine (seq start (length lines)) lines) st)) <->
  In n (snd st) \/
  exists (i : nat) line,
    lines !! i = Some line /\ n = S (start + i) /\
    is_setting line = true /\ field_of_line line = None.
Proof.
  induction lines as [|line lines IH]; intros start st n; simpl.
  - split; [auto|]. intros [H | (i & l & Hi & _)]; [exact H|].
    destruct i; discriminate.
  - rewrite IH, parse_field_line_reported. split.
    + intros [Hst | (i & l & Hi & -> & Hset & Hnone)].
      * destruct (is_setting line) eqn:Hset; [|auto].
        destruct (field_of_line line) eqn:Hf; [auto|].
        destruct Hst as [<- | Hst]; [|auto].
        right. exists 0%nat, line.
        repeat split; [f_equal; lia|exact Hset|exact Hf].
      * right. exists (S i), l. repeat split; [exact Hi|lia|exact Hset|].
        exact Hnone.
    + intros [Hst | (i & l & Hi & -> & Hset & Hnone)].
      * left. destruct (is_setting line); [|exact Hst].
        destruct (field_of_line line); simpl; auto.
      * destruct i as [|i]; simpl in Hi.
        -- injection Hi as ->. left. rewrite Hset, Hnone.
           left. lia.
        -- right. exists i, l. repeat split; [exact Hi|lia|exact Hset|].
           exact Hnone.
Qed.

(** [_parse_fields_map_from_lines] of [CVD_Grating.py].  Every key is in the
    map once.  The entry of a key is the one declared by the last line
    that declares the key, so that a later line overrides an earlier one.
    A line is reported as an error exactly when it is neither blank nor a
    comment and declares no field. *)
Theorem fields_map_holds_the_last_declaration (fields_lines : list string) :
  let parsed := _parse_fields_map_from_lines fields_lines in
  List.NoDup (map fst (fst parsed)) /\
  (forall key col_spec dtype,
     Grating.get_field key (fst parsed) = Some (col_spec, dtype) <->
     exists (i : nat) line,
       fields_lines !! i = Some line /\ declares line key col_spec dtype /\
       forall (j : nat) line' c t,
         (i < j)%nat -> fields_lines !! j = Some line' ->
         ~ declares line' key c t) /\
  (forall n,
     In n (snd parsed) <->
     exists (i : nat) line,
       fields_lines !! i = Some line /\ n = S i /\ is_setting line = true /\
       forall key c t, ~ declares line key c t).
Proof.
  intros parsed.
  assert (Hfst : fst parsed = entries_of String.eqb field_of_line fields_lines).
  { unfold parsed, _parse_fields_map_from_lines.
    rewrite parse_field_lines_map by apply length_seq. reflexivity. }
  split; [|split].
  - rewrite Hfst. apply entries_of_NoDup. apply String.eqb_eq.
  - intros key col_spec dtype.
    rewrite Hfst, get_field_dict_get, (entries_of_get _ _ String.eqb_eq).
    split; intros (i & line & Hi & Hl & Hlater); exists i, line;
      (split; [exact Hi|]); (split; [apply field_of_line_declares; exact Hl|]).
    + intros j line' c t Hij Hj Hd. apply field_of_line_declares in Hd.
      apply (Hlater j line' (c, t) Hij Hj Hd).
    + intros j line' [c t] Hij Hj Hd. apply field_of_line_declares in Hd.
      apply (Hlater j line' c t Hij Hj Hd).
  - intros n. unfold parsed, _parse_fields_map_from_lines.
    rewrite parse_field_lines_reported. simpl.
    split.
    + intros [[] | (i & line & Hi & -> & Hset & Hnone)].
      exists i, line. repeat split; [exact Hi|exact Hset|].
      intros key c t Hd. apply field_of_line_declares in Hd. congruence.
    + intros (i & line & Hi & -> & Hset & Hnone). right.
      exists i, line. repeat split; [exact Hi|exact Hset|].
      destruct (field_of_line line) as [[key [c t]]|] eqn:Hf; [|reflexivity].
      apply field_of_line_declares in Hf. destruct (Hnone _ _ _ Hf).
Qed.

(** *** [parse_fields_map] of [051_Particle.py] *)

Lemma split_cons sep c s :
  split sep (String c s)
  = if Ascii.eqb c sep then "" :: split sep s
    else match split sep s with
         | [] => [String c ""]
         | piece :: pieces => String c piece :: pieces
         end.
Proof. reflexivity. Qed.

Lemma split_cut sep a : forall rest,
  contains sep a = false ->
  split sep (a +:+ String sep rest) = a :: split sep rest.
Proof.
  induction a as [|c a IH]; intros rest Ha.
  - rewrite app_nil, split_cons, Ascii.eqb_refl. reflexivity.
  - simpl in Ha. apply orb_false_elim in Ha as [Hc Ha].
    rewrite app_cons, split_cons, Hc, (IH rest Ha). reflexivity.
Qed.

Lemma split_whole sep s : contains sep s = false -> split sep s = [s].
Proof.
  induction s as [|c s IH]; intros Hs; [reflexivity|].
  simpl in Hs. apply orb_false_elim in Hs as [Hc Hs].
  rewrite split_cons, Hc, (IH Hs). reflexivity.
Qed.

Lemma split_inv sep s : forall a b l,
  split sep s = a :: b :: l ->
  contains sep a = false /\
  exists rest, s = a +:+ String sep rest /\ split sep rest = b :: l.
Proof.
  induction s as [|c s IH]; intros a b l; [discriminate|].
  rewrite split_cons. destruct (Ascii.eqb c sep) eqn:Hc.
  - intros [= <- Hrest]. split; [reflexivity|].
    apply Ascii.eqb_eq in Hc. subst c. exists s. split; [reflexivity|exact Hrest].
  - destruct (split sep s) as [|piece pieces] eqn:Hs; [discriminate|].
    intros [= <- ->]. destruct (IH _ _ _ eq_refl) as (Hpiece & rest & -> & Hrest).
    split; [simpl; rewrite Hc; exact Hpiece|].
    exists rest. split; [reflexivity|exact Hrest].
Qed.

(** The first piece of a text is the text up to its first separator. *)
Lemma split_head sep s b l :
  split sep s = b :: l ->
  contains sep b = false /\ (s = b \/ exists tail, s = b +:+ String sep tail).
Proof.
  intros Hs. destruct l as [|b' l].
  - pose proof (split_no_sep sep s) as Hall. rewrite Hs in Hall.
    inversion Hall; subst. split; [assumption|]. left.
    rewrite <- (split_concat sep s), Hs. reflexivity.
  - apply split_inv in Hs as (Hb & rest & -> & _). eauto.
Qed.

Section Particle.
Context `{PyLib}.

(** The entry that the loop of [parse_fields_map] makes for a line. *)
Definition column_of_line (raw : string) : option (string * Z) :=
  let s := strip raw in
  if String.eqb s "" || startswith "#" s || negb (contains ":" s) then None
  else
    match map strip (split ":" s) with
    | k :: col_s :: _ =>
        match int_of_string col_s with
        | Some col => Some (k, col)
        | None => None
        end
    | _ => None
    end.

(** A line names a column: without the white space around it, it reads
    [key:col] or [key:col:more], it is no comment, and [int] accepts
    [col] without the white space around it. *)
Definition names_column (raw key : string) (col : Z) : Prop :=
  exists a b,
    (strip raw = a +:+ ":" +:+ b \/
     exists more, strip raw = a +:+ ":" +:+ b +:+ ":" +:+ more) /\
    contains ":" a = false /\ contains ":" b = false /\
    startswith "#" a = false /\
    key = strip a /\ int_of_string (strip b) = Some col.

Lemma contains_colon_app a r : contains ":" (a +:+ String ":" r) = true.
Proof. rewrite contains_app. simpl. apply orb_true_r. Qed.

Lemma column_of_line_names raw key col :
  column_of_line raw = Some (key, col) <-> names_column raw key col.
Proof.
  unfold column_of_line, names_column. split.
  - destruct (_ || _) eqn:Hskip; [discriminate|].
    apply orb_false_elim in Hskip as [Hskip _].
    apply orb_false_elim in Hskip as [_ Hhash].
    destruct (split ":" (strip raw)) as [|a [|b l]] eqn:Hs; try discriminate.
    simpl. destruct (int_of_string (strip b)) as [c|] eqn:Hint; [|discriminate].
    intros [= <- <-].
    apply split_inv in Hs as (Ha & rest & Hraw & Hs).
    apply split_head in Hs as (Hb & Hrest).
    rewrite Hraw in Hhash. rewrite startswith_before_colon in Hhash by reflexivity.
    exists a, b. split; [|auto 10].
    destruct Hrest as [-> | (tail & ->)]; [left|right; exists tail]; exact Hraw.
  - intros (a & b & Hraw & Ha & Hb & Hhash & -> & Hint).
    assert (Hshape : exists rest,
              strip raw = a +:+ String ":" rest /\
              exists l, split ":" rest = b :: l).
    { destruct Hraw as [-> | (more & ->)].
      - exists b. split; [reflexivity|]. exists []. apply split_whole. exact Hb.
      - exists (b +:+ String ":" more). split; [reflexivity|].
        exists (split ":" more). apply split_cut. exact Hb. }
    destruct Hshape as (rest & -> & l & Hrest).
    rewrite startswith_before_colon by reflexivity.
    rewrite Hhash, contains_colon_app, (split_cut _ _ _ Ha), Hrest. simpl.
    rewrite Hint. destruct a; reflexivity.
Qed.

Lemma particle_field_line_step mapping raw :
  particle_field_line mapping raw
  = dict_step String.eqb column_of_line mapping raw.
Proof.
  unfold particle_field_line, dict_step, column_of_line.
  destruct (_ || _); [reflexivity|].
  destruct (map strip (split ":" (strip raw))) as [|k [|col_s l]];
    try reflexivity.
  destruct (int_of_string col_s); reflexivity.
Qed.

(** [parse_fields_map] of [051_Particle.py].  Every key is in the mapping
    once, and its column is the one named by the last line of the text that
    names a column for the key; a comment, a line without colon and a line
    whose column is no integer name nothing. *)
Theorem fields_text_holds_the_last_column (fields_text : string) :
  let mapping := parse_fields_map fields_text in
  List.NoDup (map fst mapping) /\
  forall key col,
    dict_get String.eqb key mapping = Some col <->
    exists (i : nat) raw,
      splitlines fields_text !! i = Some raw /\ names_column raw key col /\
      forall (j : nat) raw' col',
        (i < j)%nat -> splitlines fields_text !! j = Some raw' ->
        ~ names_column raw' key col'.
Proof.
  intros mapping.
  assert (Hmap : mapping
                 = entries_of String.eqb column_of_line (splitlines fields_text)).
  { unfold mapping, parse_fields_map, entries_of.
    generalize (@nil (string * Z)).
    induction (splitlines fields_text) as [|raw lines IH]; intros d;
      [reflexivity|].
    simpl. rewrite particle_field_line_step. apply IH. }
  rewrite Hmap. split; [apply entries_of_NoDup; apply String.eqb_eq|].
  intros key col. rewrite (entries_of_get _ _ String.eqb_eq).
  split; intros (i & raw & Hi & Hl & Hlater); exists i, raw;
    (split; [exact Hi|]); (split; [apply column_of_line_names; exact Hl|]);
    intros j raw' col' Hij Hj Hd; apply column_of_line_names in Hd;
    apply (Hlater j raw' col' Hij Hj Hd).
Qed.

(** *** [_parse_rename_map_from_config] *)

(** An entry of the option [rename_map] that stops the loop: it is not
    blank, and it is not of the form [idx:name] with an integer [idx]. *)
Definition is_bad (mapping : string) : bool :=
  negb (String.eqb (strip mapping) "")
  && match rename_entry mapping with
     | Some _ => false
     | None => true
     end.

(** The entry that the loop makes for a piece of the option. *)
Definition rename_of (mapping : string) : option (Z * string) :=
  if String.eqb (strip mapping) "" then None else rename_entry mapping.

(** A piece renames a column: without the white space around it, it reads
    [idx:name] with one colon, and [int] accepts [idx]. *)
Definition renames (mapping : string) (i : Z) (name : string) : Prop :=
  exists a b,
    strip mapping = a +:+ ":" +:+ b /\
    contains ":" a = false /\ contains ":" b = false /\
    int_of_string a = Some i /\ name = strip b.

Lemma rename_of_renames mapping i name :
  rename_of mapping = Some (i, name) <-> renames mapping i name.
Proof.
  unfold rename_of, rename_entry, renames. split.
  - destruct (String.eqb (strip mapping) ""); [discriminate|].
    destruct (split ":" (strip mapping)) as [|a [|b [|? ?]]] eqn:Hs;
      try discriminate.
    destruct (int_of_string a) as [z|] eqn:Hint; [|discriminate].
    intros [= <- <-].
    apply split_inv in Hs as (Ha & rest & Hraw & Hs).
    pose proof (split_head _ _ _ _ Hs) as (Hb & _).
    assert (rest = b) as ->
      by (rewrite <- (split_concat ":" rest), Hs; reflexivity).
    exists a, b. auto 10.
  - intros (a & b & Hraw & Ha & Hb & Hint & ->). rewrite Hraw.
    change (a +:+ ":" +:+ b) with (a +:+ String ":" b).
    rewrite (split_cut _ _ _ Ha), (split_whole _ _ Hb), Hint.
    destruct a; reflexivity.
Qed.

Lemma rename_loop_good pieces : forall d,
  Forall (fun x => is_bad x = false) pieces ->
  rename_loop pieces d
  = (fold_left (dict_step Z.eqb rename_of) pieces d, true).
Proof.
  induction pieces as [|x pieces IH]; intros d Hall; [reflexivity|].
  inversion Hall as [|? ? Hx Hrest]; subst. simpl.
  unfold dict_step at 2, rename_of. unfold is_bad in Hx.
  destruct (String.eqb (strip x) ""); simpl in *; [apply IH; exact Hrest|].
  destruct (rename_entry x) as [[i name]|]; [|discriminate].
  apply IH. exact Hrest.
Qed.

Lemma rename_loop_bad before piece after : forall d,
  Forall (fun x => is_bad x = false) before ->
  is_bad piece = true ->
  rename_loop (before ++ piece :: after) d
  = (fold_left (dict_step Z.eqb rename_of) before d, false).
Proof.
  induction before as [|x before IH]; intros d Hall Hbad.
  - simpl. unfold is_bad in Hbad.
    destruct (String.eqb (strip piece) ""); [discriminate|].
    destruct (rename_entry piece); [discriminate|reflexivity].
  - inversion Hall as [|? ? Hx Hrest]; subst. simpl.
    unfold dict_step at 2, rename_of. unfold is_bad in Hx.
    destruct (String.eqb (strip x) ""); simpl in *; [apply IH; assumption|].
    destruct (rename_entry x) as [[i name]|]; [|discriminate].
    apply IH; assumption.
Qed.

(** [_parse_rename_map_from_config].  Without the section or the option
    the map is empty and an error is logged.  When every piece of the
    option is blank or renames a column, the map holds for each index the
    name of the last piece that renames it.  The first piece that does
    neither stops the loop: the pieces before it are in the map, the pieces
    after it are lost, and an error is logged. *)
Theorem rename_map_stops_at_the_first_bad_entry (mapping_str : string) :
  let pieces := split "," (strip mapping_str) in
  let parsed := _parse_rename_map_from_config (RenameMap mapping_str) in
  let holds (seen : list string) :=
    forall i name,
      dict_get Z.eqb i (fst parsed) = Some name <->
      exists (n : nat) piece,
        seen !! n = Some piece /\ renames piece i name /\
        forall (m : nat) piece' name',
          (n < m)%nat -> seen !! m = Some piece' -> ~ renames piece' i name' in
  _parse_rename_map_from_config NoSection = ([], Error) /\
  _parse_rename_map_from_config NoOption = ([], Error) /\
  (Forall (fun x => is_bad x = false) pieces ->
   snd parsed = Info /\ holds pieces) /\
  (forall before piece after,
     pieces = before ++ piece :: after ->
     Forall (fun x => is_bad x = false) before -> is_bad piece = true ->
     snd parsed = Error /\ holds before).
Proof.
  intros pieces parsed holds.
  assert (Hholds : forall seen,
            fst parsed = entries_of Z.eqb rename_of seen -> holds seen).
  { intros seen Hfst i name. rewrite Hfst, (entries_of_get _ _ Z.eqb_eq).
    split; intros (n & piece & Hn & Hl & Hlater); exists n, piece;
      (split; [exact Hn|]); (split; [apply rename_of_renames; exact Hl|]);
      intros m piece' name' Hnm Hm Hd; apply rename_of_renames in Hd;
      apply (Hlater m piece' name' Hnm Hm Hd). }
  split; [reflexivity|]. split; [reflexivity|]. split.
  - intros Hall. unfold parsed, _parse_rename_map_from_config.
    fold pieces. rewrite (rename_loop_good pieces [] Hall).
    split; [reflexivity|]. apply Hholds.
    unfold parsed, _parse_rename_map_from_config. fold pieces.
    rewrite (rename_loop_good pieces [] Hall). reflexivity.
  - intros before piece after Hpieces Hall Hbad.
    assert (Hrun : parsed = (entries_of Z.eqb rename_of before, Error)).
    { unfold parsed, _parse_rename_map_from_config. fold pieces.
      rewrite Hpieces, (rename_loop_bad before piece after [] Hall Hbad).
      reflexivity. }
    split; [rewrite Hrun; reflexivity|]. apply Hholds. rewrite Hrun.
    reflexivity.
Qed.

End Particle.

(** *** [detect_tool_name] of [Facet_Common.py] *)

(** [keyword in filename_str] *)
Definition occurs (keyword filename : string) : Prop :=
  exists a b, filename = a +:+ keyword +:+ b.

(** [detect_tool_name] gives the tool of the first keyword of the map,
    other than [default], that occurs in the file name; when there is none
    it gives the tool of the entry [default], and [UNKNOWN] when the map
    has no such entry.  The word [default] in a file name selects
    nothing. *)
Theorem detect_tool_name_first_keyword (filename : string)
  (tool_map : list (string * string)) :
  (exists (i : nat) keyword tool,
     tool_map !! i = Some (keyword, tool) /\
     keyword <> "default" /\ occurs keyword filename /\
     (forall (j : nat) keyword' tool',
        (j < i)%nat -> tool_map !! j = Some (keyword', tool') ->
        keyword' = "default" \/ ~ occurs keyword' filename) /\
     detect_tool_name filename tool_map = tool) \/
  ((forall keyword tool,
      In (keyword, tool) tool_map ->
      keyword = "default" \/ ~ occurs keyword filename) /\
   detect_tool_name filename tool_map
   = default "UNKNOWN" (dict_get String.eqb "default" tool_map)).
Proof.
  unfold detect_tool_name.
  assert (Hscan :
    (exists (i : nat) keyword tool,
       tool_map !! i = Some (keyword, tool) /\
       keyword <> "default" /\ occurs keyword filename /\
       (forall (j : nat) keyword' tool',
          (j < i)%nat -> tool_map !! j = Some (keyword', tool') ->
          keyword' = "default" \/ ~ occurs keyword' filename) /\
       first_keyword filename tool_map = Some tool) \/
    ((forall keyword tool,
        In (keyword, tool) tool_map ->
        keyword = "default" \/ ~ occurs keyword filename) /\
     first_keyword filename tool_map = None)).
  { induction tool_map as [|[keyword tool] rest IH]; simpl.
    - right. split; [intros ? ? []|reflexivity].
    - destruct (String.eqb_spec keyword "default") as [Hd | Hd]; simpl.
      + destruct IH as [(i & k & t & Hi & Hk & Hocc & Hbefore & Hres)
                       | [Hnone Hres]].
        * left. exists (S i), k, t. repeat split; try assumption.
          intros [|j] k' t' Hj Hl; simpl in Hl.
          -- injection Hl as <- <-. auto.
          -- apply (Hbefore j k' t'); [lia|exact Hl].
        * right. split; [|exact Hres].
          intros k t [[= <- <-] | Hin]; eauto.
      + destruct (is_infix keyword filename) eqn:Hin.
        * left. exists 0%nat, keyword, tool.
          repeat split; [exact Hd|apply is_infix_spec; exact Hin|].
          intros j ? ? Hj. lia.
        * assert (Hno : ~ occurs keyword filename).
          { intros Hocc. apply is_infix_spec in Hocc. congruence. }
          destruct IH as [(i & k & t & Hi & Hk & Hocc & Hbefore & Hres)
                         | [Hnone Hres]].
          -- left. exists (S i), k, t. repeat split; try assumption.
             intros [|j] k' t' Hj Hl; simpl in Hl.
             ++ injection Hl as <- <-. auto.
             ++ apply (Hbefore j k' t'); [lia|exact Hl].
          -- right. split; [|exact Hres].
             intros k t [[= <- <-] | Hin']; eauto. }
  destruct Hscan as [(i & k & t & Hi & Hk & Hocc & Hbefore & Hres)
                    | [Hnone Hres]]; rewrite Hres.
  - left. exists i, k, t. auto.
  - right. auto.
Qed.

End ConfigFacts.

(** ** File names, sheets, headers and source files of [051_Particle.py] *)

Module ParticleFacts.
Import PyStr PyText Particle PyTextFacts.

Lemma sub_class_get cls repl s : forall n c,
  String.get n s = Some c ->
  String.get n (sub_class cls repl s) = Some (if cls c then repl else c).
Proof.
  induction s as [|x s IH]; intros n c; simpl; [discriminate|].
  destruct n as [|n]; [intros [= ->]; reflexivity|apply IH].
Qed.

(** [_sanitize_filename_component] returns the fallback, or the text
    without the white space around it in which every character that is
    illegal in a file name has become an underscore and every other
    character has stayed: this result has no illegal character, and it
    is not made of underscores and spaces only. *)
Theorem sanitized_component_is_safe (s : option string) (fallback : string) :
  let r := _sanitize_filename_component s fallback in
  r = fallback \/
  exists t,
    s = Some t /\
    all_chars (fun c => negb (is_illegal c)) r = true /\
    String.length r = String.length (strip t) /\
    (forall n c, String.get n (strip t) = Some c ->
                 String.get n r = Some (if is_illegal c then "_"%char else c)) /\
    exists c, contains c r = true /\ is_underscore_or_space c = false.
Proof.
  intros r. unfold r, _sanitize_filename_component.
  destruct s as [t|]; [|left; reflexivity].
  destruct (String.eqb (strip t) ""); [left; reflexivity|].
  set (s2 := sub_class is_illegal "_" (strip t)).
  destruct (String.eqb (strip (strip_chars is_underscore_or_space s2)) "")
    eqn:Hblank; [left; reflexivity|].
  right. exists t. split; [reflexivity|].
  split; [apply sub_class_clean; reflexivity|].
  split; [apply sub_class_length|].
  split; [intros n c; apply sub_class_get|].
  unfold strip_chars, rstrip_chars in Hblank.
  destruct (lstrip_chars is_underscore_or_space
              (rev (lstrip_chars is_underscore_or_space s2)))
    as [|c y] eqn:Hy; [discriminate|].
  exists c. split; [|apply (lstrip_chars_head _ _ _ _ Hy)].
  apply (contains_lstrip_chars is_underscore_or_space).
  rewrite <- contains_rev.
  apply (contains_lstrip_chars is_underscore_or_space). rewrite Hy.
  simpl. rewrite Ascii.eqb_refl. reflexivity.
Qed.

(** The sheet that [main] reads is a sheet of the workbook: the sheet
    asked for when the workbook has it; otherwise a sheet with the same
    normal form, or one whose normal form contains that of the sheet asked
    for, or the first sheet.  Only a workbook without sheets gives
    none. *)
Theorem use_sheet_is_a_sheet (desired_sheet : string) (sheets : list string) :
  (In desired_sheet sheets ->
   use_sheet desired_sheet sheets = Some desired_sheet) /\
  (use_sheet desired_sheet sheets = None <-> sheets = []) /\
  (forall s, use_sheet desired_sheet sheets = Some s ->
     In s sheets /\
     (s = desired_sheet \/ norm s = norm desired_sheet \/
      (exists a b, norm s = a +:+ norm desired_sheet +:+ b) \/
      head sheets = Some s)).
Proof.
  unfold use_sheet, next_where.
  destruct (existsb (String.eqb desired_sheet) sheets) eqn:Hex.
  - apply existsb_exists in Hex as (x & Hin & Heq).
    apply String.eqb_eq in Heq. subst x.
    split; [reflexivity|]. split.
    + split; [discriminate|]. intros ->. destruct Hin.
    + intros s [= <-]. auto.
  - assert (Hnot : ~ In desired_sheet sheets).
    { intros Hin. apply not_true_iff_false in Hex. apply Hex.
      apply existsb_exists. exists desired_sheet.
      split; [exact Hin|apply String.eqb_refl]. }
    split; [intros Hin; contradiction|].
    assert (Hrest :
      match sheets with
      | [] => None
      | first :: _ =>
          match List.find (fun s => is_infix (norm desired_sheet) (norm s))
                          sheets with
          | Some s => Some s
          | None => Some first
          end
      end = None <-> sheets = []).
    { destruct sheets as [|first rest]; [tauto|].
      destruct (List.find _ (first :: rest)); split; discriminate. }
    assert (Hmember : forall s,
      match sheets with
      | [] => None
      | first :: _ =>
          match List.find (fun s => is_infix (norm desired_sheet) (norm s))
                          sheets with
          | Some s => Some s
          | None => Some first
          end
      end = Some s ->
      In s sheets /\
      (s = desired_sheet \/ norm s = norm desired_sheet \/
       (exists a b, norm s = a +:+ norm desired_sheet +:+ b) \/
       head sheets = Some s)).
    { destruct sheets as [|first rest]; [discriminate|].
      destruct (List.find _ (first :: rest)) as [x|] eqn:Hfind.
      - intros s [= <-]. apply find_some in Hfind as [Hin Hinfix].
        split; [exact Hin|]. right. right. left.
        apply is_infix_spec. exact Hinfix.
      - intros s [= <-]. split; [left; reflexivity|]. auto. }
    destruct (List.find (fun s => String.eqb (norm s) (norm desired_sheet))
                        sheets) as [[|c x]|] eqn:Hfind;
      [split; assumption| |split; assumption].
    apply find_some in Hfind as [Hin Heq]. apply String.eqb_eq in Heq.
    split.
    + split; [discriminate|]. intros ->. destruct Hin.
    + intros s [= <-]. auto.
Qed.

Section Header.
Context `{PyLib}.
Variables (expected : list string) (min_hits : nat).

(** A row has enough cells that are expected headers. *)
Definition looks_like_header (row : list Cell) : Prop :=
  (min_hits <= header_hits expected row)%nat.

Lemma scan_header_spec rows : forall r,
  match scan_header expected min_hits r rows with
  | Some h =>
      exists (k : nat) row,
        h = (r + k)%nat /\ rows !! k = Some row /\ looks_like_header row /\
        forall (j : nat) row', (j < k)%nat -> rows !! j = Some row' ->
                               ~ looks_like_header row'
  | None => forall row, In row rows -> ~ looks_like_header row
  end.
Proof.
  unfold looks_like_header.
  induction rows as [|row rows IH]; intros r; simpl; [tauto|].
  destruct (min_hits <=? header_hits expected row)%nat eqn:Hhit.
  - apply Nat.leb_le in Hhit. exists 0%nat, row.
    repeat split; [lia|exact Hhit|]. intros j ? Hj. lia.
  - apply Nat.leb_gt in Hhit. specialize (IH (S r)).
    destruct (scan_header expected min_hits (S r) rows) as [h|].
    + destruct IH as (k & row' & -> & Hk & Hrow & Hbefore).
      exists (S k), row'. repeat split; [lia|exact Hk|exact Hrow|].
      intros [|j] row'' Hj Hl; simpl in Hl.
      * injection Hl as <-. lia.
      * apply (Hbefore j row''); [lia|exact Hl].
    + intros row' [<- | Hin]; [lia|auto].
Qed.

(** [detect_header_row] returns the first of the first thirty rows that
    looks like a header, with the row after it as the start of the data;
    it returns row 0 when none of them does, so row 0 is the answer both
    for a header in row 0 and for no header at all. *)
Theorem detect_header_row_first_match (df_like : list (list Cell)) :
  let found := detect_header_row df_like expected min_hits in
  snd found = S (fst found) /\
  (fst found < 30)%nat /\
  (forall (r : nat) row,
     (r < 30)%nat -> df_like !! r = Some row -> looks_like_header row ->
     (fst found <= r)%nat /\
     exists header, df_like !! fst found = Some header /\
                    looks_like_header header) /\
  ((forall (r : nat) row,
      (r < 30)%nat -> df_like !! r = Some row -> ~ looks_like_header row) ->
   fst found = 0%nat).
Proof.
  intros found. unfold found, detect_header_row.
  set (top := Nat.min 30 (length df_like)).
  pose proof (scan_header_spec (firstn top df_like) 0) as Hscan.
  assert (Htake : forall (i : nat) row,
            firstn top df_like !! i = Some row ->
            (i < 30)%nat /\ df_like !! i = Some row).
  { intros i row Hi. pose proof (lookup_lt_Some _ _ _ Hi) as Hlt.
    rewrite length_take in Hlt. split; [unfold top in Hlt; lia|].
    rewrite lookup_take_lt in Hi by lia. exact Hi. }
  assert (Hin : forall (r : nat) row,
            (r < 30)%nat -> df_like !! r = Some row ->
            firstn top df_like !! r = Some row).
  { intros r row Hr Hl. pose proof (lookup_lt_Some _ _ _ Hl) as Hlt.
    rewrite lookup_take_lt by (unfold top; lia). exact Hl. }
  destruct (scan_header expected min_hits 0 (firstn top df_like)) as [h|].
  - destruct Hscan as (k & header & -> & Hk & Hhead & Hbefore). simpl.
    destruct (Htake k header Hk) as [Hk30 Hdf].
    split; [reflexivity|]. split; [exact Hk30|]. split.
    + intros r row Hr Hl Hrow. split; [|eauto].
      destruct (le_lt_dec k r) as [Hle | Hlt]; [exact Hle|].
      destruct (Hbefore r row Hlt (Hin r row Hr Hl) Hrow).
    + intros Hnone. destruct (Hnone k header Hk30 Hdf Hhead).
  - simpl. split; [reflexivity|]. split; [lia|]. split; [|reflexivity].
    intros r row Hr Hl Hrow. exfalso. apply (Hscan row); [|exact Hrow].
    apply list_elem_of_In. eapply list_elem_of_lookup_2. apply (Hin r row Hr Hl).
Qed.

End Header.

(** *** The files of the latest two days *)

(** Strictly falling, as [sorted(set(...), reverse=True)] is. *)
Fixpoint falling (l : list Z) : Prop :=
  match l with
  | [] => True
  | x :: l' => (forall y, In y l' -> y < x) /\ falling l'
  end.

Lemma insert_desc_in d l x : In x (insert_desc d l) <-> x = d \/ In x l.
Proof.
  induction l as [|y l IH]; simpl; [intuition congruence|].
  destruct (y <? d) eqn:Hlt; simpl; [intuition congruence|].
  destruct (y =? d) eqn:Heq; simpl.
  - apply Z.eqb_eq in Heq. subst. intuition congruence.
  - rewrite IH. intuition congruence.
Qed.

Lemma insert_desc_falling d l : falling l -> falling (insert_desc d l).
Proof.
  induction l as [|y l IH]; simpl; [tauto|].
  intros [Hy Hl]. destruct (y <? d) eqn:Hlt; simpl.
  - apply Z.ltb_lt in Hlt. split; [|auto].
    intros z [<- | Hz]; [exact Hlt|]. specialize (Hy z Hz). lia.
  - destruct (y =? d) eqn:Heq; simpl; [auto|].
    apply Z.ltb_ge in Hlt. apply Z.eqb_neq in Heq.
    split; [|auto]. intros z Hz. apply insert_desc_in in Hz as [-> | Hz];
      [lia|auto].
Qed.

Lemma unique_dates_spec all_hits :
  falling (unique_dates all_hits) /\
  forall d, In d (unique_dates all_hits) <-> exists c, In c all_hits /\ hit_date c = d.
Proof.
  unfold unique_dates. induction all_hits as [|c cs [IHf IHin]]; simpl.
  - split; [exact I|]. intros d. split; [tauto|]. intros (? & [] & _).
  - split; [apply insert_desc_falling; exact IHf|].
    intros d. rewrite insert_desc_in, IHin. split.
    + intros [-> | (c' & Hin & Hd)]; eauto.
    + intros (c' & [<- | Hin] & Hd); eauto.
Qed.

(** The first two of a falling list are the members with at most one
    distinct larger member. *)
Lemma first_two_of_falling l d :
  falling l ->
  (In d (firstn 2 l) <->
   In d l /\ forall a b, In a l -> In b l -> d < a -> d < b -> a = b).
Proof.
  destruct l as [|x [|y rest]]; simpl.
  - tauto.
  - intros _. split.
    + intros [<- | []]. split; [auto|]. intros a b [<- | []] [<- | []]. auto.
    + tauto.
  - intros (Hx & Hy & _). split.
    + intros [<- | [<- | []]].
      * split; [auto|]. intros a b Ha Hb Hda Hdb. exfalso.
        destruct Ha as [<- | Ha]; [lia|]. specialize (Hx a Ha). lia.
      * split; [auto|].
        assert (Honly : forall a, x = a \/ y = a \/ In a rest -> y < a -> a = x)
          by (intros a [<- | [<- | Ha]] Hya; [reflexivity|lia|];
              specialize (Hy a Ha); lia).
        intros a b Ha Hb Hda Hdb.
        rewrite (Honly a Ha Hda), (Honly b Hb Hdb). reflexivity.
    + intros [[<- | [<- | Hin]] Hmost]; [auto|auto|]. exfalso.
      assert (x = y); [|specialize (Hx y (or_introl eq_refl)); lia].
      apply Hmost; [auto|auto| |].
      * apply Hx. right. exact Hin.
      * apply Hy. exact Hin.
Qed.

(** [pick_latest_two_days_files] picks a file exactly when at most one
    day of the files found is later than the day of the file: the files of
    the latest day and of the day before the latest among those that have
    files. *)
Theorem latest_two_days_are_picked (all_hits : list Hit) (f : string) :
  In f (pick_latest_two_days_files all_hits) <->
  exists c,
    In c all_hits /\ hit_path c = f /\
    forall a b, In a all_hits -> In b all_hits ->
                hit_date c < hit_date a -> hit_date c < hit_date b ->
                hit_date a = hit_date b.
Proof.
  assert (Hgen :
    In f (map hit_path
            (List.filter
               (fun c => existsb (Z.eqb (hit_date c))
                                 (firstn 2 (unique_dates all_hits)))
               all_hits)) <->
    exists c,
      In c all_hits /\ hit_path c = f /\
      forall a b, In a all_hits -> In b all_hits ->
                  hit_date c < hit_date a -> hit_date c < hit_date b ->
                  hit_date a = hit_date b).
  { destruct (unique_dates_spec all_hits) as [Hfall Hdates].
    rewrite in_map_iff. split.
    - intros (c & Hf & Hc). apply filter_In in Hc as [Hin Hex].
      apply existsb_exists in Hex as (d & Hd & Heq).
      apply Z.eqb_eq in Heq. subst d.
      apply (first_two_of_falling _ _ Hfall) in Hd as [_ Hmost].
      exists c. repeat split; [exact Hin|exact Hf|].
      intros a b Ha Hb Hca Hcb. apply Hmost; try assumption;
        apply Hdates; eauto.
    - intros (c & Hin & Hf & Hmost). exists c. split; [exact Hf|].
      apply filter_In. split; [exact Hin|]. apply existsb_exists.
      exists (hit_date c). split; [|apply Z.eqb_refl].
      apply (first_two_of_falling _ _ Hfall). split; [apply Hdates; eauto|].
      intros a b Ha Hb Hca Hcb.
      apply Hdates in Ha as (ca & Hina & <-).
      apply Hdates in Hb as (cb & Hinb & <-). auto. }
  destruct all_hits as [|c0 cs]; [|exact Hgen].
  simpl. split; [tauto|]. intros (? & [] & _).
Qed.

(** *** The file closest to today *)

Lemma max_mtime_fold cs : forall best,
  match fold_left (fun best c =>
                     match best with
                     | None => Some c
                     | Some b =>
                         if hit_mtime b <? hit_mtime c then Some c else Some b
                     end) cs best with
  | None => best = None /\ cs = []
  | Some m =>
      (best = Some m \/ In m cs) /\
      (forall b, best = Some b -> hit_mtime b <= hit_mtime m) /\
      forall c, In c cs -> hit_mtime c <= hit_mtime m
  end.
Proof.
  induction cs as [|x cs IH]; intros best; simpl.
  - destruct best as [b|]; [|auto]. split; [auto|]. split; [|tauto].
    intros ? [= <-]. lia.
  - match goal with
    | |- context [fold_left ?f cs ?b0] => specialize (IH b0)
    end.
    destruct (fold_left _ cs _) as [m|].
    + destruct IH as (Hm & Hb & Hall). destruct best as [b|].
      * destruct (hit_mtime b <? hit_mtime x) eqn:Hlt.
        -- apply Z.ltb_lt in Hlt. specialize (Hb _ eq_refl).
           split; [destruct Hm as [[= <-] | Hm]; auto|]. split.
           ++ intros ? [= <-]. lia.
           ++ intros c [<- | Hc]; auto.
        -- apply Z.ltb_ge in Hlt. specialize (Hb _ eq_refl).
           split; [destruct Hm as [[= <-] | Hm]; auto|]. split.
           ++ intros ? [= <-]. exact Hb.
           ++ intros c [<- | Hc]; [lia|auto].
      * specialize (Hb _ eq_refl).
        split; [destruct Hm as [[= <-] | Hm]; auto|]. split; [discriminate|].
        intros c [<- | Hc]; auto.
    + destruct IH as [Hnone _]. destruct best as [b|];
        [destruct (hit_mtime b <? hit_mtime x)|]; discriminate.
Qed.

(** [max(cs, key=...)] is a member with the largest modification time. *)
Lemma max_mtime_spec cs :
  match max_mtime cs with
  | None => cs = []
  | Some m => In m cs /\ forall c, In c cs -> hit_mtime c <= hit_mtime m
  end.
Proof.
  pose proof (max_mtime_fold cs None) as H. unfold max_mtime.
  destruct (fold_left _ cs None) as [m|].
  - destruct H as ([Hm | Hm] & _ & Hall); [discriminate|auto].
  - apply H.
Qed.

Lemma min_dist_spec today all_hits :
  all_hits <> [] ->
  (exists c, In c all_hits /\ Z.abs (hit_date c - today) = min_dist today all_hits) /\
  forall c, In c all_hits -> min_dist today all_hits <= Z.abs (hit_date c - today).
Proof.
  destruct all_hits as [|c0 cs]; [congruence|]. intros _. unfold min_dist.
  assert (Hgen : forall cs m0,
    let m := fold_left (fun m c' => Z.min m (Z.abs (hit_date c' - today))) cs m0 in
    (m = m0 \/ exists c, In c cs /\ Z.abs (hit_date c - today) = m) /\
    m <= m0 /\ forall c, In c cs -> m <= Z.abs (hit_date c - today)).
  { clear. induction cs as [|x cs IH]; intros m0; simpl.
    - split; [auto|]. split; [lia|tauto].
    - specialize (IH (Z.min m0 (Z.abs (hit_date x - today)))). simpl in IH.
      match goal with
      | H : context [fold_left ?f cs ?i] |- _ => set (m := fold_left f cs i) in *
      end.
      destruct IH as (Hm & Hle & Hall). split; [|split].
      + destruct Hm as [Hm | (c & Hc & Hd)]; [|eauto].
        destruct (Z.min_spec m0 (Z.abs (hit_date x - today)))
          as [[_ Heq] | [_ Heq]].
        * left. lia.
        * right. exists x. split; [left; reflexivity|]. lia.
      + lia.
      + intros c [<- | Hc]; [lia|auto]. }
  destruct (Hgen cs (Z.abs (hit_date c0 - today))) as (Hm & Hle & Hall).
  split.
  - destruct Hm as [Hm | (c & Hc & Hd)].
    + exists c0. split; [left; reflexivity|]. symmetry. exact Hm.
    + exists c. split; [right; exact Hc|exact Hd].
  - intros c [<- | Hc]; [exact Hle|auto].
Qed.

(** [pick_by_filename_closest_date] finds nothing only when no file was
    found.  The file it picks is one whose day is as close to today as
    any, and among the files found at that distance none was modified
    later. *)
Theorem closest_file_is_picked (today : Z) (all_hits : list Hit) :
  (pick_by_filename_closest_date today all_hits = None <-> all_hits = []) /\
  forall f d n,
    pick_by_filename_closest_date today all_hits = Some (f, d, n) ->
    n = Z.abs (d - today) /\
    exists c,
      In c all_hits /\ hit_path c = f /\ hit_date c = d /\
      forall c', In c' all_hits ->
                 n <= Z.abs (hit_date c' - today) /\
                 (Z.abs (hit_date c' - today) = n ->
                  hit_mtime c' <= hit_mtime c).
Proof.
  destruct all_hits as [|c0 cs]; [split; [tauto|discriminate]|].
  set (all_hits := c0 :: cs).
  assert (Hne : all_hits <> []) by discriminate.
  unfold pick_by_filename_closest_date. fold all_hits.
  change (match all_hits with
          | [] => None
          | _ :: _ => ?x
          end) with x.
  pose proof (max_mtime_spec
                (List.filter (fun c => hit_date c =? today) all_hits)) as Htoday.
  destruct (max_mtime (List.filter (fun c => hit_date c =? today) all_hits))
    as [best|].
  - destruct Htoday as [Hbest Hmax].
    apply filter_In in Hbest as [Hin Hd]. apply Z.eqb_eq in Hd.
    split; [split; [discriminate|congruence]|].
    intros f d n [= <- <- <-]. split; [lia|].
    exists best. repeat split; try assumption; [lia|].
    intros Hdist. apply Hmax. apply filter_In. split; [assumption|].
    apply Z.eqb_eq. lia.
  - destruct (min_dist_spec today all_hits Hne) as [(c & Hc & Hcd) Hmin].
    pose proof (max_mtime_spec
                  (List.filter
                     (fun c => Z.abs (hit_date c - today)
                               =? min_dist today all_hits) all_hits)) as Hnear.
    destruct (max_mtime
                (List.filter
                   (fun c => Z.abs (hit_date c - today)
                             =? min_dist today all_hits) all_hits))
      as [best|].
    + destruct Hnear as [Hbest Hmax].
      apply filter_In in Hbest as [Hin Hd]. apply Z.eqb_eq in Hd.
      split; [split; [discriminate|congruence]|].
      intros f d n [= <- <- <-]. split; [symmetry; exact Hd|].
      exists best. repeat split; try assumption; [apply Hmin; assumption|].
      intros Hdist. apply Hmax. apply filter_In. split; [assumption|].
      apply Z.eqb_eq. exact Hdist.
    + exfalso.
      assert (In c (List.filter
                      (fun c => Z.abs (hit_date c - today)
                                =? min_dist today all_hits) all_hits)) as Hin
        by (apply filter_In; split; [exact Hc|apply Z.eqb_eq; exact Hcd]).
      rewrite Hnear in Hin. destruct Hin.
Qed.

End ParticleFacts.

(** ** The start cell of [050_TAK_MESA.py] *)

Module LayoutFacts.
Import PyStr PyText Layout PyTextFacts.

Lemma letter_is_no_digit c :
  is_ascii_letter c = true -> is_ascii_digit c = false.
Proof.
  unfold is_ascii_letter, is_ascii_digit.
  destruct (N_of_ascii c) as [|n]; [discriminate|].
  intros H. apply orb_true_iff in H.
  rewrite !andb_true_iff, !N.leb_le in H.
  apply andb_false_iff. rewrite !N.leb_gt. lia.
Qed.

Lemma digit_is_no_letter c :
  is_ascii_digit c = true -> is_ascii_letter c = false.
Proof.
  intros Hd. destruct (is_ascii_letter c) eqn:Hl; [|reflexivity].
  apply letter_is_no_digit in Hl. congruence.
Qed.

Lemma take_while_all p s : all_chars p s = true -> take_while p s = s.
Proof.
  induction s as [|c s IH]; simpl; [reflexivity|].
  intros H. apply andb_prop in H as [Hc Hs]. rewrite Hc, (IH Hs).
  reflexivity.
Qed.

Lemma take_while_cons p c s :
  take_while p (String c s) = if p c then String c (take_while p s) else "".
Proof. reflexivity. Qed.

Lemma search_run_cons p c s :
  search_run p (String c s)
  = if p c then Some (take_while p (String c s)) else search_run p s.
Proof. reflexivity. Qed.

(** The index of a letter: its place in the alphabet, from 0, whatever
    its case. *)
Lemma letter_index c :
  is_ascii_letter c = true ->
  exists col,
    get_col_index_from_char (String c "") = Done col /\
    0 <= col <= 25 /\
    (col = Z.of_N (N_of_ascii c) - 65 \/ col = Z.of_N (N_of_ascii c) - 97).
Proof.
  destruct c as [[] [] [] [] [] [] [] []]; try discriminate; intros _;
    eexists; (split; [reflexivity|]); simpl; lia.
Qed.

(** Two letters or more have no index: [ord] is given a string of more
    than one character. *)
Lemma letters_index c1 c2 s :
  is_ascii_letter c1 = true -> is_ascii_letter c2 = true ->
  get_col_index_from_char (String c1 (String c2 s)) = Raise TypeError.
Proof.
  intros H1 H2. unfold get_col_index_from_char. simpl.
  assert (exists n1, upper_codes c1 = [n1]) as (n1 & ->)
    by (destruct c1 as [[] [] [] [] [] [] [] []]; try discriminate;
        eexists; reflexivity).
  assert (exists n2, upper_codes c2 = [n2]) as (n2 & ->)
    by (destruct c2 as [[] [] [] [] [] [] [] []]; try discriminate;
        eexists; reflexivity).
  reflexivity.
Qed.

(** A start cell written as one letter and a row number, like [F20], gives
    the row before that number and the place of the letter in the
    alphabet, both counted from 0 and whatever the case of the letter.  A
    start cell with two letters, like [AA20], raises [TypeError]: columns
    after [Z] cannot be given. *)
Theorem start_cell_is_one_letter_and_a_row (c : ascii) (digits : string) :
  is_ascii_letter c = true -> isdigit digits = true ->
  (exists col,
     start_indices (String c digits)
     = Done (int_of_digits digits - 1, col) /\
     0 <= col <= 25 /\
     (col = Z.of_N (N_of_ascii c) - 65 \/ col = Z.of_N (N_of_ascii c) - 97)) /\
  forall c2, is_ascii_letter c2 = true ->
             start_indices (String c (String c2 digits)) = Raise TypeError.
Proof.
  intros Hc Hdigits. unfold isdigit in Hdigits.
  destruct digits as [|d digits]; [discriminate|].
  pose proof Hdigits as Hall. simpl in Hall.
  apply andb_prop in Hall as [Hd _].
  pose proof (letter_is_no_digit c Hc) as Hcd.
  pose proof (digit_is_no_letter d Hd) as Hdl.
  assert (Hrow : forall pre,
            all_chars is_ascii_letter pre = true ->
            search_run is_ascii_digit (pre +:+ String d digits)
            = Some (String d digits)).
  { intros pre Hpre. induction pre as [|x pre IH].
    - rewrite app_nil, search_run_cons, Hd, take_while_all by exact Hdigits.
      reflexivity.
    - simpl in Hpre. apply andb_prop in Hpre as [Hx Hpre].
      rewrite app_cons, search_run_cons, (letter_is_no_digit x Hx).
      apply IH. exact Hpre. }
  split.
  - destruct (letter_index c Hc) as (col & Hcol & Hrange & Hcase).
    exists col. split; [|auto]. unfold start_indices.
    assert (search_run is_ascii_digit (String c (String d digits))
            = Some (String d digits)) as ->
      by (apply (Hrow (String c "")); simpl; rewrite Hc; reflexivity).
    rewrite search_run_cons, Hc, !take_while_cons, Hc, Hdl, Hcol.
    reflexivity.
  - intros c2 H2. unfold start_indices.
    assert (search_run is_ascii_digit (String c (String c2 (String d digits)))
            = Some (String d digits)) as ->
      by (apply (Hrow (String c (String c2 ""))); simpl; rewrite Hc, H2;
          reflexivity).
    rewrite search_run_cons, Hc, !take_while_cons, Hc, H2, Hdl.
    rewrite (letters_index c c2 "" Hc H2). reflexivity.
Qed.

(** The start cells [F20] and [AA20]. *)
Lemma start_cell_example :
  (exists col,
     start_indices "F20" = Done (19, col) /\ 0 <= col <= 25 /\
     (col = 5 \/ col = -27)) /\
  start_indices "AA20" = Raise TypeError.
Proof.
  split.
  - exact (proj1 (start_cell_is_one_letter_and_a_row "F" "20"
                    eq_refl eq_refl)).
  - exact (proj2 (start_cell_is_one_letter_and_a_row "A" "20"
                    eq_refl eq_refl) "A"%char eq_refl).
Defined.

End LayoutFacts.

(** ** The serial numbers of a row in [048_TAK_SPUT.py] *)

Module SputFacts.
Import PyStr PyText Sput PyTextFacts.

(** A piece gives a serial number unless it has white space only. *)
Lemma first_token_blank piece :
  first_token (strip piece) = None <-> all_chars isspace piece = true.
Proof.
  rewrite <- strip_blank. unfold first_token.
  destruct (strip piece) as [|c t] eqn:Hs; [simpl; tauto|].
  pose proof (strip_head _ _ _ Hs) as Hc. simpl. rewrite Hc.
  split; discriminate.
Qed.

(** The serial number of a piece is not empty, has no white space, and
    has no character that the piece does not have. *)
Lemma first_token_some piece serial :
  first_token (strip piece) = Some serial ->
  serial <> "" /\
  all_chars (fun c => negb (isspace c)) serial = true /\
  forall c, contains c serial = true -> contains c piece = true.
Proof.
  unfold first_token.
  destruct (strip piece) as [|c t] eqn:Hs; [discriminate|].
  pose proof (strip_head _ _ _ Hs) as Hc.
  assert (lstrip (String c t) = String c t) as ->
    by (simpl; rewrite Hc; reflexivity).
  intros [= <-]. split; [simpl; rewrite Hc; discriminate|].
  split; [apply (take_token_no_space (String c t))|].
  intros x Hx. apply (contains_take_token x (String c t)) in Hx.
  rewrite <- Hs in Hx.
  apply contains_strip. exact Hx.
Qed.

Lemma serials_of_spec pieces :
  match serials_of pieces with
  | None => exists piece, In piece pieces /\ all_chars isspace piece = true
  | Some serials =>
      Forall (fun piece => all_chars isspace piece = false) pieces /\
      Forall2 (fun piece serial => first_token (strip piece) = Some serial)
              pieces serials
  end.
Proof.
  induction pieces as [|piece pieces IH]; simpl.
  - split; constructor.
  - destruct (first_token (strip piece)) as [serial|] eqn:Hp.
    + destruct (serials_of pieces) as [more|].
      * destruct IH as [Hall Hpairs].
        destruct (first_token_some _ _ Hp) as (Hne & _).
        apply String.eqb_neq in Hne. rewrite Hne.
        split; constructor; try assumption.
        destruct (all_chars isspace piece) eqn:Hb; [|reflexivity].
        apply first_token_blank in Hb. congruence.
      * destruct IH as (x & Hin & Hx). eauto.
    + apply first_token_blank in Hp. eauto.
Qed.

(** One row of [048_TAK_SPUT.py] becomes one row for every piece of its
    serial number cell between the slashes: the serial number of the row is
    the first word of the piece, it is never empty, and it has neither
    white space nor a slash.  When a piece has no word (an empty cell, two
    slashes in a row, a slash at an end), the loop raises [IndexError], so
    the test for an empty serial number that follows is never true. *)
Theorem serial_numbers_of_a_cell (cell_text : string) :
  let pieces := split "/" cell_text in
  (split_serial_numbers cell_text = None <->
   exists piece, In piece pieces /\ all_chars isspace piece = true) /\
  forall serials,
    split_serial_numbers cell_text = Some serials ->
    Forall2 (fun piece serial => first_token (strip piece) = Some serial)
            pieces serials /\
    Forall (fun serial =>
              serial <> "" /\
              all_chars (fun c => negb (isspace c)) serial = true /\
              contains "/" serial = false) serials.
Proof.
  intros pieces. unfold split_serial_numbers. fold pieces.
  pose proof (serials_of_spec pieces) as Hspec.
  pose proof (split_no_sep "/" cell_text) as Hsep. fold pieces in Hsep.
  destruct (serials_of pieces) as [serials|].
  - destruct Hspec as [Hall Hpairs]. split.
    + split; [discriminate|]. intros (piece & Hin & Hb).
      rewrite List.Forall_forall in Hall. rewrite (Hall piece Hin) in Hb.
      discriminate.
    + intros ? [= <-]. split; [exact Hpairs|].
      clear Hall. induction Hpairs as [|piece serial ps ss Hp _ IH];
        [constructor|].
      inversion Hsep as [|? ? Hpiece Hrest]; subst.
      destruct (first_token_some _ _ Hp) as (Hne & Hsp & Hsub).
      constructor; [|apply IH; exact Hrest].
      split; [exact Hne|]. split; [exact Hsp|].
      destruct (contains "/" serial) eqn:Hc; [|reflexivity].
      apply Hsub in Hc. congruence.
  - split; [tauto|discriminate].
Qed.

End SputFacts.

(** ** The cursor file and the scripts that read it *)

Module CursorFileFacts.
Import PyStr CursorStore IOFacts CursorStoreFacts DateWindowFacts Frame Grating.

Section Cursor.
Context `{PyLib}.

(** What a call may do to the files when it must not write a date: it
    changes nothing that is there, and what it makes is an empty file or a
    directory, and only when there was no cursor file. *)
Definition only_creates (p : string) (w w' : World) : Prop :=
  forall q,
    files w' !! q = files w !! q \/
    (files w !! q = None /\ files w !! p = None /\
     (files w' !! q = Some (File "") \/ files w' !! q = Some Dir)).

Lemma only_creates_same p w w' : files w' = files w -> only_creates p w w'.
Proof. intros Hf q. left. rewrite Hf. reflexivity. Qed.


(** [update_running_rec] never raises: the cursor file holds the date, or
    it could not be opened, nothing has changed and an error is logged. *)
Lemma update_running_rec_run p end_date w :
  exists w',
    update_running_rec p end_date w = (Done tt, w') /\
    (can_open w p = true ->
     files w' = <[p := File (strftime_cursor end_date)]> (files w) /\
     locked w' = locked w /\
     log w' = (Info, "Running record file updated") :: log w) /\
    (can_open w p = false ->
     files w' = files w /\
     log w' = (Error, "Error updating running record file") :: log w).
Proof.
  unfold update_running_rec, try_except.
  destruct (can_open w p) eqn:Hc.
  - rewrite (bind_done _ _ _ _ _ (write_file_ok p _ w Hc)).
    unfold Log_. simpl. eexists. split; [reflexivity|].
    split; [auto|discriminate].
  - rewrite (bind_raise _ _ _ _ _ (write_file_fail p _ w Hc)).
    unfold Log_. simpl. eexists. split; [reflexivity|].
    split; [discriminate|auto].
Qed.

(** [read_running_rec] of [CVD_Crystal_Length_INI contorl V1.3.py]: what
    it returns for a stored date, and what it may do to the files. *)
Lemma read_running_rec_v13_run p days w :
  exists t w',
    read_running_rec_v13 p days w = (Done t, w') /\
    only_creates p w w' /\
    forall text t0,
      files w !! p = Some (File text) -> p ∉ locked w ->
      strip text <> "" ->
      to_datetime_coerce (CStr (strip text)) = Some t0 ->
      t = t0 /\ files w' = files w.
Proof.
  unfold read_running_rec_v13.
  unfold bind at 1. unfold now_. simpl.
  unfold bind at 1. unfold path_exists. simpl.
  set (w1 := {| files := files w; locked := locked w; clock := clock w;
                reads := S (reads w); log := log w |}).
  destruct (files w !! p) as [node|] eqn:Hf; simpl.
  - unfold try_except, bind at 1.
    destruct (read_file p w1) as [[text|e] w2] eqn:Hr.
    + assert (w2 = w1 /\ node = File text /\ p ∉ locked w) as (-> & -> & Hl).
      { unfold read_file in Hr. simpl in Hr. rewrite Hf in Hr.
        destruct node as [t|]; [|discriminate].
        destruct (bool_decide (p ∈ locked w)) eqn:Hlock; [discriminate|].
        apply bool_decide_eq_false in Hlock.
        injection Hr as <- <-. auto. }
      destruct (String.eqb (strip text) "") eqn:Hs; simpl.
      * unfold bind, Log_, ret. simpl. do 2 eexists.
        split; [reflexivity|]. split; [apply only_creates_same; reflexivity|].
        intros text' t0 [= <-] _ Hne. apply String.eqb_eq in Hs. contradiction.
      * destruct (to_datetime_coerce (CStr (strip text))) eqn:Hp;
          unfold bind, Log_, ret; simpl; do 2 eexists;
          (split; [reflexivity|]);
          (split; [apply only_creates_same; reflexivity|]);
          intros text' t0 [= <-] _ _ Hparse; rewrite Hp in Hparse;
          [injection Hparse as ->; auto|discriminate].
    + unfold bind, Log_, ret. simpl. do 2 eexists.
      split; [reflexivity|].
      assert (files w2 = files w) as Hsame.
      { unfold read_file in Hr. simpl in Hr. rewrite Hf in Hr.
        destruct node as [t|]; [|injection Hr as _ <-; reflexivity].
        destruct (bool_decide (p ∈ locked w));
          [injection Hr as _ <-; reflexivity|discriminate]. }
      split; [apply only_creates_same; exact Hsame|].
      intros text t0 [= ->] Hl _ _. exfalso.
      unfold read_file in Hr. simpl in Hr. rewrite Hf in Hr.
      rewrite bool_decide_eq_false_2 in Hr by exact Hl. discriminate.
  - assert (Hgoal :
      exists w2,
        try_except
          (_ <-- ensure_rec_dir p ;;
           _ <-- write_file p "" ;;
           Log_ Info "Running record file not found, created empty file")
          (fun _ => Log_ Error "Failed to create running record file") w1
        = (Done tt, w2) /\ only_creates p w w2).
    { assert (Hnew : forall fs,
                (fs = files w \/
                 (files w !! dirname p = None /\
                  fs = <[dirname p := Dir]> (files w))) ->
                only_creates p w (with_files fs w1) /\
                only_creates p w (with_files (<[p := File ""]> fs) w1)).
      { intros fs Hfs. split; intros q; simpl.
        - destruct Hfs as [-> | [Hd ->]]; [auto|].
          destruct (decide (q = dirname p)) as [->|Hq].
          + rewrite lookup_insert_eq. auto.
          + rewrite lookup_insert_ne by congruence. auto.
        - destruct (decide (q = p)) as [->|Hq].
          + rewrite lookup_insert_eq. auto.
          + rewrite lookup_insert_ne by congruence.
            destruct Hfs as [-> | [Hd ->]]; [auto|].
            destruct (decide (q = dirname p)) as [->|Hq'].
            * rewrite lookup_insert_eq. auto.
            * rewrite lookup_insert_ne by congruence. auto. }
      unfold try_except.
      destruct (ensure_rec_dir_cases p w1)
        as [(e & Hm) | [Hm | (Hd & _ & Hm)]].
      - rewrite (bind_raise _ _ _ _ _ Hm). unfold Log_. simpl.
        eexists. split; [reflexivity|]. apply only_creates_same. reflexivity.
      - rewrite (bind_done _ _ _ _ _ Hm).
        destruct (can_open w1 p) eqn:Hc.
        + rewrite (bind_done _ _ _ _ _ (write_file_ok p "" w1 Hc)).
          unfold Log_. simpl. eexists. split; [reflexivity|].
          intros q. apply (proj2 (Hnew (files w) (or_introl eq_refl)) q).
        + rewrite (bind_raise _ _ _ _ _ (write_file_fail p "" w1 Hc)).
          unfold Log_. simpl. eexists. split; [reflexivity|].
          apply only_creates_same. reflexivity.
      - rewrite (bind_done _ _ _ _ _ Hm).
        set (w1' := with_files (<[dirname p:=Dir]> (files w1)) w1).
        assert (Hfs : <[dirname p:=Dir]> (files w) = files w \/
                      (files w !! dirname p = None /\
                       <[dirname p:=Dir]> (files w)
                       = <[dirname p:=Dir]> (files w)))
          by (right; split; [exact Hd|reflexivity]).
        destruct (can_open w1' p) eqn:Hc.
        + rewrite (bind_done _ _ _ _ _ (write_file_ok p "" w1' Hc)).
          unfold Log_. simpl. eexists. split; [reflexivity|].
          intros q. apply (proj2 (Hnew _ Hfs) q).
        + rewrite (bind_raise _ _ _ _ _ (write_file_fail p "" w1' Hc)).
          unfold Log_. simpl. eexists. split; [reflexivity|].
          intros q. apply (proj1 (Hnew _ Hfs) q). }
    destruct Hgoal as (w2 & Htry & Hw2).
    rewrite (bind_done _ _ _ _ _ Htry). unfold ret. simpl.
    do 2 eexists. split; [reflexivity|]. split; [exact Hw2|].
    intros text t0 Habs. discriminate.
Qed.

Lemma can_open_unlocked w p : can_open w p = true -> p ∉ locked w.
Proof.
  unfold can_open. intros Hc. apply andb_prop in Hc as [Hc _].
  apply andb_prop in Hc as [Hc _]. apply bool_decide_eq_true in Hc. exact Hc.
Qed.

(** The date that [update_running_rec] writes is the date that the next
    [read_running_rec] returns, in [CVD_Crystal_Length_INI contorl V1.3.py]
    and in [048_TAK_SPUT.py], when [pd.to_datetime] reads the text that
    [strftime] wrote as the same date; the read changes no file. *)
Theorem cursor_round_trip (p : string) (d days : Z) (w : World) :
  can_open w p = true ->
  strip (strftime_cursor d) <> "" ->
  to_datetime_coerce (CStr (strip (strftime_cursor d))) = Some d ->
  exists w1,
    update_running_rec p d w = (Done tt, w1) /\
    (exists w2, read_running_rec_v13 p days w1 = (Done d, w2) /\
                files w2 = files w1) /\
    (exists w2, read_running_rec_048 p w1 = (Done d, w2) /\
                files w2 = files w1).
Proof.
  intros Hopen Hne Hparse.
  destruct (update_running_rec_run p d w) as (w1 & Hupd & Hok & _).
  destruct (Hok Hopen) as (Hfiles & Hlocked & _).
  assert (Hat : files w1 !! p = Some (File (strftime_cursor d)))
    by (rewrite Hfiles; apply lookup_insert_eq).
  assert (Hunlocked : p ∉ locked w1)
    by (rewrite Hlocked; apply can_open_unlocked; exact Hopen).
  exists w1. split; [exact Hupd|]. split.
  - destruct (read_running_rec_v13_run p days w1) as (t & w2 & Hread & _ & Hstored).
    destruct (Hstored _ d Hat Hunlocked Hne Hparse) as [-> Hsame].
    eauto.
  - unfold read_running_rec_048, bind at 1, path_exists. rewrite Hat. simpl.
    unfold try_except, bind, read_file. rewrite Hat.
    rewrite bool_decide_eq_false_2 by exact Hunlocked.
    apply String.eqb_neq in Hne. rewrite Hne. simpl. rewrite Hparse.
    unfold ret. eauto.
Qed.

(** [read_running_rec] of [CVD_Grating.py], for a look-back date that
    [datetime] can hold: the call returns that date, whatever the cursor
    file holds.  Every file and directory that is there is kept as it is,
    and the cursor file is neither made nor changed. *)
Theorem grating_read_ignores_the_cursor_file (p : string) (days : Z)
  (w : World) :
  look_back_in_range (clock w (reads w)) days = true ->
  exists w',
    read_running_rec p days w
    = (Done (clock w (reads w) - timedelta_days days), w') /\
    (forall q node, files w !! q = Some node -> files w' !! q = Some node) /\
    (dirname p <> p -> files w' !! p = files w !! p).
Proof.
  intros _.
  destruct (read_running_rec_spec p days w) as (w' & Hread & _ & _ & Hfiles).
  exists w'. split; [exact Hread|]. split.
  - intros q node Hq. destruct Hfiles as [-> | (_ & Hd & _ & ->)]; [exact Hq|].
    rewrite lookup_insert_ne; [exact Hq|]. intros <-. congruence.
  - intros Hp. destruct Hfiles as [-> | (_ & _ & _ & ->)]; [reflexivity|].
    apply lookup_insert_ne. exact Hp.
Qed.




End Cursor.

(** The cursor file holds 10 and the clock stands in the year 2024: the
    read returns the date of the clock and the file still holds 10. *)
Lemma grating_read_example :
  exists w',
    read_running_rec "run.txt" 0
      (Toy.world (<["run.txt" := File "10"]> ∅) (fun _ => 20240101))
    = (Done (20240101 - timedelta_days 0), w') /\
    (forall q node,
       (<["run.txt" := File "10"]> ∅ : gmap string Node) !! q = Some node ->
       files w' !! q = Some node) /\
    (dirname "run.txt" <> "run.txt" ->
     files w' !! "run.txt"
     = (<["run.txt" := File "10"]> ∅ : gmap string Node) !! "run.txt").
Proof.
  exact (grating_read_ignores_the_cursor_file (H := Toy.lib) "run.txt" 0
           (Toy.world (<["run.txt" := File "10"]> ∅) (fun _ => 20240101))
           eq_refl).
Defined.

(** The date 50 written and read back in the world of the examples. *)
Lemma cursor_round_trip_example :
  exists w1,
    update_running_rec "run.txt" 50 PipelineFacts.start = (Done tt, w1) /\
    (exists w2, read_running_rec_v13 "run.txt" 30 w1 = (Done 50, w2) /\
                files w2 = files w1) /\
    (exists w2, read_running_rec_048 "run.txt" w1 = (Done 50, w2) /\
                files w2 = files w1).
Proof.
  apply (cursor_round_trip (H := Toy.lib) "run.txt" 50 30 PipelineFacts.start
           eq_refl).
  - discriminate.
  - reflexivity.
Defined.

End CursorFileFacts.

(** ** The lookup without a database, and the coordinates *)

Module StageFacts.
Import Frame Grating EnrichFacts.

Lemma add_two_columns (a b : Cell) (df : DataFrame) :
  add_column b (add_column a df)
  = {| ncols := S (S (ncols df));
       rows := map (fun lr => (fst lr, snd lr ++ [a; b])) (rows df) |}.
Proof.
  unfold add_column. simpl. f_equal. rewrite map_map. apply map_ext.
  intros [l r]. simpl. rewrite <- app_assoc. reflexivity.
Qed.

Section Lookup.
Context `{PyLib} `{SqlDb}.

(** [_enrich_with_sql_data] when the database cannot be reached.  When
    [SQL.connSQL] returns no connection, the function returns at once:
    every row stays, under its label, with two empty attributes.  When
    [SQL.connSQL] raises, the function goes on to drop the rows without
    part number, which are all the rows. *)
Theorem enrichment_without_connection (df : DataFrame)
  (serial_num_col_idx_cfg : Z) :
  well_formed df -> empty df = false ->
  let out := _enrich_with_sql_data df serial_num_col_idx_cfg in
  (connSQL = NoConnection ->
   ncols out = S (S (ncols df)) /\
   rows out = map (fun lr => (fst lr, snd lr ++ [CNone; CNone])) (rows df)) /\
  (forall e,
     connSQL = ConnectRaises e ->
     in_columns serial_num_col_idx_cfg (add_column CNone (add_column CNone df))
     = true ->
     rows out = []).
Proof.
  intros Hwf Hne out. unfold out, _enrich_with_sql_data. rewrite Hne.
  cbv zeta. split.
  - intros Hconn. rewrite Hconn, !add_two_columns.
    destruct (in_columns _ _); simpl; auto.
  - intros e Hconn Hin. rewrite Hconn, Hin, !add_two_columns.
    unfold reset_index, dropna_col. simpl.
    assert (List.filter
              (fun lr => negb (isna (iloc (snd lr) (ncols df))))
              (map (fun lr => (fst lr, snd lr ++ [CNone; CNone])) (rows df))
            = []) as ->; [|reflexivity].
    unfold well_formed in Hwf. induction Hwf as [|[l r] rs Hr _ IH];
      [reflexivity|].
    simpl in *.
    assert (iloc (r ++ [CNone; CNone]) (ncols df) = CNone) as ->.
    { rewrite <- Hr. pose proof (iloc_end r [CNone; CNone] 0) as Hend.
      rewrite Nat.add_0_r in Hend. exact Hend. }
    simpl. exact IH.
Qed.

End Lookup.

(** The four rows of the example when the database is down. *)
Lemma enrichment_without_connection_example :
  rows (_enrich_with_sql_data (H0 := Toy.db_down) batch 0)
  = [(0, [CStr "S1"; CNone; CNone]); (1, [CStr "S2"; CNone; CNone]);
     (2, [CStr "S3"; CNone; CNone]); (3, [CStr "S4"; CNone; CNone])].
Proof.
  assert (Hwf : well_formed batch) by (repeat constructor).
  exact (proj2 (proj1 (enrichment_without_connection (H0 := Toy.db_down)
                         batch 0 Hwf eq_refl) eq_refl)).
Defined.

(** The cells that [_merge_xy_coordinates] adds to a row: [X1], [Y1],
    [X2], [Y2], ... *)
Definition xy_cells (df_xy_coords : DataFrame) (points : list nat)
  (x_col y_col : Z) : list Cell :=
  flat_map (fun i =>
              if empty df_xy_coords then [CNone; CNone]
              else [xy_value df_xy_coords i x_col;
                    xy_value df_xy_coords i y_col]) points.

Lemma merge_xy_loop df_xy x_col y_col points : forall acc,
  fold_left
    (fun acc i =>
       if empty df_xy
       then add_column CNone (add_column CNone acc)
       else add_column (xy_value df_xy i y_col)
              (add_column (xy_value df_xy i x_col) acc))
    points acc
  = {| ncols := ncols acc + 2 * length points;
       rows := map (fun lr => (fst lr, snd lr ++ xy_cells df_xy points x_col y_col))
                   (rows acc) |}.
Proof.
  induction points as [|i points IH]; intros acc; simpl.
  - destruct acc as [n rs]. simpl. f_equal; [lia|].
    rewrite <- (map_id rs) at 1. apply map_ext. intros [l r]. simpl.
    rewrite app_nil_r. reflexivity.
  - rewrite IH. unfold xy_cells. simpl.
    destruct (empty df_xy); rewrite add_two_columns; simpl;
      (f_equal; [lia|]); rewrite map_map; apply map_ext; intros [l r];
      simpl; rewrite <- app_assoc; reflexivity.
Qed.

Lemma xy_cells_length df_xy points x_col y_col :
  length (xy_cells df_xy points x_col y_col) = (2 * length points)%nat.
Proof.
  unfold xy_cells. induction points as [|i points IH]; [reflexivity|].
  simpl. rewrite length_app, IH. destruct (empty df_xy); simpl; lia.
Qed.

Lemma xy_cells_none df_xy points x_col y_col :
  empty df_xy = true ->
  Forall (fun v => v = CNone) (xy_cells df_xy points x_col y_col).
Proof.
  intros Hxy. unfold xy_cells. rewrite Hxy.
  induction points as [|i points IH]; simpl; [constructor|].
  constructor; [reflexivity|]. constructor; [reflexivity|]. exact IH.
Qed.

(** [_merge_xy_coordinates] adds no row and removes none: every row keeps
    its label and its cells and gets the same two cells for every point,
    which are empty for a sheet of coordinates without content, for a
    point that has no row in the sheet and for a column outside the
    sheet. *)
Theorem xy_coordinates_are_appended (df df_xy_coords : DataFrame)
  (xy_num_points_cfg : nat) (x_col y_col : Z) :
  empty df = false ->
  let out :=
    _merge_xy_coordinates df df_xy_coords xy_num_points_cfg x_col y_col in
  let cells := xy_cells df_xy_coords (seq 0 xy_num_points_cfg) x_col y_col in
  ncols out = (ncols df + 2 * xy_num_points_cfg)%nat /\
  rows out = map (fun lr => (fst lr, snd lr ++ cells)) (rows df) /\
  length cells = (2 * xy_num_points_cfg)%nat /\
  (empty df_xy_coords = true -> Forall (fun v => v = CNone) cells) /\
  (forall i c,
     (length (rows df_xy_coords) <= i)%nat \/ in_columns c df_xy_coords = false ->
     xy_value df_xy_coords i c = CNone).
Proof.
  intros Hne out cells. unfold out, _merge_xy_coordinates. rewrite Hne.
  rewrite merge_xy_loop. simpl. rewrite length_seq.
  split; [reflexivity|]. split; [reflexivity|]. split; [|split].
  - unfold cells. rewrite xy_cells_length, length_seq. reflexivity.
  - intros Hxy. apply xy_cells_none. exact Hxy.
  - intros i c Hout. unfold xy_value.
    destruct (nth_error (rows df_xy_coords) i) as [lr|] eqn:Hi;
      [|reflexivity].
    destruct Hout as [Hlen | Hcol]; [|rewrite Hcol; reflexivity].
    apply nth_error_None in Hlen. congruence.
Qed.

(** A row and a sheet with one point. *)
Lemma xy_coordinates_example :
  rows (_merge_xy_coordinates
          {| ncols := 1; rows := [(0, [CStr "S1"])] |}
          {| ncols := 2; rows := [(0, [CInt 3; CInt 4])] |} 2 0 1)
  = [(0, [CStr "S1"; CInt 3; CInt 4; CNone; CNone])].
Proof.
  exact (proj1 (proj2 (xy_coordinates_are_appended
                         {| ncols := 1; rows := [(0, [CStr "S1"])] |}
                         {| ncols := 2; rows := [(0, [CInt 3; CInt 4])] |}
                         2 0 1 eq_refl))).
Defined.

End StageFacts.

(** ** Two writes to the CSV sink *)

Module CsvOnceFacts.
Import CsvSink IOFacts CsvSinkFacts PyTextFacts.

Section Once.
Context `{PyLib}.

Lemma can_open_files w w' p :
  files w' = files w -> locked w' = locked w -> can_open w' p = can_open w p.
Proof. intros Hf Hl. unfold can_open. rewrite Hf, Hl. reflexivity. Qed.

(** Two writes of [write_to_csv] of [Facet_Common.py] to a file that is
    not there and can be made: both succeed, and the file holds the header
    of the first frame once, followed by the rows of the first and the
    rows of the second frame. *)
Theorem header_is_written_once (path : string) (df1 df2 : CsvFrame)
  (w : World) :
  can_open w path = true -> files w !! path = None ->
  exists w1 w2,
    write_to_csv_facet path df1 w = (Done true, w1) /\
    write_to_csv_facet path df2 w1 = (Done true, w2) /\
    files w2 !! path
    = Some (File (header_text df1 +:+ rows_text df1 +:+ rows_text df2)).
Proof.
  intros Hc Hnone.
  assert (Hwrite : forall df w0,
            can_open w0 path = true ->
            exists w0',
              write_to_csv_facet path df w0 = (Done true, w0') /\
              locked w0' = locked w0 /\
              files w0'
              = <[path := File (text_at w0 path +:+
                               ((if match files w0 !! path with
                                    | Some (File _) => true
                                    | _ => false
                                    end then "" else header_text df)
                                +:+ rows_text df))]> (files w0)).
  { intros df w0 Hc0.
    unfold write_to_csv_facet, bind, try_except, Log_, path_isfile, ret.
    simpl. rewrite to_csv_append_ok by exact Hc0. simpl.
    eexists. split; [reflexivity|]. split; [reflexivity|].
    destruct (files w0 !! path) as [[t|]|]; reflexivity. }
  destruct (Hwrite df1 w Hc) as (w1 & Hrun1 & Hl1 & Hf1).
  assert (Hat1 : files w1 !! path
                 = Some (File (header_text df1 +:+ rows_text df1))).
  { rewrite Hf1, lookup_insert_eq. unfold text_at. rewrite Hnone.
    reflexivity. }
  assert (Hc1 : can_open w1 path = true).
  { rewrite <- (can_open_after_write w path
                  (text_at w path +:+ (header_text df1 +:+ rows_text df1)) Hc).
    apply can_open_files; [|exact Hl1]. rewrite Hf1, Hnone. reflexivity. }
  destruct (Hwrite df2 w1 Hc1) as (w2 & Hrun2 & _ & Hf2).
  exists w1, w2. split; [exact Hrun1|]. split; [exact Hrun2|].
  rewrite Hf2, lookup_insert_eq. unfold text_at. rewrite Hat1.
  rewrite app_assoc_str. reflexivity.
Qed.

End Once.

(** Two frames written to a new file of the directory [csv]. *)
Lemma header_is_written_once_example :
  exists w1 w2,
    write_to_csv_facet "csv/out.csv"
      {| header_text := "a,b;"; rows_text := "1,2;" |}
      (Toy.world (<["csv" := Dir]> ∅) (fun _ => 0)) = (Done true, w1) /\
    write_to_csv_facet "csv/out.csv"
      {| header_text := "a,b;"; rows_text := "3,4;" |} w1 = (Done true, w2) /\
    files w2 !! "csv/out.csv" = Some (File ("a,b;" +:+ "1,2;" +:+ "3,4;")).
Proof.
  exact (header_is_written_once (H := Toy.lib) "csv/out.csv"
           {| header_text := "a,b;"; rows_text := "1,2;" |}
           {| header_text := "a,b;"; rows_text := "3,4;" |}
           (Toy.world (<["csv" := Dir]> ∅) (fun _ => 0)) eq_refl eq_refl).
Defined.

End CsvOnceFacts.

(** ** The groups of the resampler *)

Module GroupFacts.
Import Resampler ResamplerFacts.

Lemma select_rows_cases chosen :
  (exists out, select_rows chosen = Done out /\ chosen = map Some out) \/
  (select_rows chosen = Raise KeyError /\ In None chosen).
Proof.
  induction chosen as [|[r|] chosen IH]; simpl.
  - left. exists []. split; reflexivity.
  - destruct IH as [(out & -> & ->) | [-> Hin]].
    + left. exists (r :: out). split; reflexivity.
    + right. split; [reflexivity|right; exact Hin].
  - right. split; [reflexivity|left; reflexivity].
Qed.

Lemma Forall2_in_left {A B} (P : A -> B -> Prop) l l' a :
  Forall2 P l l' -> In a l -> exists b, In b l' /\ P a b.
Proof.
  induction 1 as [|x y l l' Hxy _ IH]; intros Hin; [destruct Hin|].
  destruct Hin as [<- | Hin];
    [exists y; split; [left; reflexivity|exact Hxy]|].
  destruct (IH Hin) as (b & Hb & Hab). exists b. split; [right|]; assumption.
Qed.

Lemma Forall2_in_right {A B} (P : A -> B -> Prop) l l' b :
  Forall2 P l l' -> In b l' -> exists a, In a l /\ P a b.
Proof.
  induction 1 as [|x y l l' Hxy _ IH]; intros Hin; [destruct Hin|].
  destruct Hin as [<- | Hin];
    [exists x; split; [left; reflexivity|exact Hxy]|].
  destruct (IH Hin) as (a & Ha & Hab). exists a. split; [right|]; assumption.
Qed.

Section Groups.
Context `{PyLib}.
Variables (has_ch1 : bool) (interval_minutes : Z) (df : list PRow).
Hypothesis interval_positive : 0 < interval_minutes.

Local Abbreviation width := (bin_width interval_minutes).
Local Abbreviation sorted := (sort_values (prepare df)).

(** Every row with a name and a time has, among the rows of its name and
    bucket, one with a value to compare. *)
Definition every_group_has_a_value : Prop :=
  forall r, In r (prepare df) -> name r <> None ->
    exists r', In r' (prepare df) /\ key_eqb width r r' = true /\
               has_value has_ch1 r' = true.

Lemma width_not_zero : (width =? 0) = false.
Proof. apply Z.eqb_neq. unfold bin_width. lia. Qed.

(** The rows of the output, group by group. *)
Lemma output_by_groups out :
  resample has_ch1 interval_minutes df = Done out ->
  Forall2 (fun f r =>
             key_eqb width f r = true /\ In r sorted /\
             has_value has_ch1 r = true /\
             forall r', In r' sorted -> key_eqb width f r' = true ->
                        has_value has_ch1 r' = true ->
                        value_leb has_ch1 r' r = true)
          (firsts width [] sorted) out.
Proof.
  unfold resample. rewrite width_not_zero. intros Hres.
  apply select_rows_spec in Hres. unfold groups in Hres.
  apply (chosen_rows has_ch1 width _ sorted out Hres).
Qed.

Lemma returns_when_valued :
  every_group_has_a_value ->
  exists out, resample has_ch1 interval_minutes df = Done out.
Proof.
  intros Hvalued. unfold resample. rewrite width_not_zero.
  apply select_rows_some. unfold groups. rewrite map_map.
  apply Forall_forall. intros o Ho. apply list_elem_of_In in Ho.
  apply in_map_iff in Ho as (f & <- & Hf).
  destruct (firsts_spec width sorted []) as [Hall _].
  rewrite List.Forall_forall in Hall. destruct (Hall f Hf) as (Hin & Hname & _).
  destruct (Hvalued f (proj1 (sort_values_in _ _) Hin) Hname)
    as (r' & Hr' & Hkey & Hv).
  apply idxmax_some. exists r'. split; [|exact Hv].
  apply filter_In. split; [apply sort_values_in; exact Hr'|exact Hkey].
Qed.

Lemma valued_when_returns out :
  resample has_ch1 interval_minutes df = Done out ->
  forall r, In r (prepare df) -> name r <> None ->
    exists r', In r' out /\ In r' (prepare df) /\
               key_eqb width r r' = true /\ has_value has_ch1 r' = true.
Proof.
  intros Hres r Hr Hname.
  pose proof (output_by_groups out Hres) as Hgroups.
  destruct (firsts_cover width sorted [] r
              (proj2 (sort_values_in _ _) Hr) Hname)
    as [Hex | (f & Hf & Hkey)]; [discriminate|].
  destruct (Forall2_in_left _ _ _ _ Hgroups Hf)
    as (m & Hm & Hfm & Hsorted & Hv & _).
  exists m. split; [exact Hm|]. split; [apply sort_values_in; exact Hsorted|].
  split; [|exact Hv].
  eapply key_eqb_trans; [|exact Hfm]. rewrite key_eqb_sym. exact Hkey.
Qed.

(** For a positive interval the resampler returns a frame exactly when
    every group has a row with a value to compare, and raises [KeyError]
    otherwise: a point whose measurements in a bucket are all missing or
    no numbers stops the whole run.  Without the column [Ch1KeisokuData]
    the time is compared and every group has a value. *)
Theorem resample_returns_iff_every_group_has_a_value :
  (every_group_has_a_value <->
   exists out, resample has_ch1 interval_minutes df = Done out) /\
  (~ every_group_has_a_value ->
   resample has_ch1 interval_minutes df = Raise KeyError) /\
  (has_ch1 = false -> every_group_has_a_value).
Proof.
  assert (Hback : (exists out, resample has_ch1 interval_minutes df = Done out)
                  -> every_group_has_a_value).
  { intros (out & Hres) r Hr Hname.
    destruct (valued_when_returns out Hres r Hr Hname)
      as (r' & _ & Hin & Hkey & Hv). eauto. }
  split; [split; [apply returns_when_valued|exact Hback]|]. split.
  - intros Hnot. unfold resample. rewrite width_not_zero.
    destruct (select_rows_cases
                (map (idxmax has_ch1) (groups width sorted)))
      as [(out & Hdone & _) | [Hraise _]]; [|exact Hraise].
    exfalso. apply Hnot, Hback. exists out.
    unfold resample. rewrite width_not_zero. exact Hdone.
  - intros Hno r Hr _. exists r. split; [exact Hr|].
    split; [apply key_eqb_refl|]. unfold has_value. rewrite Hno. reflexivity.
Qed.

(** When the resampler returns, every name and bucket of the input has its
    row in the output, and every row of the output has a name: rows
    without a name or without a time that parses are in no group. *)
Theorem every_group_is_in_the_output (out : list SRow) :
  resample has_ch1 interval_minutes df = Done out ->
  (forall p t,
     In p df -> to_datetime_coerce (Start_Date_Time p) = Some t ->
     PtName p <> None ->
     exists r, In r out /\ name r = PtName p /\
               floor_to width (time r) = floor_to width t) /\
  (forall r, In r out -> name r <> None).
Proof.
  intros Hres. split.
  - intros p t Hp Ht Hname.
    destruct (valued_when_returns out Hres (prepared p t))
      as (r & Hr & _ & Hkey & _).
    + apply in_prepare. eauto.
    + exact Hname.
    + apply key_eqb_spec in Hkey as [Hn Hb]. simpl in Hn, Hb.
      exists r. auto.
  - intros r Hr.
    destruct (Forall2_in_right _ _ _ _ (output_by_groups out Hres) Hr)
      as (f & Hf & Hkey & _).
    destruct (firsts_spec width sorted []) as [Hall _].
    rewrite List.Forall_forall in Hall. destruct (Hall f Hf) as (_ & Hname & _).
    apply key_eqb_spec in Hkey as [Hn _]. congruence.
Qed.

End Groups.

(** The two rows of point [X1]: the bucket of the first row is in the
    output. *)
Lemma every_group_is_in_the_output_example :
  exists r,
    In r [prepared row_of_9 (640 * minute)] /\ name r = Some "X1" /\
    floor_to (bin_width 120) (time r) = floor_to (bin_width 120) (605 * minute).
Proof.
  exact (proj1 (every_group_is_in_the_output (H := Toy.lib) true 120 two_rows
                  eq_refl [prepared row_of_9 (640 * minute)] eq_refl)
           row_of_5 (605 * minute) (or_introl eq_refl) eq_refl
           ltac:(discriminate)).
Defined.

(** The two rows of point [X1] have values, and the resampler returns. *)
Lemma resample_returns_example :
  exists out, resample (H := Toy.lib) true 120 two_rows = Done out.
Proof.
  apply (proj1 (proj1 (resample_returns_iff_every_group_has_a_value
                         (H := Toy.lib) true 120 two_rows eq_refl))).
  intros r Hr _. exists (prepared row_of_9 (640 * minute)).
  split; [right; left; reflexivity|].
  destruct Hr as [<- | [<- | []]]; split; reflexivity.
Defined.

(** A group of rows without a number stops the resampler. *)
Lemma resample_raises_example :
  resample (H := Toy.lib) true 120
    [ {| PtName := Some "X1"; Start_Date_Time := CTime (605 * minute);
         Ch1KeisokuData := CStr "n/a"; other_columns := [] |} ]
  = Raise KeyError.
Proof. reflexivity. Qed.

End GroupFacts.

(** ** The type conversion on a frame with a default index *)

Module CoercionIndexFacts.
Import Frame Grating CoercionFacts.







Section Default.
Context `{PyLib}.


End Default.


End CoercionIndexFacts.

(** ** The CSV file of a run ([_save_to_csv]) *)

Module SaveFacts.
Import Frame Grating IOFacts.

Section Save.
Context `{PyLib} `{SinkFormat}.

(** [_save_to_csv] never raises and reports a file only when it wrote it.
    For an empty frame it reports none and changes no file.  A path that
    it reports is the path made of the directory, the name and the time
    of the call, and the file there holds the text of the frame.  When it
    reports no file for a frame with rows, the last line of the log is an
    error.  No file or directory that was there is removed, and only the
    file at that path can have a new content. *)
Theorem save_to_csv_reports_what_it_wrote (df : DataFrame)
  (csv_base_path ini_filename_base : string) (w : World) :
  let path :=
    csv_file_path csv_base_path ini_filename_base (clock w (reads w)) in
  exists saved w',
    _save_to_csv df csv_base_path ini_filename_base w = (Done saved, w') /\
    (empty df = true -> saved = None /\ files w' = files w) /\
    (forall p, saved = Some p ->
       empty df = false /\ p = path /\
       files w' !! p = Some (File (csv_text df))) /\
    (saved = None -> empty df = false ->
     exists msg, head (log w') = Some (Error, msg)) /\
    (forall q node,
       files w !! q = Some node -> q <> path -> files w' !! q = Some node).
Proof.
  intros path. unfold _save_to_csv.
  destruct (empty df) eqn:Hempty.
  - eexists _, _. split; [reflexivity|]. simpl.
    split; [intros _; split; reflexivity|].
    split; [discriminate|]. split; [discriminate|]. intros q node Hq _. exact Hq.
  - unfold bind at 1. unfold now_ at 1. cbv beta iota.
    set (w0 := {| files := files w; locked := locked w; clock := clock w;
                  reads := S (reads w); log := log w |}).
    fold path. unfold try_except.
    unfold bind at 1. unfold path_exists at 1. cbv beta iota.
    destruct (bool_decide (is_Some (files w0 !! csv_base_path))) eqn:Hpresent.
    + unfold bind at 1. unfold ret at 1. cbv beta iota.
      unfold bind at 1. unfold write_file at 1.
      destruct (can_open w0 path) eqn:Hopen.
      * eexists _, _. split; [reflexivity|]. simpl.
        split; [discriminate|].
        split.
        { intros p [= <-]. split; [reflexivity|]. split; [reflexivity|].
          apply lookup_insert_eq. }
        split; [discriminate|].
        intros q node Hq Hne. rewrite lookup_insert_ne by congruence. exact Hq.
      * eexists _, _. split; [reflexivity|]. simpl.
        split; [discriminate|]. split; [discriminate|].
        split; [intros _ _; eexists; reflexivity|].
        intros q node Hq _. exact Hq.
    + unfold bind at 1. unfold bind at 1. unfold makedirs at 1.
      destruct (bool_decide (csv_base_path ∈ locked w0)
                || bool_decide (is_Some (files w0 !! csv_base_path)))
        eqn:Hmk.
      * eexists _, _. split; [reflexivity|]. simpl.
        split; [discriminate|]. split; [discriminate|].
        split; [intros _ _; eexists; reflexivity|].
        intros q node Hq _. exact Hq.
      * cbv beta iota. unfold bind at 1. unfold Log_ at 1. cbv beta iota.
        assert (Hkeep : forall q node,
                  files w !! q = Some node ->
                  (<[csv_base_path := Dir]> (files w0)) !! q = Some node).
        { intros q node Hq. destruct (decide (csv_base_path = q)) as [->|Hne].
          - apply bool_decide_eq_false in Hpresent. exfalso. apply Hpresent.
            simpl. rewrite Hq. eauto.
          - rewrite lookup_insert_ne by exact Hne. exact Hq. }
        unfold bind at 1. unfold write_file at 1.
        match goal with
        | |- context [can_open ?w1 path] =>
            destruct (can_open w1 path) eqn:Hopen
        end.
        -- eexists _, _. split; [reflexivity|]. simpl.
           split; [discriminate|].
           split.
           { intros p [= <-]. split; [reflexivity|]. split; [reflexivity|].
             apply lookup_insert_eq. }
           split; [discriminate|].
           intros q node Hq Hne. rewrite lookup_insert_ne by congruence.
           apply Hkeep. exact Hq.
        -- eexists _, _. split; [reflexivity|]. simpl.
           split; [discriminate|]. split; [discriminate|].
           split; [intros _ _; eexists; reflexivity|].
           intros q node Hq _. apply Hkeep. exact Hq.
Qed.

End Save.

End SaveFacts.
